(** * To-The-Moon: the decision / execution cycle of the trading bot

    A shallow embedding of the JavaScript sources

    - [src/rag/ragAgent.js]       (class [RAGAgent]),
    - [src/rag/vectorStore.js]    (class [VectorStore]),
    - [src/trading/riskManager.js],
    - [src/trading/tradingEngine.js] (class [TradingEngine]),
    - [src/api/roostooClient.js]  (the signed requests),

    followed by the properties of the design document that are checked
    against them.

    Conventions of the embedding.

    - A JavaScript number is an IEEE 754 binary64 value: Rocq's primitive
      [float], with the operations of [PrimFloat].
    - A JavaScript string is a [string]; only the ASCII range is modelled
      (code units 0..127), so [toUpperCase], [toLowerCase], [trim], [\w]
      and [\s] are their ASCII restrictions.
    - A JavaScript value that reaches the code from JSON ([JSON.parse] of
      a model reply, the exchange's balance table) is a [value]; an object
      is the list of its own properties in insertion order.
    - A [throw] is the [Throw] branch of [result]; [try]/[catch] is
      [catch].  A promise that rejects is a [Throw] as well: every [await]
      in the modelled methods is sequential.
    - The outcome of a call to an external collaborator (DeepSeek, OpenAI,
      the exchange, the file system, the clock) is an input of the model.
    - A call of the logger is taken to succeed; the lines it is given are
      kept where a property speaks of them. *)

From Stdlib Require Import ZArith Floats List String Ascii Bool Lia.
From Stdlib Require Import Permutation Sorted.
Import ListNotations.

Set Warnings "-register-all,-inexact-float".

Local Open Scope string_scope.
Local Open Scope Z_scope.

(* ================================================================== *)
(** * Results and exceptions *)
(* ================================================================== *)

Inductive error : Type :=
| TypeError (msg : string)
| SyntaxError (msg : string)
| Error (msg : string).

Inductive result (A : Type) : Type :=
| Ok (a : A)
| Throw (e : error).

Arguments Ok {A} a.
Arguments Throw {A} e.

Definition bind {A B : Type} (r : result A) (k : A -> result B) : result B :=
  match r with
  | Ok a => k a
  | Throw e => Throw e
  end.

(** [try { body } catch (error) { handler }] *)
Definition catch {A : Type} (body : result A) (handler : error -> result A)
  : result A :=
  match body with
  | Ok a => Ok a
  | Throw e => handler e
  end.

Definition is_ok {A : Type} (r : result A) : bool :=
  match r with Ok _ => true | Throw _ => false end.

Declare Scope js_scope.
Delimit Scope js_scope with js.
Notation "x <- e ;; k" := (bind e (fun x => k))
  (at level 61, e at next level, right associativity) : js_scope.
Local Open Scope js_scope.

(* ================================================================== *)
(** * Numbers *)
(* ================================================================== *)

Module Num.

Definition NaN : float := PrimFloat.nan.
Definition Infinity : float := PrimFloat.infinity.

(** [Number.isFinite] on a value that is a number. *)
Definition isFinite (x : float) : bool := PrimFloat.is_finite x.

(** [x > y], [x <= y] and the like are [PrimFloat.ltb] and
    [PrimFloat.leb]: both are [false] as soon as one side is NaN. *)
Definition gt (x y : float) : bool := PrimFloat.ltb y x.
Definition le (x y : float) : bool := PrimFloat.leb x y.
Definition ge (x y : float) : bool := PrimFloat.leb y x.

(** [Math.min] and [Math.max] of two numbers: NaN when one argument is
    NaN, and -0 below +0. *)
Definition Math_min (x y : float) : float :=
  if (PrimFloat.is_nan x || PrimFloat.is_nan y)%bool then NaN
  else if PrimFloat.ltb x y then x
  else if PrimFloat.ltb y x then y
  else if PrimFloat.get_sign x then x else y.

Definition Math_max (x y : float) : float :=
  if (PrimFloat.is_nan x || PrimFloat.is_nan y)%bool then NaN
  else if PrimFloat.ltb x y then y
  else if PrimFloat.ltb y x then x
  else if PrimFloat.get_sign x then y else x.

Definition Math_sqrt (x : float) : float := PrimFloat.sqrt x.

(** A number is falsy when it is +0, -0 or NaN. *)
Definition truthy (x : float) : bool :=
  negb (PrimFloat.is_nan x || PrimFloat.is_zero x).

(** The number of an integer, rounded to nearest even (exact below 2^53). *)
Definition of_Z (n : Z) : float :=
  SF2Prim (binary_normalize prec emax n 0 false).

(** The number nearest to [(-1)^neg * m * 10^e], [0 <= m]: the value of a
    decimal literal.  For a negative exponent the quotient is computed
    with more than 64 significant bits and a sticky last bit, which
    rounds to the same binary64 number as the exact quotient. *)
Definition of_decimal (neg : bool) (m e : Z) : float :=
  let sgn (n : Z) := if neg then Z.opp n else n in
  if m =? 0 then (if neg then PrimFloat.neg_zero else PrimFloat.zero)
  else if 0 <=? e then
    SF2Prim (binary_normalize prec emax (sgn (m * 10 ^ e)) 0 false)
  else
    let d := 10 ^ (- e) in
    let s := Z.max 0 (Z.log2 d + 66 - Z.log2 m) in
    let q := (m * 2 ^ s) / d in
    let r := (m * 2 ^ s) mod d in
    let q' := 2 * q + (if r =? 0 then 0 else 1) in
    SF2Prim (binary_normalize prec emax (sgn q') (- s - 1) false).

End Num.

(* ================================================================== *)
(** * Strings *)
(* ================================================================== *)

Module Str.

Definition code (c : ascii) : Z := Z.of_N (N_of_ascii c).

Definition chars (s : string) : list ascii := list_ascii_of_string s.
Definition of_chars (l : list ascii) : string := string_of_list_ascii l.

(** White space and line terminators of the ASCII range: TAB, LF, VT,
    FF, CR and SP.  This is the regular expression class [\s] too. *)
Definition is_space (c : ascii) : bool :=
  let n := code c in ((9 <=? n) && (n <=? 13)) || (n =? 32).

Definition is_digit (c : ascii) : bool :=
  let n := code c in (48 <=? n) && (n <=? 57).

Definition is_upper (c : ascii) : bool :=
  let n := code c in (65 <=? n) && (n <=? 90).

Definition is_lower (c : ascii) : bool :=
  let n := code c in (97 <=? n) && (n <=? 122).

(** The regular expression class [\w]: [A-Za-z0-9_]. *)
Definition is_word (c : ascii) : bool :=
  is_upper c || is_lower c || is_digit c || (code c =? 95).

Definition upper_char (c : ascii) : ascii :=
  if is_lower c then ascii_of_N (N_of_ascii c - 32) else c.

Definition lower_char (c : ascii) : ascii :=
  if is_upper c then ascii_of_N (N_of_ascii c + 32) else c.

(** A text of the ASCII range, on which [toUpperCase] and [toLowerCase]
    below are the methods of JavaScript. *)
Definition ascii_only (s : string) : bool :=
  forallb (fun c => code c <? 128) (chars s).

Definition toUpperCase (s : string) : string :=
  of_chars (map upper_char (chars s)).

Definition toLowerCase (s : string) : string :=
  of_chars (map lower_char (chars s)).

Fixpoint drop_spaces (l : list ascii) : list ascii :=
  match l with
  | c :: tl => if is_space c then drop_spaces tl else l
  | [] => []
  end.

Definition trimStart (s : string) : string :=
  of_chars (drop_spaces (chars s)).

Definition trim (s : string) : string :=
  of_chars (rev (drop_spaces (rev (drop_spaces (chars s))))).

Definition is_empty (s : string) : bool :=
  match s with EmptyString => true | _ => false end.

(** [s.split(sep)] for a one-character separator: the pieces between the
    occurrences of [sep]; never the empty list. *)
Fixpoint split_chars (sep : ascii) (l : list ascii) : list (list ascii) :=
  match l with
  | [] => [[]]
  | c :: tl =>
      if Ascii.eqb c sep then [] :: split_chars sep tl
      else match split_chars sep tl with
           | piece :: pieces => (c :: piece) :: pieces
           | [] => [[c]]
           end
  end.

Definition split (sep : ascii) (s : string) : list string :=
  map of_chars (split_chars sep (chars s)).

(** [s.split(/\s+/)]: the pieces between the maximal runs of white
    space.  A leading or trailing run leaves an empty first or last
    piece, as in JavaScript. *)
Fixpoint split_spaces_from (l : list ascii) (in_run : bool)
  : list (list ascii) :=
  match l with
  | [] => [[]]
  | c :: tl =>
      if is_space c then
        if in_run then split_spaces_from tl true
        else [] :: split_spaces_from tl true
      else match split_spaces_from tl false with
           | piece :: pieces => (c :: piece) :: pieces
           | [] => [[c]]
           end
  end.

Definition split_spaces (s : string) : list string :=
  map of_chars (split_spaces_from (chars s) false).

(** The decimal digits of an integer [n >= 0]: the string of an array
    index, and of [Date.now()]. *)
Definition digit_char (d : Z) : ascii := ascii_of_N (Z.to_N (48 + d)).

Fixpoint decimal_fuel (fuel : nat) (n : Z) (acc : list ascii) : list ascii :=
  match fuel with
  | O => acc
  | S fuel' =>
      let acc' := digit_char (n mod 10) :: acc in
      if n / 10 =? 0 then acc' else decimal_fuel fuel' (n / 10) acc'
  end.

Definition decimal (n : Z) : list ascii :=
  decimal_fuel (S (Z.to_nat (Z.log2 n))) n [].

Definition of_Z (n : Z) : string := of_chars (decimal n).

Definition of_nat (n : nat) : string := of_Z (Z.of_nat n).

Fixpoint digits_value (l : list ascii) (acc : Z) : Z :=
  match l with
  | [] => acc
  | c :: tl => digits_value tl (10 * acc + (code c - 48))
  end.

(** The array index a property key denotes, when it is the canonical
    decimal spelling of one. *)
Definition index_of_key (k : string) : option nat :=
  let l := chars k in
  match l with
  | [] => None
  | c :: tl =>
      if forallb is_digit l && negb ((code c =? 48) && negb (List.length tl =? 0)%nat)
      then Some (Z.to_nat (digits_value l 0))
      else None
  end.

(** ** [parseFloat] on a string

    The longest prefix of the string, after leading white space, that is
    a [StrDecimalLiteral]:
    [[+-]? (Infinity | digits [. digits?] exp? | . digits exp?)] with
    [exp ::= [eE] [+-]? digits]; NaN when there is none. *)

Fixpoint take_digits (l : list ascii) : list ascii * list ascii :=
  match l with
  | c :: tl =>
      if is_digit c then let (ds, rest) := take_digits tl in (c :: ds, rest)
      else ([], l)
  | [] => ([], [])
  end.

Fixpoint starts_with (p l : list ascii) : bool :=
  match p, l with
  | [], _ => true
  | c :: p', d :: l' => Ascii.eqb c d && starts_with p' l'
  | _ :: _, [] => false
  end.

(** [s.includes(p)]: [p] occurs somewhere in [s]. *)
Fixpoint occurs (p l : list ascii) : bool :=
  starts_with p l
  || match l with
     | [] => false
     | _ :: tl => occurs p tl
     end.

Definition includes (s p : string) : bool := occurs (chars p) (chars s).

(** The exponent part at the head of [l] and what follows it; exponent
    0 and [l] itself when there is none. *)
Definition exponent_part (l : list ascii) : Z * list ascii :=
  match l with
  | c :: tl =>
      if (code c =? 101) || (code c =? 69) then
        let (neg, tl') :=
          match tl with
          | s :: tl'' =>
              if code s =? 45 then (true, tl'')
              else if code s =? 43 then (false, tl'')
              else (false, tl)
          | [] => (false, tl)
          end in
        match take_digits tl' with
        | ([], _) => (0, l)
        | (ds, rest) =>
            (if neg then - digits_value ds 0 else digits_value ds 0, rest)
        end
      else (0, l)
  | [] => (0, l)
  end.

(** The longest [StrUnsignedDecimalLiteral] at the head of [l]: its
    value and the characters after it. *)
Definition parse_unsigned (neg : bool) (l : list ascii)
  : option (float * list ascii) :=
  if starts_with (chars "Infinity") l then
    Some (if neg then PrimFloat.neg_infinity else PrimFloat.infinity,
          skipn 8 l)
  else
    let (ip, r1) := take_digits l in
    let (fp, r2) :=
      match r1 with
      | c :: tl => if code c =? 46 then take_digits tl else ([], r1)
      | [] => ([], r1)
      end in
    match (ip ++ fp)%list with
    | [] => None
    | ds =>
        let (e, r3) := exponent_part r2 in
        Some (Num.of_decimal neg (digits_value ds 0)
                (e - Z.of_nat (List.length fp)), r3)
    end.

(** The longest [StrDecimalLiteral] at the head of [l]. *)
Definition parse_decimal (l : list ascii) : option (float * list ascii) :=
  match l with
  | c :: tl =>
      if code c =? 45 then parse_unsigned true tl
      else if code c =? 43 then parse_unsigned false tl
      else parse_unsigned false l
  | [] => None
  end.

Definition parseFloat (s : string) : float :=
  match parse_decimal (drop_spaces (chars s)) with
  | Some (x, _) => x
  | None => Num.NaN
  end.

(** ** [StringToNumber], the conversion that arithmetic applies to a
    string: the whole trimmed string must be a numeric literal, the
    empty string is 0, and [0x], [0o], [0b] integers are accepted. *)

Definition digit_in_radix (radix : Z) (c : ascii) : option Z :=
  let n := code c in
  let d := if is_digit c then n - 48
           else if is_lower c then n - 87
           else if is_upper c then n - 55
           else radix in
  if d <? radix then Some d else None.

Fixpoint radix_value (radix : Z) (l : list ascii) (acc : Z) : option Z :=
  match l with
  | [] => Some acc
  | c :: tl =>
      match digit_in_radix radix c with
      | Some d => radix_value radix tl (radix * acc + d)
      | None => None
      end
  end.

Definition radix_literal (l : list ascii) : option (option Z) :=
  match l with
  | z :: x :: ds =>
      if code z =? 48 then
        let n := code x in
        let radix := if (n =? 120) || (n =? 88) then 16
                     else if (n =? 111) || (n =? 79) then 8
                     else if (n =? 98) || (n =? 66) then 2
                     else 0 in
        if radix =? 0 then None
        else Some (match ds with [] => None | _ => radix_value radix ds 0 end)
      else None
  | _ => None
  end.

Definition toNumber (s : string) : float :=
  let l := rev (drop_spaces (rev (drop_spaces (chars s)))) in
  match l with
  | [] => PrimFloat.zero
  | _ =>
      match radix_literal l with
      | Some (Some n) => Num.of_Z n
      | Some None => Num.NaN
      | None =>
          match parse_decimal l with
          | Some (x, []) => x
          | _ => Num.NaN
          end
      end
  end.

End Str.

(* ================================================================== *)
(** * JavaScript values *)
(* ================================================================== *)

(** The values that [JSON.parse] produces, and [undefined] for a
    property that is absent.  An object lists its own properties in
    insertion order, which is the order of [Object.values] and of the
    spread [{...o}]. *)
Inductive value : Type :=
| VUndefined
| VNull
| VBool (b : bool)
| VNum (x : float)
| VStr (s : string)
| VArr (items : list value)
| VObj (props : list (string * value)).

(** The kinds of value that have a prototype of their own before
    [Object.prototype]. *)
Inductive builtin : Type := BArray | BString | BNumber | BBoolean.

(** What the host provides and the embedding does not spell out:
    [Number::toString] (radix 10), [Number.prototype.toFixed],
    [JSON.stringify] and [JSON.parse] ([None] is a [SyntaxError]), and the
    names of the members of [Array.prototype], [String.prototype],
    [Number.prototype] and [Boolean.prototype], which grow with the
    editions of the language. *)
Class Runtime : Type := {
  number_to_string : float -> string;
  number_toFixed : float -> nat -> string;
  JSON_stringify : value -> string;
  JSON_parse : string -> option value;
  prototype_keys : builtin -> list string
}.

Module JS.

Definition truthy (v : value) : bool :=
  match v with
  | VUndefined | VNull => false
  | VBool b => b
  | VNum x => Num.truthy x
  | VStr s => negb (Str.is_empty s)
  | VArr _ | VObj _ => true
  end.

(** [a || b] *)
Definition or_else (a b : value) : value := if truthy a then a else b.

(** [a ?? b] *)
Definition nullish (a b : value) : value :=
  match a with
  | VUndefined | VNull => b
  | _ => a
  end.

Definition is_nullish (a : value) : bool :=
  match a with
  | VUndefined | VNull => true
  | _ => false
  end.

(** [v === null] *)
Definition is_null (a : value) : bool :=
  match a with
  | VNull => true
  | _ => false
  end.

(** [typeof v === 'object'] *)
Definition typeof_object (v : value) : bool :=
  match v with
  | VNull | VArr _ | VObj _ => true
  | _ => false
  end.

(** [v === s] for a string literal [s] *)
Definition is_string (v : value) (s : string) : bool :=
  match v with
  | VStr t => String.eqb t s
  | _ => false
  end.

Fixpoint lookup (k : string) (props : list (string * value)) : option value :=
  match props with
  | [] => None
  | (k', v) :: tl => if String.eqb k k' then Some v else lookup k tl
  end.

Definition has_own (k : string) (props : list (string * value)) : bool :=
  match lookup k props with Some _ => true | None => false end.

(** [o[k] = v] on the property list of an object: an existing property
    keeps its place, a new one goes last. *)
Fixpoint set (k : string) (v : value) (props : list (string * value))
  : list (string * value) :=
  match props with
  | [] => [(k, v)]
  | (k', v') :: tl =>
      if String.eqb k k' then (k, v) :: tl else (k', v') :: set k v tl
  end.

Fixpoint indexed_from (i : nat) (l : list value) : list (string * value) :=
  match l with
  | [] => []
  | x :: tl => (Str.of_nat i, x) :: indexed_from (S i) tl
  end.

(** The own enumerable properties that [{...v}] copies. *)
Definition spread (v : value) : list (string * value) :=
  match v with
  | VObj props => props
  | VArr items => indexed_from 0 items
  | VStr s =>
      indexed_from 0 (map (fun c => VStr (String c EmptyString)) (Str.chars s))
  | _ => []
  end.

(** [{...a, ...b}] on property lists. *)
Definition assign (a b : list (string * value)) : list (string * value) :=
  fold_left (fun o kv => set (fst kv) (snd kv) o) b a.

(** [Object.values(v)] *)
Definition Object_values (v : value) : result (list value) :=
  match v with
  | VUndefined | VNull =>
      Throw (TypeError "Cannot convert undefined or null to object")
  | _ => Ok (map snd (spread v))
  end.

(** [Object.keys(v).length] *)
Definition Object_keys_length (v : value) : result nat :=
  match v with
  | VUndefined | VNull =>
      Throw (TypeError "Cannot convert undefined or null to object")
  | _ => Ok (List.length (spread v))
  end.

(** [v.k] for a key [k] that the source spells out ([action], [symbol],
    [balance], [length], ...): the own data properties of the value.
    None of these keys names a member of a prototype other than
    [length], so an object that has no such property of its own gives
    [undefined].  Reading a property of [undefined] or [null] throws a
    [TypeError]; its text is the host's and only its kind matters.  A key
    that is computed, as in [balance[currency]], is read with
    [get_computed] below. *)
Definition get (v : value) (k : string) : result value :=
  match v with
  | VUndefined | VNull =>
      Throw (TypeError ("Cannot read properties of undefined or null (reading '"
                        ++ k ++ "')"))
  | VObj props =>
      Ok (match lookup k props with Some x => x | None => VUndefined end)
  | VArr items =>
      if String.eqb k "length" then
        Ok (VNum (Num.of_Z (Z.of_nat (List.length items))))
      else Ok (match Str.index_of_key k with
               | Some i => nth i items VUndefined
               | None => VUndefined
               end)
  | VStr s =>
      if String.eqb k "length" then
        Ok (VNum (Num.of_Z (Z.of_nat (String.length s))))
      else Ok (match Str.index_of_key k with
               | Some i => match String.get i s with
                           | Some c => VStr (String c EmptyString)
                           | None => VUndefined
                           end
               | None => VUndefined
               end)
  | VBool _ | VNum _ => Ok VUndefined
  end.

(** The names under which every object finds a member of
    [Object.prototype]: its methods, the constructor [Object], and under
    [__proto__] the prototype itself. *)
Definition Object_prototype : list string :=
  ["constructor"; "__defineGetter__"; "__defineSetter__"; "hasOwnProperty";
   "__lookupGetter__"; "__lookupSetter__"; "isPrototypeOf";
   "propertyIsEnumerable"; "toString"; "valueOf"; "__proto__";
   "toLocaleString"].

(** [Object.hasOwn(v, k)] for a value that is neither [undefined] nor
    [null]: a property of an object, an index or the [length] of an
    array or of a string. *)
Definition own (v : value) (k : string) : bool :=
  match v with
  | VObj props => has_own k props
  | VArr items =>
      String.eqb k "length"
      || match Str.index_of_key k with
         | Some i => (i <? List.length items)%nat
         | None => false
         end
  | VStr s =>
      String.eqb k "length"
      || match Str.index_of_key k with
         | Some i => (i <? String.length s)%nat
         | None => false
         end
  | _ => false
  end.

(** What [v[k]] finds for a computed key: a data property, [undefined]
    when there is none on the prototype chain either; a method that the
    value inherits; or, under [__proto__], its prototype. *)
Inductive found : Type :=
| Data (x : value)
| Method
| Prototype.

(** [v.k] for a receiver that is neither [undefined] nor [null]. *)
Definition field (v : value) (k : string) : value :=
  match get v k with
  | Ok x => x
  | Throw _ => VUndefined
  end.

Section WithRuntime.
Context `{Runtime}.

(** The abstract operation [ToString], which template literals,
    [Array.prototype.join] and [parseFloat] apply.  An object converts to
    ["[object Object]"] through [Object.prototype.toString]; when it has
    an own [toString] property (a JSON value, so not callable) the
    conversion throws. *)
Fixpoint toString (v : value) : result string :=
  match v with
  | VUndefined => Ok "undefined"
  | VNull => Ok "null"
  | VBool true => Ok "true"
  | VBool false => Ok "false"
  | VNum x => Ok (number_to_string x)
  | VStr s => Ok s
  | VArr items =>
      (fix join (l : list value) : result string :=
         match l with
         | [] => Ok ""
         | x :: tl =>
             sx <- match x with
                   | VUndefined | VNull => Ok ""
                   | _ => toString x
                   end ;;
             match tl with
             | [] => Ok sx
             | _ => rest <- join tl ;; Ok (sx ++ "," ++ rest)
             end
         end) items
  | VObj props =>
      if has_own "toString" props
      then Throw (TypeError "Cannot convert object to primitive value")
      else Ok "[object Object]"
  end.

(** [items.join(sep)]: [undefined] and [null] give the empty string. *)
Fixpoint join (sep : string) (items : list value) : result string :=
  match items with
  | [] => Ok ""
  | x :: tl =>
      sx <- match x with
            | VUndefined | VNull => Ok ""
            | _ => toString x
            end ;;
      match tl with
      | [] => Ok sx
      | _ => rest <- join sep tl ;; Ok (sx ++ sep ++ rest)
      end
  end.

(** The method call [v.toString()]. *)
Definition toString_method (v : value) : result string :=
  match v with
  | VUndefined | VNull =>
      Throw (TypeError "Cannot read properties of undefined or null (reading 'toString')")
  | VObj props =>
      if has_own "toString" props
      then Throw (TypeError "toString is not a function")
      else Ok "[object Object]"
  | _ => toString v
  end.

(** [parseFloat(v)]: [ToString] then the string parser.  For a number the
    round trip through [Number::toString] gives the number back, -0
    becoming +0 (its string is ["0"]). *)
Definition parseFloat (v : value) : result float :=
  match v with
  | VNum x => Ok (if PrimFloat.is_zero x then PrimFloat.zero else x)
  | _ => s <- toString v ;; Ok (Str.parseFloat s)
  end.

(** The property key a value denotes in [o[v]]. *)
Definition to_key (v : value) : result string := toString v.

(** The names of the members that a value inherits: those of the
    prototype of its kind and those of [Object.prototype]. *)
Definition inherits (v : value) (k : string) : bool :=
  existsb (String.eqb k)
    ((match v with
      | VArr _ => prototype_keys BArray
      | VStr _ => prototype_keys BString
      | VNum _ => prototype_keys BNumber
      | VBool _ => prototype_keys BBoolean
      | _ => []
      end) ++ Object_prototype)%list.

(** [v[k]] for a computed key [k]: an own property hides an inherited
    member of the same name. *)
Definition get_computed (v : value) (k : string) : result found :=
  x <- get v k ;;
  if own v k then Ok (Data x)
  else if negb (inherits v k) then Ok (Data VUndefined)
  else if String.eqb k "__proto__" then Ok Prototype
  else Ok Method.

(** The abstract operation [ToNumber], which [*] and [/] apply to their
    operands. *)
Definition toNumber (v : value) : result float :=
  match v with
  | VUndefined => Ok Num.NaN
  | VNull => Ok PrimFloat.zero
  | VBool true => Ok PrimFloat.one
  | VBool false => Ok PrimFloat.zero
  | VNum x => Ok x
  | VStr s => Ok (Str.toNumber s)
  | VArr _ | VObj _ => s <- toString v ;; Ok (Str.toNumber s)
  end.

End WithRuntime.

(** [Number.isFinite(v)] *)
Definition Number_isFinite (v : value) : bool :=
  match v with
  | VNum x => Num.isFinite x
  | _ => false
  end.

End JS.

(* ================================================================== *)
(** * State and exceptions together *)
(* ================================================================== *)

(** A method that mutates an object and may throw: the mutation made
    before a [throw] stays, as in JavaScript. *)
Definition M (S A : Type) : Type := S -> result A * S.

Definition ret {S A : Type} (a : A) : M S A := fun s => (Ok a, s).

Definition throw {S A : Type} (e : error) : M S A := fun s => (Throw e, s).

Definition lift {S A : Type} (r : result A) : M S A := fun s => (r, s).

Definition bindM {S A B : Type} (m : M S A) (k : A -> M S B) : M S B :=
  fun s =>
    match m s with
    | (Ok a, s') => k a s'
    | (Throw e, s') => (Throw e, s')
    end.

Definition catchM {S A : Type} (body : M S A) (handler : error -> M S A)
  : M S A :=
  fun s =>
    match body s with
    | (Ok a, s') => (Ok a, s')
    | (Throw e, s') => handler e s'
    end.

Definition read {S : Type} : M S S := fun s => (Ok s, s).
Definition write {S : Type} (s : S) : M S unit := fun _ => (Ok tt, s).

Notation "x <~ e ;; k" := (bindM e (fun x => k))
  (at level 61, e at next level, right associativity) : js_scope.
Notation "e ;;; k" := (bindM e (fun _ => k))
  (at level 61, right associativity) : js_scope.

(** What the logger is told at the levels the design speaks of. *)
Inductive level : Type := WARN | ERROR.

Definition log_entry : Type := (level * string)%type.

(* ================================================================== *)
(** * [src/rag/vectorStore.js] *)
(* ================================================================== *)

Module VectorStore.

(** One element of [this.strategies]. [timestamp] is the clock reading
    that [new Date().toISOString()] renders. *)
Record entry : Type := {
  id : string;
  strategy : string;
  embedding : list float;
  metadata : value;
  timestamp : Z
}.

(** What [strategies.json] holds: the text of a record log, whole, or
    what is left of that text by a write that failed after the file was
    opened (opening it empties it). *)
Inductive file : Type :=
| Whole (records : list entry)
| Torn (records : list entry).

(** The singleton: the array [this.strategies], the content of
    [strategies.json], and the lines the logger received at level
    [ERROR] (its info and debug lines are left out). *)
Record store : Type := {
  strategies : list entry;
  disk : file;
  log : list log_entry
}.

(** [{...entry, similarity}] *)
Record scored : Type := {
  scored_entry : entry;
  similarity : float
}.

(** ** [simpleHash] *)

(** [ToInt32]: the result of [<<] and of [hash & hash]. *)
Definition to_int32 (z : Z) : Z := (z + 2 ^ 31) mod 2 ^ 32 - 2 ^ 31.

(** [hash = ((hash << 5) - hash) + char; hash = hash & hash] *)
Definition hash_step (hash : Z) (c : ascii) : Z :=
  to_int32 (to_int32 (Z.shiftl hash 5) - hash + Str.code c).

Definition simpleHash (str : string) : Z :=
  Z.abs (fold_left hash_step (Str.chars str) 0).

(** ** [generateEmbedding] *)

(** [text.toLowerCase().replace(/[^\w\s]/g, ' ')] *)
Definition clean_char (c : ascii) : ascii :=
  let c' := Str.lower_char c in
  if Str.is_word c' || Str.is_space c' then c' else " "%char.

Definition clean (text : string) : string :=
  Str.of_chars (map clean_char (Str.chars text)).

(** [.split(/\s+/).filter(w => w.length > 2)] *)
Definition words (text : string) : list string :=
  filter (fun w => (2 <? String.length w)%nat) (Str.split_spaces (clean text)).

Definition bucket (word : string) : nat := Z.to_nat (simpleHash word mod 128).

(** [embedding[i] += 1], for an index inside the array. *)
Fixpoint bump (i : nat) (embedding : list float) : list float :=
  match embedding, i with
  | x :: tl, O => (x + 1)%float :: tl
  | x :: tl, S j => x :: bump j tl
  | [], _ => []
  end.

(** [new Array(128).fill(0)] after [words.forEach(...)] *)
Definition counts (ws : list string) : list float :=
  fold_left (fun embedding word => bump (bucket word) embedding) ws
            (repeat 0%float 128).

(** [Math.sqrt(embedding.reduce((sum, val) => sum + val * val, 0))] *)
Definition magnitude (embedding : list float) : float :=
  Num.Math_sqrt (fold_left (fun sum val => (sum + val * val)%float)
                           embedding 0%float).

Definition normalize (embedding : list float) : list float :=
  let m := magnitude embedding in
  map (fun val => if Num.gt m 0 then (val / m)%float else 0%float) embedding.

Definition generateEmbedding (text : string) : list float :=
  normalize (counts (words text)).

(** ** [cosineSimilarity] *)

(** The loop: [dotProduct], [magnitude1], [magnitude2] accumulated in
    index order. *)
Fixpoint accumulate (vec1 vec2 : list float) (acc : float * float * float)
  : float * float * float :=
  match vec1, vec2 with
  | x :: t1, y :: t2 =>
      let '(dot, m1, m2) := acc in
      accumulate t1 t2 ((dot + x * y)%float, (m1 + x * x)%float,
                        (m2 + y * y)%float)
  | _, _ => acc
  end.

Definition cosineSimilarity (vec1 vec2 : list float) : float :=
  if negb (List.length vec1 =? List.length vec2)%nat then 0%float
  else
    let '(dot, m1, m2) := accumulate vec1 vec2 (0, 0, 0)%float in
    let magnitude1 := Num.Math_sqrt m1 in
    let magnitude2 := Num.Math_sqrt m2 in
    if PrimFloat.eqb magnitude1 0 || PrimFloat.eqb magnitude2 0 then 0%float
    else (dot / (magnitude1 * magnitude2))%float.

(** ** [searchSimilar] *)

(** The comparator [(a, b) => b.similarity - a.similarity]. *)
Definition comparator (a b : scored) : float :=
  (similarity b - similarity a)%float.

(** [Array.prototype.sort] is stable, and a negative comparator value
    puts its first argument first.  [insert x l] puts [x], which stood
    before every element of [l], into the sorted [l]: behind the elements
    that the comparator puts strictly before it. *)
Fixpoint insert (x : scored) (l : list scored) : list scored :=
  match l with
  | [] => [x]
  | y :: tl =>
      if PrimFloat.ltb (comparator y x) 0 then y :: insert x tl
      else x :: y :: tl
  end.

Definition sort (l : list scored) : list scored := fold_right insert [] l.

(** [.slice(0, topK)] for an integer [topK]: a negative [topK] counts
    from the end. *)
Definition slice0 {A : Type} (topK : Z) (l : list A) : list A :=
  let len := Z.of_nat (List.length l) in
  let final := if topK <? 0 then Z.max (len + topK) 0 else Z.min topK len in
  firstn (Z.to_nat final) l.

Definition score (queryEmbedding : list float) (e : entry) : scored :=
  {| scored_entry := e;
     similarity := cosineSimilarity queryEmbedding (embedding e) |}.

Definition searchSimilar (s : store) (query : string) (topK : Z)
  : list scored :=
  let queryEmbedding := generateEmbedding query in
  slice0 topK
    (sort (filter (fun e => Num.gt (similarity e) 0.1)
                  (map (score queryEmbedding) (strategies s)))).

(** ** [saveStrategies] and [addStrategy] *)

(** How [fs.writeFileSync] ends: the text is written; or it throws
    before the file is opened, and the file is as it was; or it throws
    after the file was opened, which has emptied it, and the file holds
    what was written until then. *)
Inductive write_outcome : Type := Written | NotOpened | Interrupted.

(** What the environment decides during one [addStrategy]: the two clock
    readings (milliseconds since the epoch, not negative) and what
    becomes of [fs.writeFileSync]. *)
Record io : Type := {
  date_now : Z;
  new_date : Z;
  write : write_outcome
}.

(** [try { fs.writeFileSync(...) } catch (error) { logger.error(...) }];
    the call of the logger is taken to return, like every call of the
    logger. *)
Definition saveStrategies (w : io) : M store unit :=
  fun s =>
    match write w with
    | Written =>
        (Ok tt, {| strategies := strategies s; disk := Whole (strategies s);
                   log := log s |})
    | NotOpened =>
        (Ok tt, {| strategies := strategies s; disk := disk s;
                   log := (log s ++ [(ERROR, "Failed to save strategies to vector store")])%list |})
    | Interrupted =>
        (Ok tt, {| strategies := strategies s; disk := Torn (strategies s);
                   log := (log s ++ [(ERROR, "Failed to save strategies to vector store")])%list |})
    end.

(** [this.strategies.push(strategyEntry)] *)
Definition push (e : entry) : M store unit :=
  fun s =>
    (Ok tt, {| strategies := (strategies s ++ [e])%list; disk := disk s;
               log := log s |}).

(** The parameter [metadata = {}]: the default stands in for
    [undefined]. *)
Definition metadata_or_empty (metadata : value) : value :=
  match metadata with
  | VUndefined => VObj []
  | _ => metadata
  end.

(** [addStrategy(strategy, metadata)]. The argument is whatever the
    caller passes; [text.toLowerCase()] throws unless it is a string. *)
Definition addStrategy (w : io) (strategy metadata : value) : M store string :=
  match strategy with
  | VStr text =>
      let strategyEntry :=
        {| id := Str.of_Z (date_now w);
           strategy := text;
           embedding := generateEmbedding text;
           metadata := metadata_or_empty metadata;
           timestamp := new_date w |} in
      push strategyEntry ;;;
      saveStrategies w ;;;
      ret (id strategyEntry)
  | _ => throw (TypeError "text.toLowerCase is not a function")
  end.

End VectorStore.

(* ================================================================== *)
(** * [src/rag/ragAgent.js] *)
(* ================================================================== *)

Module RAGAgent.

Import JS.

(** The replies of the collaborators during one workflow: each [await]
    on an external client either resolves to a value or rejects.  The
    prompt sent along is text that only the collaborator reads and is
    left out. *)
Record collaborators : Type := {
  getTradingStrategies : result value;
  getFinancialNews : result value;
  getStockData : result value;
  getMarketSentiment : result value;
  performCalculations : result value;
  analyzeScenario_synthesis : result value;
  analyzeScenario_decision : result value;
  store_io : VectorStore.io
}.

Section WithRuntime.
Context `{Runtime}.

(** ** [normalizeDecision] *)

Definition actions : list string := ["BUY"; "SELL"; "HOLD"].

Definition includes (l : list string) (s : string) : bool :=
  existsb (String.eqb s) l.

Definition clamp01 (confidenceValue : float) : float :=
  if Num.isFinite confidenceValue
  then Num.Math_max 0 (Num.Math_min 1 confidenceValue)
  else 0%float.

(** [(typeof decision.decision === 'object' && decision.decision !== null)
      ? decision.decision : decision] *)
Definition unwrap (decision inner : value) : value :=
  if typeof_object inner && negb (is_null inner) then inner else decision.

Definition normalizeDecision (decision : value) : result value :=
  if negb (truthy decision) || negb (typeof_object decision) then
    Throw (Error "Decision payload must be an object")
  else
    inner <- get decision "decision" ;;
    let candidate := unwrap decision inner in
    a <- get candidate "action" ;;
    a_str <- toString_method (or_else a (VStr "")) ;;
    let action := Str.toUpperCase (Str.trim a_str) in
    if Str.is_empty action then
      Throw (Error "Decision is missing an action")
    else if negb (includes actions action) then
      Throw (Error ("Unsupported decision action: " ++ action))
    else
      reasoning <- get candidate "reasoning" ;;
      explanation <- get candidate "explanation" ;;
      let normalized :=
        set "reasoning" (nullish reasoning (nullish explanation (VStr "")))
          (set "action" (VStr action) (spread candidate)) in
      confidence <- get candidate "confidence" ;;
      confidenceValue <- parseFloat (nullish confidence (VNum 0)) ;;
      let normalized :=
        set "confidence" (VNum (clamp01 confidenceValue)) normalized in
      if String.eqb action "BUY" || String.eqb action "SELL" then
        sym <- get candidate "symbol" ;;
        ticker <- get candidate "ticker" ;;
        sym_str <- toString_method (or_else sym (or_else ticker (VStr ""))) ;;
        let symbol := Str.trim sym_str in
        if Str.is_empty symbol then
          Throw (Error ("Decision action " ++ action ++ " requires a symbol"))
        else
          q <- get candidate "quantity" ;;
          size <- get candidate "size" ;;
          amount <- get candidate "amount" ;;
          let rawQuantity := nullish q (nullish size amount) in
          let quantity :=
            match rawQuantity with
            | VStr s => VNum (Str.parseFloat s)
            | _ => rawQuantity
            end in
          match quantity with
          | VNum x =>
              if negb (Num.isFinite x) || Num.le x 0 then
                Throw (Error ("Decision action " ++ action
                              ++ " requires a positive quantity"))
              else
                Ok (VObj (set "quantity" (VNum x)
                            (set "symbol" (VStr symbol) normalized)))
          | _ =>
              Throw (Error ("Decision action " ++ action
                            ++ " requires a positive quantity"))
          end
      else
        sym <- get candidate "symbol" ;;
        Ok (VObj (set "quantity" (VNum 0)
                    (set "symbol" (nullish sym VNull) normalized))).

(** ** [makeDecision] *)

Definition hold_fallback : value :=
  VObj [("action", VStr "HOLD");
        ("reasoning", VStr "Error in decision making, defaulting to HOLD");
        ("confidence", VNum 0)].

Definition parse_decision (decision : value) : result value :=
  catch
    (match decision with
     | VStr s =>
         match JSON_parse s with
         | Some v => Ok v
         | None => Throw (SyntaxError "Unexpected token")
         end
     | _ => Ok decision
     end)
    (fun _ => Throw (Error "Invalid decision format received from DeepSeek")).

Definition makeDecision (c : collaborators) (synthesizedStrategy portfolio : value)
  : result value :=
  catch
    (decision <- analyzeScenario_decision c ;;
     parsedDecision <- parse_decision decision ;;
     normalizeDecision parsedDecision)
    (fun _ => Ok hold_fallback).

(** ** [extractAction] *)

(** [text.toUpperCase()] is a method of strings only. *)
Definition extractAction (text : value) : result string :=
  match text with
  | VStr t =>
      let upperText := Str.toUpperCase t in
      if Str.includes upperText "BUY" then Ok "BUY"
      else if Str.includes upperText "SELL" then Ok "SELL"
      else Ok "HOLD"
  | _ => Throw (TypeError "text.toUpperCase is not a function")
  end.

(** ** [retrieveStrategies] *)

(** A destructuring default: it replaces [undefined] only. *)
Definition default_to (d v : value) : value :=
  match v with
  | VUndefined => d
  | _ => v
  end.

Record retrieved : Type := {
  similarStrategies : list string;
  newStrategies : value;
  allStrategies : list value
}.

Definition strategy_texts (l : list VectorStore.scored) : list string :=
  map (fun s => VectorStore.strategy (VectorStore.scored_entry s)) l.

Definition retrieveStrategies (c : collaborators) (context : value)
  : M VectorStore.store retrieved :=
  marketConditions <~ lift (get context "marketConditions") ;;
  portfolio <~ lift (get context "portfolio") ;;
  marketData <~ lift (get context "marketData") ;;
  let marketConditions := default_to (VStr "") marketConditions in
  let portfolio := default_to (VObj []) portfolio in
  let marketData := default_to (VObj []) marketData in
  catchM
    (conditions <~ lift (toString marketConditions) ;;
     let query := conditions ++ " " ++ JSON_stringify portfolio
                  ++ " " ++ JSON_stringify marketData in
     s <~ read ;;
     let similar := VectorStore.searchSimilar s query 5 in
     deepSeekStrategies <~ lift (getTradingStrategies c) ;;
     strategies <~ lift (get deepSeekStrategies "strategies") ;;
     (if truthy strategies then
        _ <~ VectorStore.addStrategy (store_io c) strategies
               (VObj [("source", VStr "deepseek");
                      ("context", marketConditions)]) ;;
        ret tt
      else ret tt) ;;;
     ret {| similarStrategies := strategy_texts similar;
            newStrategies := strategies;
            allStrategies := (map VStr (strategy_texts similar)
                              ++ [strategies])%list |})
    (fun _ =>
       s <~ read ;;
       let similar := VectorStore.searchSimilar s (JSON_stringify context) 5 in
       ret {| similarStrategies := strategy_texts similar;
              newStrategies := VStr "";
              allStrategies := map VStr (strategy_texts similar) |}).

(** ** [collectMarketData], [calculateMetrics], [synthesizeStrategy] *)

Definition collectMarketData (c : collaborators) (symbols : value)
  : result value :=
  catch
    (news <- getFinancialNews c ;;
     stockData <- getStockData c ;;
     sentiment <- getMarketSentiment c ;;
     news_news <- get news "news" ;;
     stockData_data <- get stockData "data" ;;
     Ok (VObj [("news", or_else news_news news);
               ("stockData", or_else stockData_data stockData);
               ("sentiment", sentiment)]))
    (fun _ =>
       Ok (VObj [("news", VStr ""); ("stockData", VStr "");
                 ("sentiment", VStr "")])).

Definition calculateMetrics (c : collaborators) (data : value) : result value :=
  catch
    (results <- performCalculations c ;;
     calculations <- get results "calculations" ;;
     raw <- get results "raw" ;;
     Ok (VObj [("calculations", or_else calculations results);
               ("raw", raw)]))
    (fun _ => Ok (VObj [("calculations", VStr ""); ("raw", VNull)])).

Definition count (n : nat) : value := VNum (Num.of_Z (Z.of_nat n)).

Definition synthesizeStrategy (c : collaborators) (strategies : list value)
  (marketData metrics : value) : result value :=
  catch
    (synthesized <- analyzeScenario_synthesis c ;;
     _ <- get synthesized "length" ;;
     Ok synthesized)
    (fun _ =>
       n_marketData <- Object_keys_length marketData ;;
       n_metrics <- Object_keys_length metrics ;;
       Ok (VObj [("strategy", VStr "Combined strategy from multiple sources");
                 ("entry", VStr "Based on technical indicators and market sentiment");
                 ("exit", VStr "Based on risk metrics");
                 ("risk", VStr "Medium");
                 ("confidence", VNum 0.5);
                 ("sources",
                  VObj [("strategies", count (List.length strategies));
                        ("marketData", count n_marketData);
                        ("metrics", count n_metrics)])])).

(** ** [executeWorkflow] *)

Record workflow : Type := {
  decision : value;
  synthesized : value;
  strategies : retrieved;
  marketData : value;
  metrics : value
}.

Definition executeWorkflow (c : collaborators) (context : value)
  : M VectorStore.store workflow :=
  symbols <~ lift (get context "symbols") ;;
  portfolio <~ lift (get context "portfolio") ;;
  marketData <~ lift (get context "marketData") ;;
  currentPositions <~ lift (get context "currentPositions") ;;
  let symbols := default_to (VArr []) symbols in
  let portfolio := default_to (VObj []) portfolio in
  let marketData := default_to (VObj []) marketData in
  let currentPositions := default_to (VArr []) currentPositions in
  catchM
    (description <~ lift (get marketData "description") ;;
     strategies <~ retrieveStrategies c
       (VObj [("marketConditions", or_else description (VStr ""));
              ("portfolio", portfolio);
              ("currentPositions", currentPositions);
              ("marketData", marketData)]) ;;
     collectedData <~ lift (collectMarketData c symbols) ;;
     metrics <~ lift (calculateMetrics c
                        (VObj (assign (spread marketData)
                                      (spread collectedData)))) ;;
     synthesized <~ lift (synthesizeStrategy c (allStrategies strategies)
                            collectedData metrics) ;;
     decision <~ lift (makeDecision c synthesized portfolio) ;;
     ret {| decision := decision;
            synthesized := synthesized;
            strategies := strategies;
            marketData := collectedData;
            metrics := metrics |})
    (fun error => throw error).

End WithRuntime.

End RAGAgent.

(* ================================================================== *)
(** * [src/api/roostooClient.js] *)
(* ================================================================== *)

Module RoostooClient.

Import JS.

(** ** [encodeURIComponent] *)

(** The characters that [encodeURIComponent] leaves as they are:
    letters, digits and [- _ . ! ~ * ' ( )]. *)
Definition unreserved (c : ascii) : bool :=
  Str.is_upper c || Str.is_lower c || Str.is_digit c
  || existsb (Ascii.eqb c)
       ["-"; "_"; "."; "!"; "~"; "*"; "'"; "("; ")"]%char.

Definition hex_upper (d : Z) : ascii :=
  if d <? 10 then Str.digit_char d else ascii_of_N (Z.to_N (55 + d)).

(** [%XX] for the code of a character. *)
Definition percent (c : ascii) : list ascii :=
  ["%"%char; hex_upper (Str.code c / 16); hex_upper (Str.code c mod 16)].

Definition encodeURIComponent (s : string) : string :=
  Str.of_chars
    (flat_map (fun c => if unreserved c then [c] else percent c)
              (Str.chars s)).

(** ** [Object.keys(payload).sort()] *)

(** The default order of [Array.prototype.sort]: strings by their code
    units.  [insert_key k l] puts [k] into the sorted [l]. *)
Fixpoint insert_key (k : string) (l : list string) : list string :=
  match l with
  | [] => [k]
  | k' :: tl => if String.leb k k' then k :: l else k' :: insert_key k tl
  end.

Definition sort_keys (l : list string) : list string :=
  fold_right insert_key [] l.

(** ** Signed requests *)

(** [{ headers, payload, queryString }] *)
Record request : Type := {
  headers : list (string * string);
  payload : list (string * value);
  queryString : string
}.

Section WithKeys.
Context `{Runtime}.

(** [config.roostoo.apiKey], and [generateSignature] with the secret
    key: the HMAC-SHA256 of the query string in hexadecimal, which the
    embedding does not compute. *)
Variable apiKey : string.
Variable generateSignature : string -> string.

(** [Date.now().toString()] *)
Definition getTimestamp (now : Z) : string := Str.of_Z now.

(** [keys.map(key => `${key}=${encodeURIComponent(finalPayload[key])}`)] *)
Fixpoint query_parts (finalPayload : list (string * value))
  (keys : list string) : result (list string) :=
  match keys with
  | [] => Ok []
  | key :: tl =>
      text <- toString (match lookup key finalPayload with
                        | Some v => v
                        | None => VUndefined
                        end) ;;
      rest <- query_parts finalPayload tl ;;
      Ok ((key ++ "=" ++ encodeURIComponent text) :: rest)
  end.

(** [getSignedHeaders(payload)]: the payload with the time stamp, and
    the query string over its keys in sorted order, signed. *)
Definition getSignedHeaders (now : Z) (payload : value) : result request :=
  let finalPayload :=
    set "timestamp" (VStr (getTimestamp now))
        (spread (RAGAgent.default_to (VObj []) payload)) in
  parts <- query_parts finalPayload (sort_keys (map fst finalPayload)) ;;
  let queryString := String.concat "&" parts in
  Ok {| headers := [("RST-API-KEY", apiKey);
                    ("MSG-SIGNATURE", generateSignature queryString);
                    ("Content-Type", "application/x-www-form-urlencoded")];
        payload := finalPayload;
        queryString := queryString |}.

(** ** [placeOrder] *)

(** [placeOrder(params)] up to the request it posts to
    [/v3/place_order]: the signed headers and the query string. *)
Definition placeOrder (now : Z) (params : value) : result request :=
  pair <- get params "pair" ;;
  side <- get params "side" ;;
  order_type <- get params "order_type" ;;
  quantity <- get params "quantity" ;;
  price <- get params "price" ;;
  st <- get params "stop_type" ;;
  let stop_type := RAGAgent.default_to (VStr "GTC") st in
  if negb (truthy pair) || negb (truthy side) || negb (truthy order_type)
     || negb (truthy quantity) then
    Throw (Error "Missing required parameters: pair, side, order_type, quantity")
  else if is_string order_type "LIMIT" && negb (truthy price) then
    Throw (Error "LIMIT orders require a price parameter")
  else
    q <- toString_method quantity ;;
    let payload := [("pair", pair); ("side", side); ("type", order_type);
                    ("quantity", VStr q); ("stop_type", stop_type)] in
    payload <-
      (if is_string order_type "LIMIT" && truthy price then
         p <- toString_method price ;;
         Ok (set "price" (VStr p) payload)
       else Ok payload) ;;
    getSignedHeaders now (VObj payload).

(** ** [queryOrder] *)

(** [queryOrder(params)] up to the request it posts to
    [/v3/query_order]. *)
Definition queryOrder (now : Z) (params : value) : result request :=
  let params := RAGAgent.default_to (VObj []) params in
  order_id <- get params "order_id" ;;
  pair <- get params "pair" ;;
  pending_only <- get params "pending_only" ;;
  offset <- get params "offset" ;;
  limit <- get params "limit" ;;
  payload <-
    (if truthy order_id then
       id <- toString_method order_id ;;
       Ok [("order_id", VStr id)]
     else if truthy pair then
       Ok (match pending_only with
           | VUndefined => [("pair", pair)]
           | _ => [("pair", pair);
                   ("pending_only",
                    VStr (if truthy pending_only then "TRUE" else "FALSE"))]
           end)
     else Ok []) ;;
  payload <-
    (if truthy offset then
       o <- toString_method offset ;; Ok (set "offset" (VStr o) payload)
     else Ok payload) ;;
  payload <-
    (if truthy limit then
       l <- toString_method limit ;; Ok (set "limit" (VStr l) payload)
     else Ok payload) ;;
  getSignedHeaders now (VObj payload).

End WithKeys.

End RoostooClient.

(* ================================================================== *)
(** * [src/utils/config.js] *)
(* ================================================================== *)

(** [config.trading]: three numbers read from the environment when the
    process starts. *)
Record trading_config : Type := {
  intervalMs : float;
  maxPositionSize : float;
  riskPerTrade : float
}.

(* ================================================================== *)
(** * [src/trading/riskManager.js] *)
(* ================================================================== *)

Module RiskManager.

Import JS.

(** [{ valid, reason }]; [checkPositionSize] leaves [reason] out when the
    order passes. *)
Record validation : Type := {
  valid : bool;
  reason : option string
}.

(** The object that [calculatePositionSize] returns: [{ quantity, reason }]
    without a price, [{ quantity, riskAmount, adjustedRisk, maxQuantity }]
    with one. *)
Record position_size : Type := {
  quantity : float;
  size_reason : option string;
  riskAmount : option float;
  adjustedRisk : option float;
  maxQuantity : option float
}.

Section WithConfig.
Context `{Runtime}.
Variable config : trading_config.

Definition invalid (why : string) : validation :=
  {| valid := false; reason := Some why |}.

(** [price ? parseFloat(price) : 1] *)
Definition price_or_one (price : value) : result float :=
  if truthy price then parseFloat price else Ok 1%float.

(** [parseFloat(balance[currency] || 0)].  A member that the balance
    table inherits is truthy and [parseFloat] takes its string: the
    source text of a function, ["[object Object]"] for
    [Object.prototype], the empty string for [Array.prototype] and
    [String.prototype], ["false"] for [Boolean.prototype], none of which
    is a number, and ["0"] for [Number.prototype]. *)
Definition available (balance currency : value) : result float :=
  key <- to_key currency ;;
  amount <- get_computed balance key ;;
  match amount with
  | Data x => parseFloat (or_else x (VNum 0))
  | Method => Ok Num.NaN
  | Prototype =>
      Ok (match balance with
          | VNum _ => PrimFloat.zero
          | _ => Num.NaN
          end)
  end.

(** [Object.values(balance)] summed with
    [(sum, val) => sum + parseFloat(val || 0)], from 0 and in property
    order. *)
Fixpoint sum_amounts (vals : list value) (sum : float) : result float :=
  match vals with
  | [] => Ok sum
  | val :: tl =>
      x <- parseFloat (or_else val (VNum 0)) ;;
      sum_amounts tl (sum + x)%float
  end.

Definition calculatePortfolioValue (portfolio : value) : result float :=
  b <- get portfolio "balance" ;;
  let balance := or_else b (VObj []) in
  vals <- Object_values balance ;;
  totalValue <- sum_amounts vals 0%float ;;
  Ok (if Num.truthy totalValue then totalValue else 1%float).

Definition checkPositionSize (order portfolio : value) : result validation :=
  quantity <- get order "quantity" ;;
  price <- get order "price" ;;
  q <- parseFloat quantity ;;
  p <- price_or_one price ;;
  let orderValue := (q * p)%float in
  totalPortfolioValue <- calculatePortfolioValue portfolio ;;
  let positionSizeRatio := (orderValue / totalPortfolioValue)%float in
  if Num.gt positionSizeRatio (maxPositionSize config) then
    Ok (invalid ("Position size " ++ number_toFixed positionSizeRatio 4
                 ++ " exceeds maximum "
                 ++ number_to_string (maxPositionSize config)))
  else Ok {| valid := true; reason := None |}.

(** [pair.split('/')]: only a string has the method. *)
Definition split_pair (pair : value) : result (list string) :=
  match pair with
  | VStr s => Ok (Str.split "/"%char s)
  | _ => Throw (TypeError "pair.split is not a function")
  end.

(** [parts[i]] *)
Definition part (parts : list string) (i : nat) : value :=
  match nth_error parts i with
  | Some s => VStr s
  | None => VUndefined
  end.

Definition insufficient (currency : string) (requiredAmount availableBalance : float)
  : validation :=
  invalid ("Insufficient " ++ currency ++ " balance. Required: "
           ++ number_to_string requiredAmount ++ ", Available: "
           ++ number_to_string availableBalance).

Definition validateOrder (order portfolio : value) : result validation :=
  pair <- get order "pair" ;;
  side <- get order "side" ;;
  quantity <- get order "quantity" ;;
  price <- get order "price" ;;
  order_type <- get order "order_type" ;;
  if negb (truthy pair) || negb (truthy side) || negb (truthy quantity) then
    Ok (invalid "Missing required order fields")
  else
    q <- parseFloat quantity ;;
    if Num.le q 0 then Ok (invalid "Quantity must be positive")
    else
      limit_without_price <-
        (if is_string order_type "LIMIT" then
           if negb (truthy price) then Ok true
           else p <- parseFloat price ;; Ok (Num.le p 0)
         else Ok false) ;;
      if limit_without_price : bool then
        Ok (invalid "LIMIT orders require a valid price")
      else
        b <- get portfolio "balance" ;;
        let balance := or_else b (VObj []) in
        parts <- split_pair pair ;;
        let baseCurrency := part parts 0 in
        let quoteCurrency := part parts 1 in
        balance_check <-
          (if is_string side "BUY" then
             p <- price_or_one price ;;
             let requiredAmount := (q * p)%float in
             availableBalance <- available balance quoteCurrency ;;
             if Num.gt requiredAmount availableBalance then
               name <- toString quoteCurrency ;;
               Ok (Some (insufficient name requiredAmount availableBalance))
             else Ok None
           else if is_string side "SELL" then
             let requiredAmount := q in
             availableBalance <- available balance baseCurrency ;;
             if Num.gt requiredAmount availableBalance then
               name <- toString baseCurrency ;;
               Ok (Some (insufficient name requiredAmount availableBalance))
             else Ok None
           else Ok None) ;;
        match balance_check with
        | Some failure => Ok failure
        | None =>
            positionSizeCheck <- checkPositionSize order portfolio ;;
            if negb (valid positionSizeCheck) then Ok positionSizeCheck
            else Ok {| valid := true;
                       reason := Some "Order validated successfully" |}
        end.

(** ** [calculatePositionSize] *)

Definition calculatePositionSize (signal balance riskParams : value)
  : result position_size :=
  let riskParams := RAGAgent.default_to (VObj []) riskParams in
  rpt <- get riskParams "riskPerTrade" ;;
  mps <- get riskParams "maxPositionSize" ;;
  let riskPerTrade := RAGAgent.default_to (VNum (riskPerTrade config)) rpt in
  let maxPositionSize :=
    RAGAgent.default_to (VNum (maxPositionSize config)) mps in
  conf <- get signal "confidence" ;;
  price <- get signal "price" ;;
  let confidence := RAGAgent.default_to (VNum 0.5) conf in
  if negb (truthy price) then
    Ok {| quantity := 0; size_reason := Some "Price not available";
          riskAmount := None; adjustedRisk := None; maxQuantity := None |}
  else
    r <- toNumber riskPerTrade ;;
    c <- toNumber confidence ;;
    let adjustedRisk := (r * c)%float in
    vals <- Object_values balance ;;
    totalBalance <- sum_amounts vals 0%float ;;
    let riskAmount := (totalBalance * adjustedRisk)%float in
    p <- parseFloat price ;;
    let quantity := (riskAmount / p)%float in
    m <- toNumber maxPositionSize ;;
    p' <- parseFloat price ;;
    let maxQuantity := ((totalBalance * m) / p')%float in
    let quantity := Num.Math_min quantity maxQuantity in
    Ok {| quantity := Num.Math_max 0 quantity;
          size_reason := None;
          riskAmount := Some riskAmount;
          adjustedRisk := Some adjustedRisk;
          maxQuantity := Some maxQuantity |}.

End WithConfig.

End RiskManager.

(* ================================================================== *)
(** * [src/trading/tradingEngine.js] *)
(* ================================================================== *)

Module TradingEngine.

Import JS.

(** The fields of the singleton [TradingEngine]. [tradingInterval] is
    the handle that [setInterval] returned, or [null]. *)
Record engine : Type := {
  isRunning : bool;
  tradingInterval : option nat;
  cycleCount : nat;
  lastDecision : value;
  portfolio : value
}.

(** Where a trading cycle is suspended: the [await] it waits at, in
    [runTradingCycle] or in the [executeDecision] it called. *)
Inductive awaiting : Type :=
| AwaitPortfolio
| AwaitMarketData
| AwaitWorkflow
| AwaitPlaceOrder (order : value)
| AwaitRefresh.

(** The engine together with what the event loop holds for it: the
    armed interval timers, the [start()] calls suspended at
    [await this.initialize()], the trading cycles suspended at an
    [await] (named by the cycle number they logged), the orders handed
    to [roostooClient.placeOrder], and the warnings and errors that the
    bodies of [start], [stop] and [runTradingCycle] log themselves (the
    lines of their callees and of the [.catch] callbacks are left out). *)
Record world : Type := {
  eng : engine;
  timers : list nat;
  next_timer : nat;
  starting : nat;
  cycles : list (nat * awaiting);
  orders : list value;
  log : list log_entry
}.

(** What the event loop runs next.  Each event runs one synchronous
    stretch of code, up to the next [await] or to the end of the call.
    [initialize] awaits [getServerTime] and then [fetchPortfolio]; the two
    are one [InitDone], whose outcome is the portfolio or the failure. *)
Inductive event : Type :=
| CallStart
| InitDone (outcome : result value)
| CallStop
| Tick (timer : nat)
| Resume (cycle : nat) (outcome : result value).

(** [new TradingEngine()] *)
Definition constructor : engine :=
  {| isRunning := false; tradingInterval := None; cycleCount := 0%nat;
     lastDecision := VNull; portfolio := VNull |}.

Definition initial : world :=
  {| eng := constructor; timers := []; next_timer := 1%nat;
     starting := 0%nat; cycles := []; orders := []; log := [] |}.

Definition message (e : error) : string :=
  match e with
  | TypeError m | SyntaxError m | Error m => m
  end.

(** What [executeDecision] does before its first [await]. *)
Inductive execution : Type :=
| NotExecuted (reason : string)
| Submitted (order : value).

Section WithConfig.
Context `{Runtime}.
Variable config : trading_config.

(** ** [fetchPortfolio], [fetchMarketData] and the context of a cycle *)

(** [fetchPortfolio()], given what its requests settle to: the three of
    [Promise.all] together, then [queryOrder]. *)
Definition fetchPortfolio (all : result (value * value * value))
  (queried : result value) (now : Z) : result value :=
  settled <- all ;;
  let '(balance, pendingOrders, exchangeInfo) := settled in
  orders <- queried ;;
  b <- get balance "Balance" ;;
  n <- get pendingOrders "PendingOrderCount" ;;
  m <- get orders "OrderMatched" ;;
  Ok (VObj [("balance", or_else b (VObj []));
            ("pendingOrderCount", or_else n (VNum 0));
            ("pendingOrders", or_else m (VArr []));
            ("exchangeInfo", or_else exchangeInfo (VObj []));
            ("timestamp", VNum (Num.of_Z now))]).

(** [fetchMarketData(symbols)]: a ticker that cannot be fetched counts
    as [null], and the [null]s are left out. *)
Definition fetchMarketData (getMarketTicker : string -> result value)
  (symbols : list string) (now : Z) : value :=
  let tickers :=
    map (fun symbol => match getMarketTicker symbol with
                       | Ok t => t
                       | Throw _ => VNull
                       end) symbols in
  VObj [("tickers", VArr (filter (fun t => negb (is_null t)) tickers));
        ("symbols", VArr (map VStr symbols));
        ("timestamp", VNum (Num.of_Z now))].

(** The default of the parameter [symbols], which [runTradingCycle]
    relies on. *)
Definition default_symbols : list string := ["BTC/USD"; "ETH/USD"].

(** [ragContext] in [runTradingCycle], from [this.portfolio] and the
    market data just fetched. *)
Definition ragContext (portfolio marketData : value) : result value :=
  symbols <- get marketData "symbols" ;;
  tickers <- get marketData "tickers" ;;
  joined <- match symbols with
            | VArr items => join ", " items
            | _ => Throw (TypeError "symbols.join is not a function")
            end ;;
  pendingOrders <- get portfolio "pendingOrders" ;;
  Ok (VObj [("symbols", symbols);
            ("portfolio", portfolio);
            ("marketData",
             VObj [("tickers", tickers);
                   ("description", VStr ("Market data for " ++ joined))]);
            ("currentPositions", pendingOrders)]).

(** The object literal
    [{ pair: symbol, side: action, order_type,
       quantity: parseFloat(quantity),
       ...(price && { price: parseFloat(price) }) }]. *)
Definition prepare_order (action symbol quantity price order_type : value)
  : result value :=
  q <- parseFloat quantity ;;
  price_part <-
    (if truthy price then p <- parseFloat price ;; Ok [("price", VNum p)]
     else Ok []) ;;
  Ok (VObj ([("pair", symbol); ("side", action); ("order_type", order_type);
             ("quantity", VNum q)] ++ price_part)%list).

Definition executeDecision_begin (decision portfolio : value)
  : result execution :=
  action <- get decision "action" ;;
  symbol <- get decision "symbol" ;;
  quantity <- get decision "quantity" ;;
  price <- get decision "price" ;;
  ot <- get decision "order_type" ;;
  let order_type := RAGAgent.default_to (VStr "MARKET") ot in
  if is_string action "HOLD" then Ok (NotExecuted "HOLD decision")
  else if negb (truthy symbol) || negb (truthy quantity) then
    Ok (NotExecuted "Invalid decision parameters")
  else
    catch
      (order <- prepare_order action symbol quantity price order_type ;;
       validation <- RiskManager.validateOrder config order portfolio ;;
       if negb (RiskManager.valid validation) then
         Ok (NotExecuted (match RiskManager.reason validation with
                          | Some r => r
                          | None => "undefined"
                          end))
       else Ok (Submitted order))
      (fun error => Ok (NotExecuted (message error))).

Definition set_running (b : bool) (e : engine) : engine :=
  {| isRunning := b; tradingInterval := tradingInterval e;
     cycleCount := cycleCount e; lastDecision := lastDecision e;
     portfolio := portfolio e |}.

Definition set_interval (t : option nat) (e : engine) : engine :=
  {| isRunning := isRunning e; tradingInterval := t;
     cycleCount := cycleCount e; lastDecision := lastDecision e;
     portfolio := portfolio e |}.

Definition set_portfolio (p : value) (e : engine) : engine :=
  {| isRunning := isRunning e; tradingInterval := tradingInterval e;
     cycleCount := cycleCount e; lastDecision := lastDecision e;
     portfolio := p |}.

Definition set_lastDecision (d : value) (e : engine) : engine :=
  {| isRunning := isRunning e; tradingInterval := tradingInterval e;
     cycleCount := cycleCount e; lastDecision := d;
     portfolio := portfolio e |}.

Definition with_eng (e : engine) (w : world) : world :=
  {| eng := e; timers := timers w; next_timer := next_timer w;
     starting := starting w; cycles := cycles w; orders := orders w;
     log := log w |}.

Definition with_cycles (c : list (nat * awaiting)) (w : world) : world :=
  {| eng := eng w; timers := timers w; next_timer := next_timer w;
     starting := starting w; cycles := c; orders := orders w;
     log := log w |}.

Definition with_starting (n : nat) (w : world) : world :=
  {| eng := eng w; timers := timers w; next_timer := next_timer w;
     starting := n; cycles := cycles w; orders := orders w; log := log w |}.

Definition logged (l : level) (msg : string) (w : world) : world :=
  {| eng := eng w; timers := timers w; next_timer := next_timer w;
     starting := starting w; cycles := cycles w; orders := orders w;
     log := (log w ++ [(l, msg)])%list |}.

Definition submitted (order : value) (w : world) : world :=
  {| eng := eng w; timers := timers w; next_timer := next_timer w;
     starting := starting w; cycles := cycles w;
     orders := (orders w ++ [order])%list; log := log w |}.

(** [setInterval(callback, config.trading.intervalMs)]: a fresh handle,
    armed. *)
Definition setInterval (w : world) : nat * world :=
  (next_timer w,
   {| eng := eng w; timers := (timers w ++ [next_timer w])%list;
      next_timer := S (next_timer w); starting := starting w;
      cycles := cycles w; orders := orders w; log := log w |}).

(** [clearInterval(handle)] *)
Definition clearInterval (t : nat) (w : world) : world :=
  {| eng := eng w; timers := filter (fun t' => negb (t' =? t)%nat) (timers w);
     next_timer := next_timer w; starting := starting w;
     cycles := cycles w; orders := orders w; log := log w |}.

(** [this.runTradingCycle()] up to its first [await]: the counter goes
    up and the cycle waits for [fetchPortfolio]. *)
Definition runTradingCycle_begin (w : world) : world :=
  let n := S (cycleCount (eng w)) in
  let e := {| isRunning := isRunning (eng w);
              tradingInterval := tradingInterval (eng w);
              cycleCount := n; lastDecision := lastDecision (eng w);
              portfolio := portfolio (eng w) |} in
  with_cycles (cycles w ++ [(n, AwaitPortfolio)])%list (with_eng e w).

Fixpoint find_cycle (k : nat) (l : list (nat * awaiting)) : option awaiting :=
  match l with
  | [] => None
  | (k', a) :: tl => if (k =? k')%nat then Some a else find_cycle k tl
  end.

Fixpoint update_cycle (k : nat) (a : option awaiting)
  (l : list (nat * awaiting)) : list (nat * awaiting) :=
  match l with
  | [] => []
  | (k', a') :: tl =>
      if (k =? k')%nat then
        match a with
        | Some a'' => (k', a'') :: tl
        | None => tl
        end
      else (k', a') :: update_cycle k a tl
  end.

(** The cycle [k] moves to its next [await], or ends. *)
Definition suspend (k : nat) (a : awaiting) (w : world) : world :=
  with_cycles (update_cycle k (Some a) (cycles w)) w.

Definition finish (k : nat) (w : world) : world :=
  with_cycles (update_cycle k None (cycles w)) w.

(** The cycle rejects: [runTradingCycle] logs and rethrows to the
    [.catch] of its caller. *)
Definition reject (k : nat) (w : world) : world :=
  logged ERROR "Trading cycle failed" (finish k w).

(** [start()] up to [await this.initialize()]. *)
Definition start_begin (w : world) : world * option (result unit) :=
  if isRunning (eng w) then
    (logged WARN "Trading engine is already running" w, Some (Ok tt))
  else (with_starting (S (starting w)) w, None).

(** [start()] from the point where [initialize()] has settled. *)
Definition start_resume (outcome : result value) (w : world)
  : world * option (result unit) :=
  match outcome with
  | Ok p =>
      let w1 := with_eng (set_running true (set_portfolio p (eng w))) w in
      let w2 := runTradingCycle_begin w1 in
      let (t, w3) := setInterval w2 in
      (with_eng (set_interval (Some t) (eng w3)) w3, Some (Ok tt))
  | Throw error =>
      (logged ERROR "Failed to start trading engine"
         (with_eng (set_running false (eng w)) w),
       Some (Throw error))
  end.

Definition stop (w : world) : world :=
  if negb (isRunning (eng w)) then
    logged WARN "Trading engine is not running" w
  else
    let w1 := with_eng (set_running false (eng w)) w in
    match tradingInterval (eng w1) with
    | Some t =>
        let w2 := clearInterval t w1 in
        with_eng (set_interval None (eng w2)) w2
    | None => w1
    end.

(** The callback of [setInterval]. *)
Definition tick (w : world) : world :=
  if isRunning (eng w) then runTradingCycle_begin w else w.

(** A suspended cycle goes on with the outcome of its [await]. *)
Definition resume (k : nat) (a : awaiting) (outcome : result value)
  (w : world) : option world :=
  match a, outcome with
  | AwaitPortfolio, Ok p =>
      Some (suspend k AwaitMarketData (with_eng (set_portfolio p (eng w)) w))
  | AwaitPortfolio, Throw _ => Some (reject k w)
  | AwaitMarketData, Ok _ => Some (suspend k AwaitWorkflow w)
  | AwaitMarketData, Throw _ => None
  | AwaitWorkflow, Ok ragResult =>
      match get ragResult "decision" with
      | Throw _ => Some (reject k w)
      | Ok d =>
          let w1 := with_eng (set_lastDecision d (eng w)) w in
          match get d "action" with
          | Throw _ => Some (reject k w1)
          | Ok action =>
              if negb (is_string action "HOLD") then
                match executeDecision_begin d (portfolio (eng w1)) with
                | Ok (Submitted order) =>
                    Some (suspend k (AwaitPlaceOrder order)
                            (submitted order w1))
                | Ok (NotExecuted _) => Some (finish k w1)
                | Throw _ => Some (reject k w1)
                end
              else Some (finish k w1)
          end
      end
  | AwaitWorkflow, Throw _ => Some (reject k w)
  | AwaitPlaceOrder order, Ok placed =>
      match get placed "Success" with
      | Ok success =>
          if truthy success then Some (suspend k AwaitRefresh w)
          else Some (finish k w)
      | Throw _ => Some (finish k w)
      end
  | AwaitPlaceOrder order, Throw _ => Some (finish k w)
  | AwaitRefresh, Ok p =>
      Some (finish k (with_eng (set_portfolio p (eng w)) w))
  | AwaitRefresh, Throw _ => Some (finish k w)
  end.

(** One turn of the event loop; [None] when the event cannot happen in
    this state.  The second component is the settlement of a [start()]
    call, when one returns in this turn. *)
Definition step (w : world) (ev : event)
  : option (world * option (result unit)) :=
  match ev with
  | CallStart => Some (start_begin w)
  | InitDone outcome =>
      match starting w with
      | O => None
      | S n => Some (start_resume outcome (with_starting n w))
      end
  | CallStop => Some (stop w, None)
  | Tick t =>
      if existsb (Nat.eqb t) (timers w) then Some (tick w, None) else None
  | Resume k outcome =>
      match find_cycle k (cycles w) with
      | Some a =>
          match resume k a outcome w with
          | Some w' => Some (w', None)
          | None => None
          end
      | None => None
      end
  end.

Fixpoint run (w : world) (evs : list event) : option world :=
  match evs with
  | [] => Some w
  | ev :: tl =>
      match step w ev with
      | Some (w', _) => run w' tl
      | None => None
      end
  end.

(** The number of trading cycles that have begun and not ended. *)
Definition in_flight (w : world) : nat := List.length (cycles w).

End WithConfig.

End TradingEngine.

(* ================================================================== *)
(** * The order of binary64 numbers, as a lexicographic key *)
(* ================================================================== *)

(** [SFcompare], the specification of the primitive comparisons, orders
    the numbers other than NaN like the triples below under the
    lexicographic order: class (-inf, negative, zero, positive, +inf),
    then exponent, then mantissa. *)
Module FloatOrder.

Definition key (x : spec_float) : option (Z * Z * Z) :=
  match x with
  | S754_nan => None
  | S754_infinity true => Some (-2, 0, 0)
  | S754_infinity false => Some (2, 0, 0)
  | S754_zero _ => Some (0, 0, 0)
  | S754_finite false m e => Some (1, e, Zpos m)
  | S754_finite true m e => Some (-1, - e, Zneg m)
  end.

Definition lex_compare (a b : Z * Z * Z) : comparison :=
  let '(a1, a2, a3) := a in
  let '(b1, b2, b3) := b in
  match a1 ?= b1 with
  | Eq => match a2 ?= b2 with
          | Eq => a3 ?= b3
          | c => c
          end
  | c => c
  end.

Definition lex_lt (a b : Z * Z * Z) : Prop :=
  let '(a1, a2, a3) := a in
  let '(b1, b2, b3) := b in
  a1 < b1 \/ (a1 = b1 /\ (a2 < b2 \/ (a2 = b2 /\ a3 < b3))).

Definition key_compare (a b : option (Z * Z * Z)) : option comparison :=
  match a, b with
  | Some a, Some b => Some (lex_compare a b)
  | _, _ => None
  end.

Definition fkey (x : float) : option (Z * Z * Z) := key (Prim2SF x).

End FloatOrder.

(* ================================================================== *)
(** * A host: the functions of [Runtime], computed *)
(* ================================================================== *)

(** The host functions as ECMA-262 defines them, restricted to ASCII
    strings, and the built-in prototypes of Node.js 20.  The properties
    below hold for every [Runtime]; this one runs the examples. *)
Module Host.

Definition digit_char := Str.digit_char.
Definition decimal := Str.decimal.

(** The exact value [num / den] of a finite number other than zero,
    sign left out. *)
Definition fraction (x : float) : option (Z * Z) :=
  match Prim2SF x with
  | S754_finite _ m e =>
      Some (if 0 <=? e then (Zpos m * 2 ^ e, 1) else (Zpos m, 2 ^ (- e)))
  | _ => None
  end.

(** [num / den * 10 ^ p] as a fraction. *)
Definition scale (num den p : Z) : Z * Z :=
  if 0 <=? p then (num * 10 ^ p, den) else (num, den * 10 ^ (- p)).

(** The least [n], from [n0] upwards, with [num / den < 10 ^ n]. *)
Fixpoint magnitude_from (fuel : nat) (num den n : Z) : Z :=
  match fuel with
  | O => n
  | S fuel' =>
      let (a, b) := scale num den (- n) in
      if a <? b then n else magnitude_from fuel' num den (n + 1)
  end.

Definition magnitude10 (num den : Z) : Z :=
  magnitude_from 8 num den
    (((Z.log2 num - Z.log2 den - 1) * 30103) / 100000 - 1).

(** The shortest digit string [s] (of [k] digits, [k] from 1 upwards)
    and exponent [n] such that [s * 10 ^ (n - k)] rounds to [x]; of two
    candidates of one length the closer one, the even one on a tie. *)
Fixpoint shortest (fuel : nat) (x : float) (num den n k : Z) : Z * Z * Z :=
  let (a, b) := scale num den (k - n) in
  let lo := a / b in
  let hi := lo + 1 in
  let ok_lo := PrimFloat.eqb (Num.of_decimal false lo (n - k)) x in
  let ok_hi := PrimFloat.eqb (Num.of_decimal false hi (n - k)) x in
  let pick_hi :=
    if hi =? 10 ^ k then (10 ^ (k - 1), n + 1, k) else (hi, n, k) in
  match fuel with
  | O => (lo, n, k)
  | S fuel' =>
      if ok_lo && ok_hi then
        match 2 * a ?= (2 * lo + 1) * b with
        | Lt => (lo, n, k)
        | Gt => pick_hi
        | Eq => if Z.even lo then (lo, n, k) else pick_hi
        end
      else if ok_lo then (lo, n, k)
      else if ok_hi then pick_hi
      else shortest fuel' x num den n (k + 1)
  end.

Definition zeros (n : Z) : list ascii := repeat "0"%char (Z.to_nat n).

(** [Number::toString(x)] in radix 10, for [x > 0] finite. *)
Definition positive_to_chars (x : float) : list ascii :=
  match fraction x with
  | None => []
  | Some (num, den) =>
      let '(s, n, k) := shortest 17 x num den (magnitude10 num den) 1 in
      let ds := decimal s in
      let k := Z.of_nat (List.length ds) in
      if (k <=? n) && (n <=? 21) then (ds ++ zeros (n - k))%list
      else if (0 <? n) && (n <=? 21) then
        (firstn (Z.to_nat n) ds ++ "."%char :: skipn (Z.to_nat n) ds)%list
      else if (-6 <? n) && (n <=? 0) then
        ("0"%char :: "."%char :: zeros (- n) ++ ds)%list
      else
        let e := n - 1 in
        let sign := if e <? 0 then "-"%char else "+"%char in
        let mantissa :=
          match ds with
          | d :: (_ :: _) as tl => d :: "."%char :: tl
          | _ => ds
          end in
        (mantissa ++ "e"%char :: sign :: decimal (Z.abs e))%list
  end.

Definition number_to_string (x : float) : string :=
  if PrimFloat.is_nan x then "NaN"
  else if PrimFloat.is_zero x then "0"
  else if PrimFloat.is_infinity x then
    if PrimFloat.ltb x 0 then "-Infinity" else "Infinity"
  else if PrimFloat.ltb x 0 then
    String "-"%char (Str.of_chars (positive_to_chars (- x)%float))
  else Str.of_chars (positive_to_chars x).

(** [x.toFixed(f)] *)
Definition number_toFixed (x : float) (f : nat) : string :=
  if PrimFloat.is_nan x then "NaN"
  else if PrimFloat.is_infinity x then number_to_string x
  else
    let neg := PrimFloat.ltb x 0 in
    let ax := PrimFloat.abs x in
    if PrimFloat.leb 1e21 ax then number_to_string x
    else
      let n :=
        match fraction ax with
        | None => 0
        | Some (num, den) =>
            let (a, b) := scale num den (Z.of_nat f) in
            (* the integer nearest to a / b, the larger one on a tie *)
            (2 * a + b) / (2 * b)
        end in
      let ds := decimal n in
      let padded :=
        (zeros (Z.of_nat f + 1 - Z.of_nat (List.length ds)) ++ ds)%list in
      let cut := (List.length padded - f)%nat in
      let body :=
        match f with
        | O => padded
        | _ => (firstn cut padded ++ "."%char :: skipn cut padded)%list
        end in
      Str.of_chars (if neg then "-"%char :: body else body).

(** ** [JSON.stringify], without indentation *)

Definition dquote : ascii := ascii_of_N 34.

Definition hex_digit (d : Z) : ascii :=
  if d <? 10 then digit_char d else ascii_of_N (Z.to_N (87 + d)).

Definition escape (c : ascii) : list ascii :=
  let n := Str.code c in
  if n =? 34 then ["\"%char; dquote]
  else if n =? 92 then ["\"%char; "\"%char]
  else if n =? 8 then ["\"%char; "b"%char]
  else if n =? 9 then ["\"%char; "t"%char]
  else if n =? 10 then ["\"%char; "n"%char]
  else if n =? 12 then ["\"%char; "f"%char]
  else if n =? 13 then ["\"%char; "r"%char]
  else if n <? 32 then
    ["\"%char; "u"%char; "0"%char; "0"%char; hex_digit (n / 16);
     hex_digit (n mod 16)]
  else [c].

Definition quote (s : string) : string :=
  Str.of_chars (dquote :: flat_map escape (Str.chars s) ++ [dquote])%list.

(** The text of a value, or [None] for [undefined], which an object
    leaves out and an array writes as [null]. *)
Fixpoint serialize (v : value) : option string :=
  match v with
  | VUndefined => None
  | VNull => Some "null"
  | VBool true => Some "true"
  | VBool false => Some "false"
  | VNum x => Some (if PrimFloat.is_finite x then number_to_string x else "null")
  | VStr s => Some (quote s)
  | VArr items =>
      let fix elements (l : list value) : string :=
        match l with
        | [] => ""
        | x :: tl =>
            let sx := match serialize x with Some s => s | None => "null" end in
            match tl with
            | [] => sx
            | _ => sx ++ "," ++ elements tl
            end
        end in
      Some ("[" ++ elements items ++ "]")
  | VObj props =>
      let fix members (l : list (string * value)) (first : bool) : string :=
        match l with
        | [] => ""
        | (k, x) :: tl =>
            match serialize x with
            | Some s =>
                (if first then "" else ",") ++ quote k ++ ":" ++ s
                ++ members tl false
            | None => members tl first
            end
        end in
      Some ("{" ++ members props true ++ "}")
  end.

(** [`${JSON.stringify(v)}`] *)
Definition JSON_stringify (v : value) : string :=
  match serialize v with
  | Some s => s
  | None => "undefined"
  end.

(** ** [JSON.parse] *)

Definition is_json_space (c : ascii) : bool :=
  let n := Str.code c in (n =? 32) || (n =? 9) || (n =? 10) || (n =? 13).

Fixpoint skip_ws (l : list ascii) : list ascii :=
  match l with
  | c :: tl => if is_json_space c then skip_ws tl else l
  | [] => []
  end.

Definition hex4 (a b c d : ascii) : option Z :=
  match Str.digit_in_radix 16 a, Str.digit_in_radix 16 b,
        Str.digit_in_radix 16 c, Str.digit_in_radix 16 d with
  | Some x, Some y, Some z, Some w => Some (((x * 16 + y) * 16 + z) * 16 + w)
  | _, _, _, _ => None
  end.

(** The characters of a string literal after its opening quote.  A
    [\u] escape above U+00FF has no place in the ASCII model. *)
Fixpoint string_body (l : list ascii) (acc : list ascii)
  : option (string * list ascii) :=
  match l with
  | [] => None
  | c :: tl =>
      let n := Str.code c in
      if n =? 34 then Some (Str.of_chars (rev acc), tl)
      else if n <? 32 then None
      else if n =? 92 then
        match tl with
        | e :: tl' =>
            let m := Str.code e in
            if (m =? 34) || (m =? 92) || (m =? 47) then string_body tl' (e :: acc)
            else if m =? 98 then string_body tl' (ascii_of_N 8 :: acc)
            else if m =? 102 then string_body tl' (ascii_of_N 12 :: acc)
            else if m =? 110 then string_body tl' (ascii_of_N 10 :: acc)
            else if m =? 114 then string_body tl' (ascii_of_N 13 :: acc)
            else if m =? 116 then string_body tl' (ascii_of_N 9 :: acc)
            else if m =? 117 then
              match tl' with
              | a :: b :: c' :: d :: tl'' =>
                  match hex4 a b c' d with
                  | Some u =>
                      if u <? 256
                      then string_body tl'' (ascii_of_N (Z.to_N u) :: acc)
                      else None
                  | None => None
                  end
              | _ => None
              end
            else None
        | [] => None
        end
      else string_body tl (c :: acc)
  end.

(** A JSON number: [-? (0 | [1-9] digits) (. digits+)? ([eE] [+-]? digits+)?] *)
Definition json_number (l : list ascii) : option (float * list ascii) :=
  let (neg, l1) :=
    match l with
    | c :: tl => if Str.code c =? 45 then (true, tl) else (false, l)
    | [] => (false, l)
    end in
  let (ip, r1) := Str.take_digits l1 in
  match ip with
  | [] => None
  | d :: more =>
      if (Str.code d =? 48) && negb (List.length more =? 0)%nat then None
      else
        let frac :=
          match r1 with
          | c :: tl =>
              if Str.code c =? 46 then
                match Str.take_digits tl with
                | ([], _) => None
                | (fp, r2) => Some (fp, r2)
                end
              else Some ([], r1)
          | [] => Some ([], r1)
          end in
        match frac with
        | None => None
        | Some (fp, r2) =>
            let has_e :=
              match r2 with
              | c :: _ => (Str.code c =? 101) || (Str.code c =? 69)
              | [] => false
              end in
            let (e, r3) := Str.exponent_part r2 in
            if has_e && (List.length r3 =? List.length r2)%nat then None
            else Some (Num.of_decimal neg (Str.digits_value (ip ++ fp) 0)
                         (e - Z.of_nat (List.length fp)), r3)
        end
  end.

(** The order in which an object lists its own properties: the array
    indices (the canonical decimal spellings of the integers below
    2^32 - 1) in ascending order, then the other keys in the order in
    which they were created. *)
Definition array_index (k : string) : option Z :=
  let l := Str.chars k in
  match l with
  | [] => None
  | c :: tl =>
      if forallb Str.is_digit l
         && negb ((Str.code c =? 48) && negb (List.length tl =? 0)%nat)
         && (Str.digits_value l 0 <? 4294967295)
      then Some (Str.digits_value l 0)
      else None
  end.

Fixpoint place (i : Z) (kv : string * value) (l : list (string * value))
  : list (string * value) :=
  match l with
  | [] => [kv]
  | kv' :: tl =>
      match array_index (fst kv') with
      | Some j => if j <? i then kv' :: place i kv tl else kv :: l
      | None => kv :: l
      end
  end.

Definition own_order (props : list (string * value))
  : list (string * value) :=
  fold_left (fun acc kv =>
               match array_index (fst kv) with
               | Some i => place i kv acc
               | None => (acc ++ [kv])%list
               end)
            props [].

Fixpoint parse_value (fuel : nat) (l : list ascii)
  : option (value * list ascii) :=
  match fuel with
  | O => None
  | S fuel' =>
      match skip_ws l with
      | [] => None
      | c :: tl =>
          let n := Str.code c in
          if n =? 123 then
            match skip_ws tl with
            | c' :: tl' =>
                if Str.code c' =? 125 then Some (VObj [], tl')
                else parse_members fuel' (c' :: tl') []
            | [] => None
            end
          else if n =? 91 then
            match skip_ws tl with
            | c' :: tl' =>
                if Str.code c' =? 93 then Some (VArr [], tl')
                else parse_elements fuel' (c' :: tl') []
            | [] => None
            end
          else if n =? 34 then
            match string_body tl [] with
            | Some (s, r) => Some (VStr s, r)
            | None => None
            end
          else if Str.starts_with (Str.chars "true") (c :: tl) then
            Some (VBool true, skipn 4 (c :: tl))
          else if Str.starts_with (Str.chars "false") (c :: tl) then
            Some (VBool false, skipn 5 (c :: tl))
          else if Str.starts_with (Str.chars "null") (c :: tl) then
            Some (VNull, skipn 4 (c :: tl))
          else
            match json_number (c :: tl) with
            | Some (x, r) => Some (VNum x, r)
            | None => None
            end
      end
  end
with parse_elements (fuel : nat) (l : list ascii) (acc : list value)
  : option (value * list ascii) :=
  match fuel with
  | O => None
  | S fuel' =>
      match parse_value fuel' l with
      | Some (v, r) =>
          match skip_ws r with
          | c :: tl =>
              if Str.code c =? 44 then parse_elements fuel' tl (v :: acc)
              else if Str.code c =? 93 then Some (VArr (rev (v :: acc)), tl)
              else None
          | [] => None
          end
      | None => None
      end
  end
with parse_members (fuel : nat) (l : list ascii) (acc : list (string * value))
  : option (value * list ascii) :=
  match fuel with
  | O => None
  | S fuel' =>
      match skip_ws l with
      | q :: tl =>
          if Str.code q =? 34 then
            match string_body tl [] with
            | Some (k, r) =>
                match skip_ws r with
                | colon :: r' =>
                    if Str.code colon =? 58 then
                      match parse_value fuel' r' with
                      | Some (v, r'') =>
                          match skip_ws r'' with
                          | c :: tl' =>
                              if Str.code c =? 44
                              then parse_members fuel' tl' (JS.set k v acc)
                              else if Str.code c =? 125
                              then Some (VObj (own_order (JS.set k v acc)), tl')
                              else None
                          | [] => None
                          end
                      | None => None
                      end
                    else None
                | [] => None
                end
            | None => None
            end
          else None
      | [] => None
      end
  end.

Definition JSON_parse (text : string) : option value :=
  let l := Str.chars text in
  match parse_value (2 * List.length l + 2) l with
  | Some (v, r) => match skip_ws r with [] => Some v | _ => None end
  | None => None
  end.

(** ** The built-in prototypes *)

Definition prototype_keys (b : builtin) : list string :=
  match b with
  | BArray =>
      ["length"; "constructor"; "at"; "concat"; "copyWithin"; "fill"; "find";
       "findIndex"; "findLast"; "findLastIndex"; "lastIndexOf"; "pop";
       "push"; "reverse"; "shift"; "unshift"; "slice"; "sort"; "splice";
       "includes"; "indexOf"; "join"; "keys"; "entries"; "values";
       "forEach"; "filter"; "flat"; "flatMap"; "map"; "every"; "some";
       "reduce"; "reduceRight"; "toLocaleString"; "toString"; "toReversed";
       "toSorted"; "toSpliced"; "with"]
  | BString =>
      ["length"; "constructor"; "anchor"; "at"; "big"; "blink"; "bold";
       "charAt"; "charCodeAt"; "codePointAt"; "concat"; "endsWith";
       "fontcolor"; "fontsize"; "fixed"; "includes"; "indexOf";
       "isWellFormed"; "italics"; "lastIndexOf"; "link"; "localeCompare";
       "match"; "matchAll"; "normalize"; "padEnd"; "padStart"; "repeat";
       "replace"; "replaceAll"; "search"; "slice"; "small"; "split";
       "strike"; "sub"; "substr"; "substring"; "sup"; "startsWith";
       "toString"; "toWellFormed"; "trim"; "trimStart"; "trimLeft";
       "trimEnd"; "trimRight"; "toLocaleLowerCase"; "toLocaleUpperCase";
       "toLowerCase"; "toUpperCase"; "valueOf"]
  | BNumber =>
      ["constructor"; "toExponential"; "toFixed"; "toPrecision"; "toString";
       "valueOf"; "toLocaleString"]
  | BBoolean => ["constructor"; "toString"; "valueOf"]
  end.

End Host.

#[export] Instance host : Runtime := {|
  number_to_string := Host.number_to_string;
  number_toFixed := Host.number_toFixed;
  JSON_stringify := Host.JSON_stringify;
  JSON_parse := Host.JSON_parse;
  prototype_keys := Host.prototype_keys
|}.

(* ================================================================== *)
(** * The statements of the design, spelled out *)
(* ================================================================== *)

Module Spec.

Import JS.

(** "Coerced to a number, clamped to [0,1], 0 when not finite": what the
    confidence [c] of a decision is, given the parsed number [x]. *)
Definition clamped (x c : float) : Prop :=
  (Num.isFinite x = false -> c = 0%float)
  /\ (Num.isFinite x = true -> PrimFloat.ltb x 0 = true -> c = 0%float)
  /\ (Num.isFinite x = true -> PrimFloat.ltb 1 x = true -> c = 1%float)
  /\ (Num.isFinite x = true -> PrimFloat.leb 0 x = true ->
      PrimFloat.leb x 1 = true -> PrimFloat.eqb c x = true).

(** The number a raw quantity stands for: a string is parsed, a number
    is taken as it is, nothing else is a quantity. *)
Definition as_quantity (raw : value) : option float :=
  match raw with
  | VStr s => Some (Str.parseFloat s)
  | VNum x => Some x
  | _ => None
  end.

Section WithRuntime.
Context `{Runtime}.

(** The contract of a normalized decision [normalized] made from the
    (unwrapped) proposal [candidate]. *)
Definition decision_contract (candidate normalized : value) : Prop :=
  exists props action confidence,
    normalized = VObj props
    (* action *)
    /\ lookup "action" props = Some (VStr action)
    /\ In action ["BUY"; "SELL"; "HOLD"]
    /\ (exists s,
          toString_method (or_else (field candidate "action") (VStr "")) = Ok s
          /\ action = Str.toUpperCase (Str.trim s))
    (* confidence *)
    /\ lookup "confidence" props = Some (VNum confidence)
    /\ PrimFloat.leb 0 confidence = true
    /\ PrimFloat.leb confidence 1 = true
    /\ (exists x,
          parseFloat (nullish (field candidate "confidence") (VNum 0)) = Ok x
          /\ clamped x confidence)
    (* reasoning, with its alias *)
    /\ lookup "reasoning" props
       = Some (nullish (field candidate "reasoning")
                 (nullish (field candidate "explanation") (VStr "")))
    (* BUY and SELL *)
    /\ (action = "BUY" \/ action = "SELL" ->
        exists symbol quantity s,
          toString_method (or_else (field candidate "symbol")
                             (or_else (field candidate "ticker") (VStr "")))
          = Ok s
          /\ symbol = Str.trim s
          /\ symbol <> ""
          /\ lookup "symbol" props = Some (VStr symbol)
          /\ as_quantity (nullish (field candidate "quantity")
                            (nullish (field candidate "size")
                               (field candidate "amount")))
             = Some quantity
          /\ Num.isFinite quantity = true
          /\ PrimFloat.ltb 0 quantity = true
          /\ lookup "quantity" props = Some (VNum quantity))
    (* HOLD *)
    /\ (action = "HOLD" ->
        lookup "quantity" props = Some (VNum 0)
        /\ lookup "symbol" props
           = Some (nullish (field candidate "symbol") VNull)).

End WithRuntime.

(** ** Tokens *)







(** ** Search results *)




(** What [searchSimilar] sorts: the scored records above the threshold,
    in the order of the store. *)
Definition candidates (s : VectorStore.store) (query : string)
  : list VectorStore.scored :=
  filter (fun e => Num.gt (VectorStore.similarity e) 0.1)
         (map (VectorStore.score (VectorStore.generateEmbedding query))
              (VectorStore.strategies s)).

(** ** Orders *)

(** A value that is neither an array nor an object: [parseFloat] of it
    cannot throw. *)
Definition primitive (v : value) : bool :=
  match v with
  | VArr _ | VObj _ => false
  | _ => true
  end.

(** A balance table: absent, or an object of primitive amounts. *)
Definition plain_balance (b : value) : bool :=
  match b with
  | VObj props => forallb (fun kv => primitive (snd kv)) props
  | _ => negb (truthy b)
  end.

(** The inputs [validateOrder] is written for: an order and a portfolio
    that are not [null] or [undefined], a pair that is a string when it is
    given at all, a quantity and a price that are numbers or strings, and
    a balance table of numbers or strings. *)
Definition well_typed_order (order portfolio : value) : bool :=
  negb (is_nullish order) && negb (is_nullish portfolio)
  && (match field order "pair" with
      | VStr _ => true
      | v => negb (truthy v)
      end)
  && primitive (field order "quantity")
  && primitive (field order "price")
  && plain_balance (field portfolio "balance").

Definition absent (v : value) : bool := negb (truthy v).

Definition pair_of (order : value) : string :=
  match field order "pair" with
  | VStr s => s
  | _ => ""
  end.

(** The base currency is what stands before the first [/]; the quote
    currency what stands between the first and the second, and the key
    ["undefined"] when the pair has no [/]. *)
Definition base_currency (pair : string) : string :=
  nth 0 (Str.split "/"%char pair) "".

Definition quote_currency (pair : string) : string :=
  nth 1 (Str.split "/"%char pair) "undefined".

Section WithConfig.
Context `{Runtime}.
Variable config : trading_config.

(** The number a field stands for. *)
Definition number (v : value) : float :=
  match parseFloat v with
  | Ok x => x
  | Throw _ => Num.NaN
  end.

(** "price, or 1 when there is none" *)
Definition price_or_1 (price : value) : float :=
  if truthy price then number price else 1%float.

Definition balance_of (portfolio : value) : value :=
  or_else (field portfolio "balance") (VObj []).

(** The amount held in a currency, 0 when the table has none. *)
Definition amount (balance : value) (currency : string) : float :=
  number (or_else (field balance currency) (VNum 0)).

(** A currency of which the table holds nothing, under a name that
    every object inherits from [Object.prototype] ([constructor],
    [toString], [valueOf], ...): what the table gives under that name is
    no amount, and no quantity exceeds it. *)
Definition inherited (balance : value) (currency : string) : bool :=
  negb (own balance currency)
  && existsb (String.eqb currency) Object_prototype.

(** The sum of all amounts, in the order of the table and without any
    conversion between currencies. *)
Definition naive_sum (balance : value) : float :=
  fold_left (fun sum v => (sum + number (or_else v (VNum 0)))%float)
            (map snd (spread balance)) 0%float.

(** That sum, replaced by 1 when it is 0 (or NaN). *)
Definition total_value (portfolio : value) : float :=
  let sum := naive_sum (balance_of portfolio) in
  if Num.truthy sum then sum else 1%float.

Definition order_value (order : value) : float :=
  (number (field order "quantity") * price_or_1 (field order "price"))%float.

(** The reasons to reject an order, one disjunct each. *)
Definition rejects (order portfolio : value) : bool :=
  let pair := field order "pair" in
  let side := field order "side" in
  let quantity := field order "quantity" in
  let price := field order "price" in
  let balance := balance_of portfolio in
  absent pair || absent side || absent quantity
  || Num.le (number quantity) 0
  || (is_string (field order "order_type") "LIMIT"
      && (absent price || Num.le (number price) 0))
  || (is_string side "BUY"
      && negb (inherited balance (quote_currency (pair_of order)))
      && Num.gt (order_value order)
                (amount balance (quote_currency (pair_of order))))
  || (is_string side "SELL"
      && negb (inherited balance (base_currency (pair_of order)))
      && Num.gt (number quantity)
                (amount balance (base_currency (pair_of order))))
  || Num.gt (order_value order / total_value portfolio)%float
            (maxPositionSize config).

(** ** Position sizes *)

(** The inputs [calculatePositionSize] is written for: a signal and a
    balance table that are not [null] or [undefined], risk parameters
    that are an object or left out, and numbers or strings in the fields
    that enter the arithmetic. *)
Definition well_typed_signal (signal balance riskParams : value) : bool :=
  negb (is_nullish signal)
  && primitive (field signal "confidence")
  && primitive (field signal "price")
  && (match balance with
      | VObj props => forallb (fun kv => primitive (snd kv)) props
      | _ => false
      end)
  && (match riskParams with
      | VUndefined => true
      | VObj props =>
          primitive (field riskParams "riskPerTrade")
          && primitive (field riskParams "maxPositionSize")
      | _ => false
      end).

(** The number an operand of [*] stands for. *)
Definition numeric (v : value) : float :=
  match toNumber v with
  | Ok x => x
  | Throw _ => Num.NaN
  end.

(** A parameter, or its default when it is left out. *)
Definition parameter (riskParams : value) (name : string) (default : float)
  : float :=
  match riskParams with
  | VUndefined => default
  | _ => match field riskParams name with
         | VUndefined => default
         | v => numeric v
         end
  end.

Definition confidence_of (signal : value) : float :=
  match field signal "confidence" with
  | VUndefined => 0.5%float
  | v => numeric v
  end.

End WithConfig.

End Spec.
(* ================================================================== *)
(** * The life cycle of the engine *)
(* ================================================================== *)

Module Lifecycle.
Import TradingEngine.

(** Stopped and no interval timer armed. *)
Definition stopped (w : world) : Prop :=
  isRunning (eng w) = false /\ timers w = [].

(** Running with exactly one interval timer armed, the one whose
    handle [this.tradingInterval] holds. *)
Definition running (w : world) : Prop :=
  isRunning (eng w) = true
  /\ exists t, timers w = [t] /\ tradingInterval (eng w) = Some t.

Definition one_timer (w : world) : Prop :=
  if isRunning (eng w) then running w else stopped w.

(** What a turn of a trading cycle leaves alone. *)
Definition same_lifecycle (w w' : world) : Prop :=
  isRunning (eng w') = isRunning (eng w)
  /\ tradingInterval (eng w') = tradingInterval (eng w)
  /\ timers w' = timers w
  /\ starting w' = starting w.

(** The invariant of the executions in which the calls of [start()] do
    not overlap: at most one call is initializing, and then the engine
    is not running. *)
Definition settled (w : world) : Prop :=
  one_timer w
  /\ (starting w <= 1)%nat
  /\ (starting w = 1%nat -> isRunning (eng w) = false).

Section WithConfig.
Context `{Runtime}.
Variable config : trading_config.


End WithConfig.
End Lifecycle.

(* ================================================================== *)
(** * What the engine hands to the exchange *)
(* ================================================================== *)

Module Safety.
Import JS TradingEngine.

(** A cycle that has not yet decided whether to place an order: it
    waits for its portfolio, its market data or the workflow. *)
Definition undecided (a : awaiting) : bool :=
  match a with
  | AwaitPortfolio | AwaitMarketData | AwaitWorkflow => true
  | AwaitPlaceOrder _ | AwaitRefresh => false
  end.

Definition count_undecided (l : list (nat * awaiting)) : nat :=
  List.length (filter (fun c => undecided (snd c)) l).

Definition und (next : option awaiting) : bool :=
  match next with
  | Some a => undecided a
  | None => false
  end.

(** The invariant behind "one order per cycle at most". *)
Definition accounted (w : world) : Prop :=
  (List.length (orders w) + count_undecided (cycles w)
   <= cycleCount (eng w))%nat.

(** Two states of the event loop in which the trading cycles have the
    same work before them: the same cycles at the same [await]s, the
    same orders submitted, the same portfolio and last decision. *)
Definition same_work (w u : world) : Prop :=
  cycles u = cycles w
  /\ orders u = orders w
  /\ portfolio (eng u) = portfolio (eng w)
  /\ lastDecision (eng u) = lastDecision (eng w)
  /\ cycleCount (eng u) = cycleCount (eng w).

Section WithConfig.
Context `{Runtime}.
Variable config : trading_config.

(** An order that [validateOrder] accepts against the portfolio, with a
    number greater than 0 for its quantity. *)
Definition vetted (portfolio order : value) : Prop :=
  exists v q,
    RiskManager.validateOrder config order portfolio = Ok v
    /\ RiskManager.valid v = true
    /\ field order "quantity" = VNum q
    /\ PrimFloat.ltb 0 q = true.

(** The turn of the event loop at which an execution hands over its
    order number [i] (from 0): the state [w] before the turn, the event,
    and the state after it, in which the order stands last. *)
Definition submitted_at (evs : list event) (i : nat) (order : value)
  (w : world) (ev : event) (w1 : world) : Prop :=
  exists before after r,
    evs = (before ++ ev :: after)%list
    /\ run config initial before = Some w
    /\ step config w ev = Some (w1, r)
    /\ orders w1 = (orders w ++ [order])%list
    /\ List.length (orders w) = i.

End WithConfig.
End Safety.

(* ================================================================== *)
(** * The vector store in use *)
(* ================================================================== *)

Module StoreUse.
Import VectorStore.

(** The polynomial [c0 * 31^(n-1) + ... + c(n-1)] over the character
    codes, from the accumulator [acc]. *)
Definition polynomial (l : list ascii) (acc : Z) : Z :=
  fold_left (fun h c => 31 * h + Str.code c) l acc.

(** One call [addStrategy(text, metadata)] and what the environment
    decides during it. *)
Record add : Type := {
  add_io : io;
  add_text : string;
  add_metadata : value
}.

(** The record that the call appends. *)
Definition added (a : add) : entry :=
  {| id := Str.of_Z (date_now (add_io a));
     strategy := add_text a;
     embedding := generateEmbedding (add_text a);
     metadata := match add_metadata a with
                 | VUndefined => VObj []
                 | v => v
                 end;
     timestamp := new_date (add_io a) |}.

(** The calls made one after the other. *)
Fixpoint add_all (adds : list add) (s : store) : store :=
  match adds with
  | [] => s
  | a :: tl =>
      add_all tl
        (snd (addStrategy (add_io a) (VStr (add_text a)) (add_metadata a) s))
  end.

Definition prefix {A : Type} (l1 l2 : list A) : Prop :=
  exists rest, l2 = (l1 ++ rest)%list.

(** The file holds the text, whole or cut short, of a first part of the
    records. *)
Definition covered (f : file) (records : list entry) : Prop :=
  match f with
  | Whole written | Torn written => prefix written records
  end.

End StoreUse.

(* ================================================================== *)
(** * Decisions as the engine receives them *)
(* ================================================================== *)

Module Decision.
Import JS.

(** A decision the engine can act on: one of the three actions, a
    confidence between 0 and 1, and for BUY and SELL a symbol that is not
    empty and a finite quantity greater than 0. *)
Definition well_formed (d : value) : Prop :=
  exists props action confidence,
    d = VObj props
    /\ lookup "action" props = Some (VStr action)
    /\ In action RAGAgent.actions
    /\ lookup "confidence" props = Some (VNum confidence)
    /\ PrimFloat.leb 0 confidence = true
    /\ PrimFloat.leb confidence 1 = true
    /\ (action = "BUY" \/ action = "SELL" ->
        exists symbol quantity,
          lookup "symbol" props = Some (VStr symbol)
          /\ symbol <> ""
          /\ lookup "quantity" props = Some (VNum quantity)
          /\ Num.isFinite quantity = true
          /\ PrimFloat.ltb 0 quantity = true).

(** An order for the exchange: a BUY or a SELL of a pair that is not
    empty, for a finite quantity greater than 0. *)
Definition tradable (order : value) : Prop :=
  (field order "side" = VStr "BUY" \/ field order "side" = VStr "SELL")
  /\ (exists pair, field order "pair" = VStr pair /\ pair <> "")
  /\ (exists q, field order "quantity" = VNum q
                /\ Num.isFinite q = true
                /\ PrimFloat.ltb 0 q = true).

(** A text that does not begin with white space. *)
Definition headless (l : list ascii) : Prop :=
  match l with
  | c :: _ => Str.is_space c = false
  | [] => True
  end.

End Decision.

(* ================================================================== *)
(** * Payloads of requests *)
(* ================================================================== *)

Module Requests.
Import JS.

(** A payload whose values are all strings. *)
Definition all_strings (props : list (string * value)) : Prop :=
  forall k v, lookup k props = Some v -> exists s, v = VStr s.

End Requests.


(* ================================================================== *)
(** * Concrete inputs *)
(* ================================================================== *)

Module Examples.

(** [config.trading] when the environment sets none of the variables. *)
Definition default_config : trading_config :=
  {| intervalMs := 60000; maxPositionSize := 0.1; riskPerTrade := 0.02 |}.

(** [{action: "buy", symbol: "BTC/USD", quantity: "0.5", confidence: 1.5}] *)
Definition proposal_buy : value :=
  VObj [("action", VStr "buy"); ("symbol", VStr "BTC/USD");
        ("quantity", VStr "0.5"); ("confidence", VNum 1.5)].

(** [{action: "WAIT"}] *)
Definition proposal_wait : value := VObj [("action", VStr "WAIT")].

(** [{action: "BUY"}] *)
Definition proposal_bare_buy : value := VObj [("action", VStr "BUY")].

(** [{action: "HOLD", explanation: "x"}] *)
Definition proposal_explained : value :=
  VObj [("action", VStr "HOLD"); ("explanation", VStr "x")].

(** [{decision: {action: "sell", ticker: " ETH/USD ", amount: 2,
      price: "1800.5", order_type: "LIMIT", note: "n"}}] *)
Definition proposal_limit_sell : value :=
  VObj [("decision",
         VObj [("action", VStr "sell"); ("ticker", VStr " ETH/USD ");
               ("amount", VNum 2); ("price", VStr "1800.5");
               ("order_type", VStr "LIMIT"); ("note", VStr "n")])].

(** What [normalizeDecision] makes of [proposal_buy]. *)
Definition decision_buy : value :=
  VObj [("action", VStr "BUY"); ("symbol", VStr "BTC/USD");
        ("quantity", VNum 0.5); ("confidence", VNum 1);
        ("reasoning", VStr "")].

(** The order that [executeDecision] builds from it. *)
Definition order_market_buy : value :=
  VObj [("pair", VStr "BTC/USD"); ("side", VStr "BUY");
        ("order_type", VStr "MARKET"); ("quantity", VNum 0.5)].

(** [{balance: {USD: 100000, ETH: 50}}] *)
Definition portfolio_rich : value :=
  VObj [("balance", VObj [("USD", VNum 100000); ("ETH", VNum 50)])].

(** What [normalizeDecision] makes of [proposal_limit_sell]. *)
Definition decision_limit_sell : value :=
  VObj [("action", VStr "SELL"); ("ticker", VStr " ETH/USD ");
        ("amount", VNum 2); ("price", VStr "1800.5");
        ("order_type", VStr "LIMIT"); ("note", VStr "n");
        ("reasoning", VStr ""); ("confidence", VNum 0);
        ("symbol", VStr "ETH/USD"); ("quantity", VNum 2)].

(** The order that [executeDecision] builds from it. *)
Definition order_limit_sell : value :=
  VObj [("pair", VStr "ETH/USD"); ("side", VStr "SELL");
        ("order_type", VStr "LIMIT"); ("quantity", VNum 2);
        ("price", VNum 1800.5)].

(** One cycle of the engine that ends in that order: [start()], the
    initial portfolio, then the cycle's portfolio, market data and
    workflow result. *)
Definition trace_limit_sell : list TradingEngine.event :=
  [TradingEngine.CallStart;
   TradingEngine.InitDone (Ok portfolio_rich);
   TradingEngine.Resume 1 (Ok portfolio_rich);
   TradingEngine.Resume 1 (Ok (VObj [("tickers", VArr [])]));
   TradingEngine.Resume 1 (Ok (VObj [("decision", decision_limit_sell)]))].

(** [{pair: "BTCUSD", side: "SELL", quantity: 1}] against
    [{balance: {BTCUSD: 100}}]: a pair without separator. *)
Definition order_no_separator : value :=
  VObj [("pair", VStr "BTCUSD"); ("side", VStr "SELL"); ("quantity", VNum 1)].

Definition portfolio_no_separator : value :=
  VObj [("balance", VObj [("BTCUSD", VNum 100)])].

(** [{pair: "constructor/USD", side: "SELL", quantity: 1}] against
    [{balance: {USD: 100}}]: a base currency that the table does not
    hold, under a name that every object inherits. *)
Definition order_inherited_sell : value :=
  VObj [("pair", VStr "constructor/USD"); ("side", VStr "SELL");
        ("quantity", VNum 1)].

Definition portfolio_usd_100 : value :=
  VObj [("balance", VObj [("USD", VNum 100)])].

(** [{pair: "BTC/USD", side: "BUY", quantity: 0.1}] against
    [{balance: {USD: 0.5}}]: a portfolio worth less than 1. *)
Definition order_small_buy : value :=
  VObj [("pair", VStr "BTC/USD"); ("side", VStr "BUY"); ("quantity", VNum 0.1)].

Definition portfolio_small : value :=
  VObj [("balance", VObj [("USD", VNum 0.5)])].

(** [{pair: "BTC/USD", side: "BUY", quantity: 2, price: 100}] against
    [{balance: {USD: 150, BTC: 1}}] and [{balance: {USD: 5000, BTC: 1}}]. *)
Definition order_buy : value :=
  VObj [("pair", VStr "BTC/USD"); ("side", VStr "BUY");
        ("quantity", VNum 2); ("price", VNum 100);
        ("order_type", VStr "LIMIT")].

Definition portfolio_short : value :=
  VObj [("balance", VObj [("USD", VNum 150); ("BTC", VNum 1)])].

Definition portfolio_ample : value :=
  VObj [("balance", VObj [("USD", VNum 5000); ("BTC", VNum 1)])].

(** [calculatePositionSize({confidence: 1, price: 100}, {USD: 1000},
      {riskPerTrade: 0.02, maxPositionSize: 0.1})] *)
Definition signal_full : value :=
  VObj [("confidence", VNum 1); ("price", VNum 100)].

Definition signal_no_price : value := VObj [("confidence", VNum 1)].

Definition balances_1000 : value := VObj [("USD", VNum 1000)].

Definition risk_params : value :=
  VObj [("riskPerTrade", VNum 0.02); ("maxPositionSize", VNum 0.1)].

(** The store's environment: a clock reading, and a disk that takes the
    write, one that is full, and one that cannot be written to. *)
Definition io_ok : VectorStore.io :=
  {| VectorStore.date_now := 1700000000000;
     VectorStore.new_date := 1700000000000;
     VectorStore.write := VectorStore.Written |}.

Definition io_disk_full : VectorStore.io :=
  {| VectorStore.date_now := 1700000000000;
     VectorStore.new_date := 1700000000000;
     VectorStore.write := VectorStore.Interrupted |}.

Definition io_read_only : VectorStore.io :=
  {| VectorStore.date_now := 1700000000000;
     VectorStore.new_date := 1700000000000;
     VectorStore.write := VectorStore.NotOpened |}.

Definition empty_store : VectorStore.store :=
  {| VectorStore.strategies := []; VectorStore.disk := VectorStore.Whole [];
     VectorStore.log := [] |}.

(** A record as [addStrategy] makes it. *)
Definition record (id text : string) : VectorStore.entry :=
  {| VectorStore.id := id; VectorStore.strategy := text;
     VectorStore.embedding := VectorStore.generateEmbedding text;
     VectorStore.metadata := VObj []; VectorStore.timestamp := 0 |}.

(** Three records, the first and the third with one text. *)
Definition store_three : VectorStore.store :=
  {| VectorStore.strategies :=
       [record "1" "buy bitcoin dips";
        record "2" "sell ethereum rallies";
        record "3" "buy bitcoin dips";
        record "4" "buy bitcoin"];
     VectorStore.disk := VectorStore.Whole []; VectorStore.log := [] |}.


Definition network_error : error := Error "Network Error".

(** Every collaborator answers; the decision reply is the JSON text of
    [proposal_buy]. *)
Definition collaborators_up : RAGAgent.collaborators :=
  {| RAGAgent.getTradingStrategies :=
       Ok (VObj [("strategies", VStr "buy the dip when momentum turns");
                 ("raw", VNull)]);
     RAGAgent.getFinancialNews := Ok (VObj [("news", VStr "calm markets")]);
     RAGAgent.getStockData := Ok (VObj [("data", VStr "BTC 50000")]);
     RAGAgent.getMarketSentiment := Ok (VStr "neutral");
     RAGAgent.performCalculations :=
       Ok (VObj [("calculations", VStr "RSI 40"); ("raw", VNull)]);
     RAGAgent.analyzeScenario_synthesis := Ok (VStr "accumulate");
     RAGAgent.analyzeScenario_decision :=
       Ok (VStr (Host.JSON_stringify proposal_buy));
     RAGAgent.store_io := io_ok |}.

(** The analysis collaborator (DeepSeek) fails at every call. *)
Definition analysis_down : RAGAgent.collaborators :=
  {| RAGAgent.getTradingStrategies := Throw network_error;
     RAGAgent.getFinancialNews := Ok (VObj [("news", VStr "calm markets")]);
     RAGAgent.getStockData := Ok (VObj [("data", VStr "BTC 50000")]);
     RAGAgent.getMarketSentiment := Ok (VStr "neutral");
     RAGAgent.performCalculations := Throw network_error;
     RAGAgent.analyzeScenario_synthesis := Throw network_error;
     RAGAgent.analyzeScenario_decision := Throw network_error;
     RAGAgent.store_io := io_ok |}.

(** The news and the sentiment arrive, the stock data do not. *)
Definition stock_data_down : RAGAgent.collaborators :=
  {| RAGAgent.getTradingStrategies := Throw network_error;
     RAGAgent.getFinancialNews := Ok (VObj [("news", VStr "calm markets")]);
     RAGAgent.getStockData := Throw network_error;
     RAGAgent.getMarketSentiment := Ok (VStr "neutral");
     RAGAgent.performCalculations := Throw network_error;
     RAGAgent.analyzeScenario_synthesis := Throw network_error;
     RAGAgent.analyzeScenario_decision := Throw network_error;
     RAGAgent.store_io := io_ok |}.

(** The context that [runTradingCycle] builds. *)
Definition context_cycle : value :=
  VObj [("symbols", VArr [VStr "BTC/USD"; VStr "ETH/USD"]);
        ("portfolio", portfolio_rich);
        ("marketData",
         VObj [("tickers", VArr []);
               ("description", VStr "Market data for BTC/USD, ETH/USD")]);
        ("currentPositions", VArr [])].

(** A context whose [marketData] is [null]. *)
Definition context_null_market : value :=
  VObj [("symbols", VArr [VStr "BTC/USD"]);
        ("portfolio", portfolio_rich);
        ("marketData", VNull)].

End Examples.

(* ================================================================== *)
(** * Facts about binary64 numbers *)
(* ================================================================== *)

Module FloatFacts.

Import FloatOrder.

Lemma SFcompare_key x y : SFcompare x y = key_compare (key x) (key y).
Proof.
  destruct x as [sx|sx| |sx mx ex], y as [sy|sy| |sy my ey];
    try destruct sx; try destruct sy; try reflexivity; cbn.
  - rewrite Z.compare_opp. destruct (Z.compare_spec ex ey) as [->|L|L]; 
      [rewrite Z.compare_refl| |].
    + first [reflexivity | rewrite <- Pos.compare_antisym; reflexivity | rewrite Pos.compare_antisym; reflexivity].
    + apply Z.gt_lt_iff in L. rewrite L. reflexivity.
    + rewrite (proj2 (Z.compare_lt_iff _ _) L). reflexivity.
Qed.

Lemma lex_compare_spec a b :
  CompareSpec (a = b) (lex_lt a b) (lex_lt b a) (lex_compare a b).
Proof.
  destruct a as [[a1 a2] a3], b as [[b1 b2] b3]. unfold lex_compare, lex_lt.
  destruct (Z.compare_spec a1 b1); [|constructor; lia|constructor; lia].
  destruct (Z.compare_spec a2 b2); [|constructor; lia|constructor; lia].
  destruct (Z.compare_spec a3 b3); constructor; try lia. congruence.
Qed.

Lemma ltb_key x y :
  PrimFloat.ltb x y = match key_compare (fkey x) (fkey y) with Some Lt => true | _ => false end.
Proof. rewrite FloatAxioms.ltb_spec. unfold SFltb. rewrite SFcompare_key. reflexivity. Qed.

Lemma leb_key x y :
  PrimFloat.leb x y = match key_compare (fkey x) (fkey y) with Some (Lt | Eq) => true | _ => false end.
Proof. rewrite FloatAxioms.leb_spec. unfold SFleb. rewrite SFcompare_key. reflexivity. Qed.

Lemma eqb_key x y :
  PrimFloat.eqb x y = match key_compare (fkey x) (fkey y) with Some Eq => true | _ => false end.
Proof. rewrite FloatAxioms.eqb_spec. unfold SFeqb. rewrite SFcompare_key. reflexivity. Qed.

Lemma is_nan_key x :
  PrimFloat.is_nan x = match fkey x with Some _ => false | None => true end.
Proof.
  unfold is_nan. rewrite eqb_key. destruct (fkey x) as [a|]; cbn; [|reflexivity].
  destruct (lex_compare_spec a a) as [_|L|L]; try reflexivity;
    destruct a as [[a1 a2] a3]; cbn in L; lia.
Qed.

Lemma fkey_zero : fkey 0%float = Some (0, 0, 0).
Proof. reflexivity. Qed.

Lemma fkey_one : fkey 1%float = Some (1, -52, 4503599627370496).
Proof. reflexivity. Qed.

(** Goals about the order of numbers become goals about their keys,
    which [lia] decides. *)
Ltac float_order :=
  rewrite ?ltb_key, ?leb_key, ?eqb_key, ?is_nan_key in *;
  rewrite ?fkey_zero, ?fkey_one in *;
  repeat match goal with
         | |- context [fkey ?x] => 
             let k := fresh "k" in destruct (fkey x) as [k|]
         | H : context [fkey ?x] |- _ => 
             let k := fresh "k" in destruct (fkey x) as [k|]
         end;
  cbn [key_compare] in *;
  repeat match goal with
         | |- context [lex_compare ?a ?b] => destruct (lex_compare_spec a b)
         | H : context [lex_compare ?a ?b] |- _ => destruct (lex_compare_spec a b)
         end;
  subst;
  repeat match goal with
         | k : (Z * Z * Z)%type |- _ => destruct k as [[? ?] ?]
         end;
  cbn [lex_lt] in *; try discriminate; try reflexivity; try lia.

Lemma ltb_false_leb x y :
  PrimFloat.ltb x y = false -> is_nan x = false -> is_nan y = false ->
  PrimFloat.leb y x = true.
Proof. intros. float_order. Qed.

Lemma leb_trans x y z :
  PrimFloat.leb x y = true -> PrimFloat.leb y z = true -> PrimFloat.leb x z = true.
Proof. intros. float_order. Qed.

Lemma ltb_not_nan_r a x : PrimFloat.ltb a x = true -> is_nan x = false.
Proof. intros. float_order. Qed.

Lemma ltb_eqb_class x y s :
  PrimFloat.ltb x y = true -> PrimFloat.eqb x s = true -> PrimFloat.eqb y s = false.
Proof. intros. float_order. Qed.



















End FloatFacts.

(* ================================================================== *)
(** * Facts about values *)
(* ================================================================== *)

Module JSFacts.
Import JS.

Lemma lookup_set_eq k v props : lookup k (set k v props) = Some v.
Proof.
  induction props as [|[k' v'] tl IH]; cbn.
  - now rewrite String.eqb_refl.
  - destruct (String.eqb k k') eqn:E; cbn; rewrite ?String.eqb_refl, ?E; auto.
Qed.

Lemma lookup_set_ne k k' v props :
  k <> k' -> lookup k' (set k v props) = lookup k' props.
Proof.
  intros N. induction props as [|[k0 v0] tl IH]; cbn.
  - destruct (String.eqb k' k) eqn:E; [apply String.eqb_eq in E; congruence|reflexivity].
  - destruct (String.eqb k k0) eqn:E; cbn.
    + apply String.eqb_eq in E. subst k0.
      destruct (String.eqb k' k) eqn:E'; [apply String.eqb_eq in E'; congruence|reflexivity].
    + destruct (String.eqb k' k0); auto.
Qed.

Lemma get_field v k : is_nullish v = false -> get v k = Ok (field v k).
Proof.
  unfold field. destruct v; cbn [is_nullish]; try discriminate; intros _;
    cbn [get]; try reflexivity.
  - destruct (String.eqb k "length"); reflexivity.
  - destruct (String.eqb k "length"); reflexivity.
Qed.

Lemma unwrap_not_nullish decision inner :
  truthy decision = true -> is_nullish (RAGAgent.unwrap decision inner) = false.
Proof.
  unfold RAGAgent.unwrap. intros T.
  destruct inner; cbn; try (destruct decision; cbn in *; congruence).
Qed.

End JSFacts.

Module ClampFacts.

Import FloatFacts FloatOrder.

Lemma finite_not_nan x : Num.isFinite x = true -> PrimFloat.is_nan x = false.
Proof.
  unfold Num.isFinite, is_finite. destruct (is_nan x); [discriminate|reflexivity].
Qed.

Lemma min_one x :
  PrimFloat.is_nan x = false ->
  Num.Math_min 1 x = 1%float \/ Num.Math_min 1 x = x.
Proof.
  intros N. unfold Num.Math_min. rewrite N.
  change (is_nan 1) with false. cbn [orb].
  destruct (PrimFloat.ltb 1 x); [now left|].
  destruct (PrimFloat.ltb x 1); [now right|].
  change (get_sign 1) with false. now right.
Qed.

Lemma clamp01_range x :
  PrimFloat.leb 0 (RAGAgent.clamp01 x) = true
  /\ PrimFloat.leb (RAGAgent.clamp01 x) 1 = true.
Proof.
  unfold RAGAgent.clamp01. destruct (Num.isFinite x) eqn:F; [|split; reflexivity].
  apply finite_not_nan in F.
  unfold Num.Math_max, Num.Math_min. rewrite F.
  change (is_nan 1) with false. change (is_nan 0) with false.
  change (get_sign 1) with false. change (get_sign 0) with false. cbn [orb].
  destruct (PrimFloat.ltb 1 x) eqn:A.
  - split; reflexivity.
  - destruct (PrimFloat.ltb x 1) eqn:B; rewrite F;
      destruct (PrimFloat.ltb 0 x) eqn:C; try solve [split; float_order];
      destruct (PrimFloat.ltb x 0) eqn:D; split; float_order.
Qed.

Lemma clamp01_clamped x : Spec.clamped x (RAGAgent.clamp01 x).
Proof.
  unfold Spec.clamped, RAGAgent.clamp01.
  destruct (Num.isFinite x) eqn:F.
  2:{ repeat split; intros; try discriminate; reflexivity. }
  apply finite_not_nan in F.
  unfold Num.Math_max, Num.Math_min. rewrite F.
  change (is_nan 1) with false. change (is_nan 0) with false.
  change (get_sign 1) with false. change (get_sign 0) with false. cbn [orb].
  repeat split; try discriminate; intros _.
  - intros L. destruct (PrimFloat.ltb 1 x) eqn:A; [float_order|].
    destruct (PrimFloat.ltb x 1) eqn:B; rewrite F;
      (destruct (PrimFloat.ltb 0 x) eqn:C; [float_order|]);
      rewrite L; reflexivity.
  - intros L. rewrite L. reflexivity.
  - intros L0 L1. destruct (PrimFloat.ltb 1 x) eqn:A; [float_order|].
    destruct (PrimFloat.ltb x 1) eqn:B; rewrite F;
      (destruct (PrimFloat.ltb 0 x) eqn:C; [float_order|]);
      (destruct (PrimFloat.ltb x 0) eqn:D; float_order).
Qed.

End ClampFacts.

Ltac step_as H E :=
  lazymatch type of H with
  | bind ?r _ = _ =>
      destruct r eqn:E; cbn [bind] in H; [|discriminate H]
  | (if ?c then _ else _) = _ =>
      destruct c eqn:E; try discriminate H
  end.

Tactic Notation "step" hyp(H) "as" ident(E) := step_as H E.

Ltac lookup_set :=
  repeat (rewrite JSFacts.lookup_set_ne by discriminate);
  rewrite JSFacts.lookup_set_eq; reflexivity.


(* ================================================================== *)
(** * [normalizeDecision] *)
(* ================================================================== *)

Section NormalizeFacts.
Context `{Runtime}.
Import JS RAGAgent Spec JSFacts ClampFacts FloatFacts FloatOrder.

Lemma includes_In l s : includes l s = true -> In s l.
Proof.
  unfold includes. rewrite existsb_exists. intros (x & I & E).
  apply String.eqb_eq in E. now subst.
Qed.

Lemma is_empty_false s : Str.is_empty s = false -> s <> "".
Proof. destruct s; [discriminate|congruence]. Qed.

Lemma normalizeDecision_inv decision normalized :
  normalizeDecision decision = Ok normalized ->
  exists inner,
    get decision "decision" = Ok inner
    /\ decision_contract (unwrap decision inner) normalized.
Proof.
  unfold normalizeDecision. intros N.
  destruct (negb (truthy decision) || negb (typeof_object decision)) eqn:G;
    [discriminate|].
  apply orb_false_iff in G as [T _]. apply negb_false_iff in T.
  destruct (get decision "decision") as [inner|] eqn:GI; [|discriminate].
  exists inner. split; [reflexivity|]. cbn [bind] in N. cbv zeta in N.
  pose proof (unwrap_not_nullish decision inner T) as NN.
  set (candidate := unwrap decision inner) in *.
  rewrite !(get_field candidate) in N by exact NN. cbn [bind] in N.
  step N as Ea. rename a into a_str.
  step N as Eempty. step N as Einc. apply negb_false_iff in Einc.
  step N as Ex. rename a into x.
  pose proof (clamp01_range x) as [R0 R1].
  pose proof (clamp01_clamped x) as CL.
  step N as Ebs.
  - (* BUY or SELL *)
    step N as Es. rename a into sym_str. step N as Esym.
    set (raw := nullish (field candidate "quantity")
                  (nullish (field candidate "size") (field candidate "amount"))) in *.
    destruct (match raw with VStr s => VNum (Str.parseFloat s) | _ => raw end)
      as [| | |q| | |] eqn:Q; try discriminate N.
    step N as Eq. apply orb_false_iff in Eq as [F P]. apply negb_false_iff in F.
    injection N as <-.
    eexists _, _, _. split; [reflexivity|].
    repeat match goal with |- _ /\ _ => split end.
    + lookup_set.
    + now apply includes_In.
    + exists a_str. split; [exact Ea|reflexivity].
    + lookup_set.
    + exact R0.
    + exact R1.
    + exists x. split; [exact Ex|exact CL].
    + lookup_set.
    + intros _. exists (Str.trim sym_str), q, sym_str.
      repeat match goal with |- _ /\ _ => split end.
      * exact Es.
      * reflexivity.
      * now apply is_empty_false.
      * lookup_set.
      * change (as_quantity raw = Some q). unfold as_quantity. clearbody raw.
        destruct raw; try discriminate Q; injection Q as ->; reflexivity.
      * exact F.
      * unfold Num.le in P. apply finite_not_nan in F. float_order.
      * lookup_set.
    + intros A. rewrite A in Ebs. cbn in Ebs. discriminate Ebs.
  - (* HOLD *)
    injection N as <-.
    eexists _, _, _. split; [reflexivity|].
    repeat match goal with |- _ /\ _ => split end.
    + lookup_set.
    + now apply includes_In.
    + exists a_str. split; [exact Ea|reflexivity].
    + lookup_set.
    + exact R0.
    + exact R1.
    + exists x. split; [exact Ex|exact CL].
    + lookup_set.
    + intros [A|A]; rewrite A in Ebs; cbn in Ebs; discriminate Ebs.
    + intros _. split.
      * lookup_set.
      * lookup_set.
Qed.

End NormalizeFacts.

Section NormalizeClaims.
Context `{Runtime}.
Import JS RAGAgent Spec JSFacts ClampFacts FloatFacts FloatOrder Examples.

(** C2 (amended): [normalizeDecision] is all or nothing.  Whenever it
    returns, the result is an object that meets the whole contract of
    [Spec.decision_contract] for the unwrapped proposal: the action is the
    trimmed, upper-cased input action and one of BUY, SELL, HOLD; the
    confidence is the parsed number clamped to [0,1], 0 when not finite;
    BUY and SELL carry a non-empty symbol (alias [ticker]) and a positive
    finite quantity (aliases [size], [amount], a string parsed); HOLD has
    quantity 0 and the symbol passed through or null; the reasoning is
    [reasoning], else its alias [explanation], else the empty string.  The
    three inputs of the design behave as it says. *)
Theorem normalizeDecision_contract :
  (forall decision normalized,
      normalizeDecision decision = Ok normalized ->
      exists inner,
        get decision "decision" = Ok inner
        /\ decision_contract (unwrap decision inner) normalized)
  /\ normalizeDecision proposal_buy
     = Ok (VObj [("action", VStr "BUY"); ("symbol", VStr "BTC/USD");
                 ("quantity", VNum 0.5); ("confidence", VNum 1);
                 ("reasoning", VStr "")])
  /\ is_ok (normalizeDecision proposal_wait) = false
  /\ is_ok (normalizeDecision proposal_bare_buy) = false.
Proof.
  split; [exact normalizeDecision_inv|]. repeat split; reflexivity.
Qed.

Lemma get_action_of_array items : get (VArr items) "action" = Ok VUndefined.
Proof. reflexivity. Qed.

Lemma lookup_field props k :
  field (VObj props) k
  = match lookup k props with Some x => x | None => VUndefined end.
Proof. reflexivity. Qed.

Lemma normalized_is_object decision normalized :
  normalizeDecision decision = Ok normalized ->
  exists inner cprops props,
    get decision "decision" = Ok inner
    /\ unwrap decision inner = VObj cprops
    /\ normalized = VObj props
    /\ forall k, ~ In k ["action"; "reasoning"; "confidence"; "symbol"; "quantity"] ->
                 lookup k props = lookup k cprops.
Proof.
  unfold normalizeDecision. intros N.
  destruct (negb (truthy decision) || negb (typeof_object decision)) eqn:G;
    [discriminate|].
  apply orb_false_iff in G as [T TO]. apply negb_false_iff in T, TO.
  destruct (get decision "decision") as [inner|] eqn:GI; [|discriminate].
  exists inner. cbn [bind] in N. cbv zeta in N.
  assert (C : exists cprops, unwrap decision inner = VObj cprops
                             \/ exists items, unwrap decision inner = VArr items).
  { unfold unwrap. destruct inner; cbn; destruct decision; try discriminate; eauto. }
  destruct C as (cprops & [C|(items & C)]); rewrite C in N.
  2:{ rewrite get_action_of_array in N. cbn in N. discriminate N. }
  exists cprops. cbn [get bind spread] in N.
  step N as Ea. step N as Eempty. step N as Einc. step N as Ex.
  assert (L : forall props k v,
             ~ In k ["action"; "reasoning"; "confidence"; "symbol"; "quantity"] ->
             forall k', In k' ["action"; "reasoning"; "confidence"; "symbol"; "quantity"] ->
             lookup k (set k' v props) = lookup k props).
  { intros props k v NI k' I. apply lookup_set_ne. intros ->. contradiction. }
  step N as Ebs.
  - step N as Es. step N as Esym.
    match type of N with (match ?q with _ => _ end) = _ => destruct q eqn:Q end;
      try discriminate N.
    step N as Eq. injection N as <-. eexists.
    split; [reflexivity|]. split; [exact C|]. split; [reflexivity|].
    intros k NI. rewrite !L by first [exact NI | cbn; tauto]. reflexivity.
  - injection N as <-. eexists.
    split; [reflexivity|]. split; [exact C|]. split; [reflexivity|].
    intros k NI. rewrite !L by first [exact NI | cbn; tauto]. reflexivity.
Qed.

End NormalizeClaims.

(** C2, at the design's first input: the hypothesis holds there. *)
Lemma normalizeDecision_contract_witness :
  exists normalized,
    RAGAgent.normalizeDecision Examples.proposal_buy = Ok normalized
    /\ Spec.decision_contract Examples.proposal_buy normalized.
Proof.
  eexists. split; [reflexivity|].
  destruct (proj1 (normalizeDecision_contract (H := host)) Examples.proposal_buy _ eq_refl)
    as (inner & G & C).
  cbn in G. injection G as <-. exact C.
Defined.

(** C2 as stated fails: with no [reasoning] but an [explanation], the
    reasoning of the result is the explanation, not the empty string. *)
Lemma normalizeDecision_reasoning_alias :
  JS.field Examples.proposal_explained "reasoning" = VUndefined
  /\ RAGAgent.normalizeDecision Examples.proposal_explained
     = Ok (VObj [("action", VStr "HOLD"); ("explanation", VStr "x");
                 ("reasoning", VStr "x"); ("confidence", VNum 0);
                 ("symbol", VNull); ("quantity", VNum 0)]).
Proof. split; reflexivity. Qed.

(* ================================================================== *)
(** * Extra fields of a proposal, from the normalizer to the order *)
(* ================================================================== *)

Section OrderFacts.
Context `{Runtime}.
Variable config : trading_config.
Import JS RAGAgent TradingEngine JSFacts.

Lemma get_Ok_field v k x : get v k = Ok x -> x = field v k.
Proof. unfold field. now intros ->. Qed.

Lemma executeDecision_begin_order decision portfolio order :
  executeDecision_begin config decision portfolio = Ok (Submitted order) ->
  exists oprops,
    order = VObj oprops
    /\ lookup "pair" oprops = Some (field decision "symbol")
    /\ lookup "side" oprops = Some (field decision "action")
    /\ lookup "order_type" oprops
       = Some (default_to (VStr "MARKET") (field decision "order_type"))
    /\ (if truthy (field decision "price")
        then exists p, parseFloat (field decision "price") = Ok p
                       /\ lookup "price" oprops = Some (VNum p)
        else lookup "price" oprops = None).
Proof.
  unfold executeDecision_begin. intros E.
  step E as Ga. apply get_Ok_field in Ga. subst a.
  step E as Gs. apply get_Ok_field in Gs. subst a.
  step E as Gq. apply get_Ok_field in Gq. subst a.
  step E as Gp. apply get_Ok_field in Gp. subst a.
  step E as Go. apply get_Ok_field in Go. subst a.
  cbv zeta in E.
  step E as Hold. step E as Missing.
  unfold catch in E.
  match type of E with (match ?b with _ => _ end) = _ => destruct b as [ex|] eqn:B end;
    [|discriminate E].
  injection E as ->.
  step B as P. rename a into o. step B as V. step B as Valid.
  injection B as <-.
  unfold prepare_order in P.
  step P as Q. step P as PP. injection P as <-.
  eexists. split; [reflexivity|].
  split; [reflexivity|]. split; [reflexivity|]. split; [reflexivity|].
  destruct (truthy (field decision "price")).
  - step PP as PF. injection PP as <-. eexists. split; reflexivity.
  - injection PP as <-. reflexivity.
Qed.

End OrderFacts.

Section ExtraFieldsClaim.
Context `{Runtime}.
Import JS RAGAgent TradingEngine.

(** C10: [normalizeDecision] returns the spread of the unwrapped proposal
    with five properties set, so every other property of the proposal is
    in the result unchanged; and the order that [executeDecision] builds
    and submits takes its [order_type] from [decision.order_type]
    (["MARKET"] when undefined) and its [price] from [decision.price]
    (parsed; no [price] when that is falsy). *)
Theorem normalizeDecision_keeps_extra_fields :
  (forall decision normalized,
      normalizeDecision decision = Ok normalized ->
      exists inner cprops props,
        get decision "decision" = Ok inner
        /\ unwrap decision inner = VObj cprops
        /\ normalized = VObj props
        /\ forall k,
            ~ In k ["action"; "reasoning"; "confidence"; "symbol"; "quantity"] ->
            lookup k props = lookup k cprops)
  /\ (forall config decision portfolio order,
        executeDecision_begin config decision portfolio = Ok (Submitted order) ->
        exists oprops,
          order = VObj oprops
          /\ lookup "pair" oprops = Some (field decision "symbol")
          /\ lookup "side" oprops = Some (field decision "action")
          /\ lookup "order_type" oprops
             = Some (default_to (VStr "MARKET") (field decision "order_type"))
          /\ (if truthy (field decision "price")
              then exists p, parseFloat (field decision "price") = Ok p
                             /\ lookup "price" oprops = Some (VNum p)
              else lookup "price" oprops = None)).
Proof.
  split.
  - exact normalized_is_object.
  - exact executeDecision_begin_order.
Qed.

End ExtraFieldsClaim.

(** C10, on a proposal that carries a price and an order type: both are
    in the normalized decision, in the order built from it, and in the
    order the engine hands to the exchange. *)
Lemma normalizeDecision_keeps_extra_fields_witness :
  RAGAgent.normalizeDecision Examples.proposal_limit_sell
  = Ok Examples.decision_limit_sell
  /\ TradingEngine.executeDecision_begin Examples.default_config
       Examples.decision_limit_sell Examples.portfolio_rich
     = Ok (TradingEngine.Submitted Examples.order_limit_sell)
  /\ (exists cprops props,
        JS.field Examples.proposal_limit_sell "decision" = VObj cprops
        /\ Examples.decision_limit_sell = VObj props
        /\ JS.lookup "price" props = JS.lookup "price" cprops
        /\ JS.lookup "order_type" props = JS.lookup "order_type" cprops
        /\ JS.lookup "note" props = JS.lookup "note" cprops)
  /\ (exists oprops,
        Examples.order_limit_sell = VObj oprops
        /\ JS.lookup "order_type" oprops = Some (VStr "LIMIT")
        /\ JS.lookup "price" oprops = Some (VNum 1800.5))
  /\ option_map TradingEngine.orders
       (TradingEngine.run Examples.default_config TradingEngine.initial
          Examples.trace_limit_sell)
     = Some [Examples.order_limit_sell].
Proof.
  pose proof (normalizeDecision_keeps_extra_fields (H := host)) as [Keep Order].
  split; [reflexivity|]. split; [reflexivity|]. split; [|split].
  - destruct (Keep Examples.proposal_limit_sell _ eq_refl)
      as (inner & cprops & props & G & U & N & K).
    cbn in G. injection G as <-. cbn in U. injection U as <-.
    injection N as <-.
    eexists _, _. split; [reflexivity|]. split; [reflexivity|].
    repeat split; apply K; cbn; intuition discriminate.
  - destruct (Order Examples.default_config Examples.decision_limit_sell
                Examples.portfolio_rich _ eq_refl)
      as (oprops & O & _ & _ & OT & P).
    injection O as <-. eexists. split; [reflexivity|]. split; reflexivity.
  - reflexivity.
Defined.

(* ================================================================== *)
(** * The workflow of the RAG agent *)
(* ================================================================== *)

Section WorkflowFacts.
Context `{Runtime}.
Import JS RAGAgent JSFacts.

Lemma makeDecision_Ok c synthesized portfolio :
  exists d, makeDecision c synthesized portfolio = Ok d.
Proof.
  unfold makeDecision, catch.
  destruct (_ <- analyzeScenario_decision c ;; _); eauto.
Qed.

Lemma collectMarketData_object c symbols :
  exists props, collectMarketData c symbols = Ok (VObj props).
Proof.
  unfold collectMarketData, catch.
  destruct (getFinancialNews c) as [news|]; cbn [bind]; eauto.
  destruct (getStockData c) as [stock|]; cbn [bind]; eauto.
  destruct (getMarketSentiment c) as [sentiment|]; cbn [bind]; eauto.
  destruct (get news "news"); cbn [bind]; eauto.
  destruct (get stock "data"); cbn [bind]; eauto.
Qed.

Lemma calculateMetrics_object c data :
  exists props, calculateMetrics c data = Ok (VObj props).
Proof.
  unfold calculateMetrics, catch.
  destruct (performCalculations c) as [results|]; cbn [bind]; eauto.
  destruct (get results "calculations"); cbn [bind]; eauto.
  destruct (get results "raw"); cbn [bind]; eauto.
Qed.

Lemma synthesizeStrategy_Ok c strategies mprops xprops :
  exists s, synthesizeStrategy c strategies (VObj mprops) (VObj xprops) = Ok s.
Proof.
  unfold synthesizeStrategy, catch.
  destruct (analyzeScenario_synthesis c) as [synthesized|]; cbn [bind];
    [destruct (get synthesized "length")|]; cbn; eauto.
Qed.

Lemma bindM_Ok {S A B : Type} (m : M S A) (k : A -> M S B) s a s' :
  m s = (Ok a, s') -> bindM m k s = k a s'.
Proof. unfold bindM. now intros ->. Qed.

Lemma bindM_lift_Ok {S A B : Type} (r : result A) (k : A -> M S B) s a :
  r = Ok a -> bindM (lift r) k s = k a s.
Proof. now intros ->. Qed.

Lemma catchM_Ok {S A : Type} (body : M S A) handler s :
  (forall e s0, exists a s', handler e s0 = (Ok a, s')) ->
  exists a s', catchM body handler s = (Ok a, s').
Proof.
  intros Hh. unfold catchM. destruct (body s) as [[a|e] s']; eauto.
Qed.

Lemma retrieveStrategies_Ok c props store :
  exists r store', retrieveStrategies c (VObj props) store = (Ok r, store').
Proof.
  unfold retrieveStrategies. cbn [get bindM lift].
  apply catchM_Ok. intros e s0. eexists _, _. reflexivity.
Qed.

(** The steps of [executeWorkflow] after the context has been read. *)
Lemma executeWorkflow_Ok c context store :
  is_nullish context = false ->
  is_null (field context "marketData") = false ->
  exists w store',
    executeWorkflow c context store = (Ok w, store')
    /\ makeDecision c (synthesized w)
         (default_to (VObj []) (field context "portfolio"))
       = Ok (decision w).
Proof.
  intros NN NM. unfold executeWorkflow.
  rewrite !(get_field context) by exact NN.
  set (marketData := default_to (VObj []) (field context "marketData")).
  assert (MD : is_nullish marketData = false).
  { unfold marketData. destruct (field context "marketData"); try reflexivity.
    discriminate NM. }
  cbn [bindM lift]. unfold catchM.
  rewrite (get_field marketData) by exact MD. cbn [bindM lift].
  match goal with
  | |- context [retrieveStrategies c (VObj ?p)] =>
      destruct (retrieveStrategies_Ok c p store) as (r & store1 & R)
  end.
  rewrite (bindM_Ok _ _ _ _ _ R).
  match goal with
  | |- context [collectMarketData c ?s] =>
      destruct (collectMarketData_object c s) as (mprops & CM)
  end.
  rewrite (bindM_lift_Ok _ _ _ _ CM).
  match goal with
  | |- context [calculateMetrics c ?d] =>
      destruct (calculateMetrics_object c d) as (xprops & X)
  end.
  rewrite (bindM_lift_Ok _ _ _ _ X).
  destruct (synthesizeStrategy_Ok c (allStrategies r) mprops xprops) as (s & S).
  rewrite (bindM_lift_Ok _ _ _ _ S).
  match goal with
  | |- context [makeDecision c s ?p] =>
      destruct (makeDecision_Ok c s p) as (d & D)
  end.
  rewrite (bindM_lift_Ok _ _ _ _ D).
  cbn. eexists _, _. split; [reflexivity|]. exact D.
Qed.

Lemma executeWorkflow_rethrows c context store :
  is_nullish context = true \/ is_null (field context "marketData") = true ->
  exists e, executeWorkflow c context store = (Throw e, store).
Proof.
  intros [N|N].
  - destruct context; try discriminate N; eexists; reflexivity.
  - assert (NN : is_nullish context = false).
    { destruct context; try reflexivity; discriminate N. }
    unfold executeWorkflow. rewrite !(get_field context) by exact NN.
    destruct (field context "marketData"); try discriminate N.
    eexists. reflexivity.
Qed.

End WorkflowFacts.

Section WorkflowClaim.
Context `{Runtime}.
Import JS RAGAgent.

(** C1 (amended): [makeDecision] always returns a decision.  When the
    decide step fails (the collaborator rejects, its reply does not
    parse, or the normalizer rejects the parsed reply) the decision is
    [hold_fallback]: action HOLD, confidence 0 and an explanatory
    reasoning.  [executeWorkflow] returns a result, whose decision is the
    one of [makeDecision], for every context that is neither [undefined]
    nor [null] and whose [marketData] is not [null]; for the other
    contexts it throws, as its [catch] block rethrows. *)
Theorem makeDecision_falls_back_to_hold :
  (forall c synthesized portfolio,
      exists d,
        makeDecision c synthesized portfolio = Ok d
        /\ (forall e, analyzeScenario_decision c = Throw e -> d = hold_fallback)
        /\ (forall s,
              analyzeScenario_decision c = Ok (VStr s) ->
              JSON_parse s = None -> d = hold_fallback)
        /\ (forall reply parsed e,
              analyzeScenario_decision c = Ok reply ->
              parse_decision reply = Ok parsed ->
              normalizeDecision parsed = Throw e -> d = hold_fallback)
        /\ (forall reply parsed normalized,
              analyzeScenario_decision c = Ok reply ->
              parse_decision reply = Ok parsed ->
              normalizeDecision parsed = Ok normalized -> d = normalized))
  /\ (field hold_fallback "action" = VStr "HOLD"
      /\ field hold_fallback "confidence" = VNum 0
      /\ field hold_fallback "reasoning"
         = VStr "Error in decision making, defaulting to HOLD")
  /\ (forall c context store,
        is_nullish context = false ->
        is_null (field context "marketData") = false ->
        exists w store',
          executeWorkflow c context store = (Ok w, store')
          /\ makeDecision c (synthesized w)
               (default_to (VObj []) (field context "portfolio"))
             = Ok (decision w))
  /\ (forall c context store,
        is_nullish context = true
        \/ is_null (field context "marketData") = true ->
        exists e, executeWorkflow c context store = (Throw e, store)).
Proof.
  split; [|split; [|split]].
  - intros c synthesized portfolio.
    destruct (makeDecision_Ok c synthesized portfolio) as (d & D).
    exists d. split; [exact D|].
    unfold makeDecision, catch in D.
    repeat split.
    + intros e A. rewrite A in D. cbn in D. congruence.
    + intros s A P. rewrite A in D. cbn [bind] in D.
      unfold parse_decision in D. rewrite P in D. cbn in D. congruence.
    + intros reply parsed e A P N. rewrite A in D. cbn [bind] in D.
      rewrite P in D. cbn [bind] in D. rewrite N in D. congruence.
    + intros reply parsed n A P N. rewrite A in D. cbn [bind] in D.
      rewrite P in D. cbn [bind] in D. rewrite N in D. congruence.
  - repeat split.
  - exact executeWorkflow_Ok.
  - exact executeWorkflow_rethrows.
Qed.

End WorkflowClaim.

(** C1, with the analysis collaborator down at every call: the workflow
    still returns, and its decision is the HOLD fallback. *)
Lemma makeDecision_falls_back_to_hold_witness :
  exists w store',
    RAGAgent.executeWorkflow Examples.analysis_down Examples.context_cycle
      Examples.empty_store = (Ok w, store')
    /\ RAGAgent.decision w = RAGAgent.hold_fallback.
Proof.
  pose proof (makeDecision_falls_back_to_hold (H := host)) as (MD & _ & EW & _).
  destruct (EW Examples.analysis_down Examples.context_cycle Examples.empty_store
              eq_refl eq_refl) as (w & store' & E & D).
  exists w, store'. split; [exact E|].
  destruct (MD Examples.analysis_down (RAGAgent.synthesized w)
              (RAGAgent.default_to (VObj [])
                 (JS.field Examples.context_cycle "portfolio")))
    as (d & D' & Fail & _).
  rewrite D in D'. injection D' as ->.
  exact (Fail Examples.network_error eq_refl).
Defined.

(** C1 as stated fails: [executeWorkflow] throws on a context whose
    [marketData] is [null], though every collaborator answers. *)
Lemma executeWorkflow_throws_on_null_marketData :
  RAGAgent.executeWorkflow Examples.collaborators_up
    Examples.context_null_market Examples.empty_store
  = (Throw (TypeError "Cannot read properties of undefined or null (reading 'description')"),
     Examples.empty_store).
Proof. reflexivity. Qed.

(* ================================================================== *)
(** * [validateOrder] *)
(* ================================================================== *)

Section RiskFacts.
Context `{Runtime}.
Variable config : trading_config.
Import JS RiskManager Spec JSFacts.

Lemma toString_primitive v : primitive v = true -> exists s, toString v = Ok s.
Proof.
  destruct v as [| |[]| | | |]; cbn; try discriminate; eauto.
Qed.

Lemma parseFloat_primitive v :
  primitive v = true -> parseFloat v = Ok (number v).
Proof.
  intros P. unfold number.
  destruct v as [| |b| | | |]; try discriminate P; try reflexivity;
    unfold parseFloat;
    match goal with
    | |- context [toString ?v] =>
        destruct (toString_primitive v eq_refl) as (s & ->)
    end; reflexivity.
Qed.

Lemma primitive_or_zero v :
  primitive v = true -> primitive (or_else v (VNum 0)) = true.
Proof. unfold or_else. destruct (truthy v); auto. Qed.

Lemma price_or_one_primitive price :
  primitive price = true -> price_or_one price = Ok (price_or_1 price).
Proof.
  intros P. unfold price_or_one, price_or_1.
  destruct (truthy price); [now apply parseFloat_primitive|reflexivity].
Qed.

Lemma sum_amounts_primitive vals : forall sum,
  forallb primitive vals = true ->
  sum_amounts vals sum
  = Ok (fold_left (fun sum v => (sum + number (or_else v (VNum 0)))%float)
                  vals sum).
Proof.
  induction vals as [|v tl IH]; intros sum P; cbn [sum_amounts fold_left].
  - reflexivity.
  - cbn [forallb] in P. apply andb_true_iff in P as [Pv Ptl].
    rewrite (parseFloat_primitive _ (primitive_or_zero v Pv)). cbn [bind].
    now apply IH.
Qed.

(** The balance table that the code works on. *)
Lemma balance_of_cases portfolio :
  plain_balance (field portfolio "balance") = true ->
  exists props,
    balance_of portfolio = VObj props
    /\ forallb (fun kv => primitive (snd kv)) props = true.
Proof.
  unfold balance_of, or_else, plain_balance.
  destruct (field portfolio "balance") eqn:B; cbn [truthy]; intros P;
    try (exists []; split; reflexivity);
    try (apply negb_true_iff in P; cbn [truthy] in P; rewrite P;
         exists []; split; reflexivity).
  - discriminate P.
  - exists props. split; [reflexivity|exact P].
Qed.

Lemma lookup_primitive props k :
  forallb (fun kv => primitive (snd kv)) props = true ->
  primitive (field (VObj props) k) = true.
Proof.
  unfold field. cbn [get]. induction props as [|[k' v] tl IH]; cbn; [reflexivity|].
  intros P. apply andb_true_iff in P as [Pv Ptl].
  destruct (String.eqb k k'); auto.
Qed.

Lemma gt_nan x : Num.gt x Num.NaN = false.
Proof.
  unfold Num.gt, Num.NaN. rewrite FloatFacts.ltb_key.
  change (FloatOrder.fkey nan) with (@None (Z * Z * Z)). reflexivity.
Qed.

(** The balance that the code reads under a key of a balance table. *)
Lemma available_key props key :
  forallb (fun kv => primitive (snd kv)) props = true ->
  (amount <- get_computed (VObj props) key ;;
   match amount with
   | Data x => parseFloat (or_else x (VNum 0))
   | Method => Ok Num.NaN
   | Prototype => Ok Num.NaN
   end)
  = Ok (if inherited (VObj props) key then Num.NaN
        else amount (VObj props) key).
Proof.
  intros P. unfold get_computed, inherited, amount, inherits.
  cbn [get bind own app]. unfold field. cbn [get].
  destruct (has_own key props) eqn:O; cbn [negb andb bind].
  - apply parseFloat_primitive, primitive_or_zero.
    exact (lookup_primitive props key P).
  - unfold has_own in O. destruct (lookup key props); [discriminate O|].
    destruct (existsb (String.eqb key) Object_prototype); cbn [negb bind];
      [destruct (String.eqb key "__proto__")|]; reflexivity.
Qed.

Lemma available_plain props currency :
  forallb (fun kv => primitive (snd kv)) props = true ->
  available (VObj props) (VStr currency)
  = Ok (if inherited (VObj props) currency then Num.NaN
        else amount (VObj props) currency).
Proof.
  intros P. unfold available. cbn [to_key toString bind].
  exact (available_key props currency P).
Qed.

Lemma available_undefined props :
  forallb (fun kv => primitive (snd kv)) props = true ->
  available (VObj props) VUndefined
  = Ok (if inherited (VObj props) "undefined" then Num.NaN
        else amount (VObj props) "undefined").
Proof.
  intros P. unfold available. cbn [to_key toString bind].
  exact (available_key props "undefined" P).
Qed.

(** No quantity exceeds what the table gives under an inherited name. *)
Lemma gt_available x inh a :
  Num.gt x (if inh : bool then Num.NaN else a) = negb inh && Num.gt x a.
Proof. destruct inh; [apply gt_nan|reflexivity]. Qed.

Lemma forallb_map_snd props :
  forallb primitive (map snd props)
  = forallb (fun kv : string * value => primitive (snd kv)) props.
Proof. induction props as [|[k v] tl IH]; cbn; congruence. Qed.

Lemma calculatePortfolioValue_plain portfolio :
  is_nullish portfolio = false ->
  plain_balance (field portfolio "balance") = true ->
  calculatePortfolioValue portfolio = Ok (total_value portfolio).
Proof.
  intros NN P. unfold calculatePortfolioValue, total_value, naive_sum.
  rewrite (get_field portfolio) by exact NN. cbn [bind].
  fold (balance_of portfolio).
  destruct (balance_of_cases portfolio P) as (props & -> & PP).
  cbn [Object_values spread bind].
  rewrite sum_amounts_primitive by (rewrite forallb_map_snd; exact PP).
  reflexivity.
Qed.

Lemma checkPositionSize_plain order portfolio :
  is_nullish order = false ->
  is_nullish portfolio = false ->
  primitive (field order "quantity") = true ->
  primitive (field order "price") = true ->
  plain_balance (field portfolio "balance") = true ->
  exists v,
    checkPositionSize config order portfolio = Ok v
    /\ valid v = negb (Num.gt (order_value order / total_value portfolio)%float
                              (maxPositionSize config))
    /\ (valid v = false -> exists why, reason v = Some why).
Proof.
  intros NO NP PQ PP PB. unfold checkPositionSize.
  rewrite !(get_field order) by exact NO. cbn [bind].
  rewrite (parseFloat_primitive _ PQ). cbn [bind].
  rewrite (price_or_one_primitive _ PP). cbn [bind].
  rewrite (calculatePortfolioValue_plain _ NP PB). cbn [bind].
  fold (order_value order).
  destruct (Num.gt _ _); eexists; (split; [reflexivity|]);
    (split; [reflexivity|]); cbn; intros; try discriminate; eauto.
Qed.

Lemma split_chars_nonempty sep l : Str.split_chars sep l <> [].
Proof.
  induction l as [|c tl IH]; cbn; [discriminate|].
  destruct (Ascii.eqb c sep); [discriminate|].
  destruct (Str.split_chars sep tl); [contradiction|discriminate].
Qed.

Lemma part_base s :
  part (Str.split "/"%char s) 0 = VStr (base_currency s).
Proof.
  unfold part, base_currency, Str.split.
  destruct (Str.split_chars "/"%char (Str.chars s)) eqn:E;
    [now apply split_chars_nonempty in E|reflexivity].
Qed.

Lemma part_quote s :
  part (Str.split "/"%char s) 1 = VStr (quote_currency s)
  \/ (part (Str.split "/"%char s) 1 = VUndefined
      /\ quote_currency s = "undefined").
Proof.
  unfold part, quote_currency.
  destruct (Str.split "/"%char s) as [|a [|b tl]]; cbn; auto.
Qed.

Lemma available_quote props s :
  forallb (fun kv => primitive (snd kv)) props = true ->
  available (VObj props) (part (Str.split "/"%char s) 1)
  = Ok (if inherited (VObj props) (quote_currency s) then Num.NaN
        else amount (VObj props) (quote_currency s)).
Proof.
  intros P. destruct (part_quote s) as [->|[-> ->]].
  - now apply available_plain.
  - now apply available_undefined.
Qed.

Lemma toString_quote s :
  exists name, toString (part (Str.split "/"%char s) 1) = Ok name.
Proof.
  destruct (part_quote s) as [->|[-> _]]; cbn; eauto.
Qed.

(** [validateOrder] on the inputs it is written for: it returns, and it
    accepts exactly the orders that [Spec.rejects] does not reject. *)
Lemma validateOrder_plain order portfolio :
  well_typed_order order portfolio = true ->
  exists v,
    validateOrder config order portfolio = Ok v
    /\ valid v = negb (rejects config order portfolio)
    /\ (valid v = false -> exists why, reason v = Some why).
Proof.
  unfold well_typed_order. rewrite !andb_true_iff.
  intros [[[[[NO NP] PAIR] PQ] PP] PB].
  apply negb_true_iff in NO, NP.
  unfold validateOrder, rejects, absent. cbv zeta.
  rewrite !(get_field order) by exact NO. cbn [bind].
  destruct (negb (truthy (field order "pair")) || negb (truthy (field order "side"))
            || negb (truthy (field order "quantity"))) eqn:Missing.
  { eexists. split; [reflexivity|]. split; [reflexivity|]. cbn. eauto. }
  cbn [orb].
  rewrite (parseFloat_primitive _ PQ). cbn [bind].
  destruct (Num.le (number (field order "quantity")) 0) eqn:Q.
  { eexists. split; [reflexivity|]. split; [reflexivity|]. cbn. eauto. }
  cbn [orb].
  assert (L : (if is_string (field order "order_type") "LIMIT"
               then if negb (truthy (field order "price")) then Ok true
                    else p <- parseFloat (field order "price") ;; Ok (Num.le p 0)
               else Ok false)
              = Ok (is_string (field order "order_type") "LIMIT"
                    && (negb (truthy (field order "price"))
                        || Num.le (number (field order "price")) 0))).
  { destruct (is_string _ "LIMIT"); [|reflexivity].
    destruct (negb (truthy (field order "price"))); [reflexivity|].
    rewrite (parseFloat_primitive _ PP). reflexivity. }
  rewrite L. cbn [bind]. clear L.
  destruct (is_string (field order "order_type") "LIMIT"
            && (negb (truthy (field order "price"))
                || Num.le (number (field order "price")) 0)) eqn:Limit.
  { eexists. split; [reflexivity|]. split; [reflexivity|]. cbn. eauto. }
  cbn [orb].
  rewrite (get_field portfolio) by exact NP. cbn [bind].
  fold (balance_of portfolio).
  destruct (balance_of_cases portfolio PB) as (props & B & PPr). rewrite B.
  assert (S : exists s, field order "pair" = VStr s).
  { apply orb_false_iff in Missing as [Missing _].
    apply orb_false_iff in Missing as [Missing _].
    apply negb_false_iff in Missing.
    destruct (field order "pair"); try (rewrite Missing in PAIR; discriminate PAIR);
      eauto. }
  destruct S as (s & S). unfold pair_of. rewrite S. cbn [split_pair bind].
  rewrite part_base.
  destruct (checkPositionSize_plain order portfolio NO NP PQ PP PB)
    as (pv & PV & PVv & PVr).
  fold (order_value order) in *.
  destruct (is_string (field order "side") "BUY") eqn:Buy.
  - rewrite (price_or_one_primitive _ PP). cbn [bind].
    rewrite (available_quote props s PPr). cbn [bind].
    fold (order_value order). rewrite gt_available. cbn [andb].
    destruct (negb (inherited (VObj props) (quote_currency s))
              && Num.gt (order_value order)
                   (amount (VObj props) (quote_currency s))) eqn:G.
    + destruct (toString_quote s) as (name & ->). cbn [bind].
      eexists. split; [reflexivity|]. split; [reflexivity|]. cbn. eauto.
    + cbn [bind andb orb]. rewrite PV. cbn [bind].
      assert (Sell : is_string (field order "side") "SELL" = false).
      { destruct (field order "side"); try reflexivity. cbn in Buy |- *.
        apply String.eqb_eq in Buy. now subst. }
      rewrite Sell. cbn [andb orb].
      destruct (valid pv) eqn:V; cbn [negb]; eexists; (split; [reflexivity|]);
        cbn [valid]; rewrite <- PVv; (split; [auto|]); intros; try discriminate; auto.
  - cbn [andb orb].
    destruct (is_string (field order "side") "SELL") eqn:Sell.
    + rewrite (available_plain props _ PPr). cbn [bind].
      rewrite gt_available. cbn [andb].
      destruct (negb (inherited (VObj props) (base_currency s))
                && Num.gt (number (field order "quantity"))
                     (amount (VObj props) (base_currency s))) eqn:G.
      * cbn [toString bind]. eexists. split; [reflexivity|]. split; [reflexivity|].
        cbn. eauto.
      * cbn [bind andb orb]. rewrite PV. cbn [bind].
        destruct (valid pv) eqn:V; cbn [negb]; eexists; (split; [reflexivity|]);
          cbn [valid]; rewrite <- PVv; (split; [auto|]); intros; try discriminate; auto.
    + cbn [bind andb orb]. rewrite PV. cbn [bind].
      destruct (valid pv) eqn:V; cbn [negb]; eexists; (split; [reflexivity|]);
        cbn [valid]; rewrite <- PVv; (split; [auto|]); intros; try discriminate; auto.
Qed.

Lemma split_chars_no_separator sep l :
  existsb (Ascii.eqb sep) l = false -> Str.split_chars sep l = [l].
Proof.
  induction l as [|c tl IH]; cbn; [reflexivity|].
  intros E. apply orb_false_iff in E as [E1 E2].
  rewrite Ascii.eqb_sym, E1, (IH E2). reflexivity.
Qed.

Lemma no_separator s :
  existsb (Ascii.eqb "/"%char) (Str.chars s) = false ->
  base_currency s = s /\ quote_currency s = "undefined".
Proof.
  intros E. unfold base_currency, quote_currency, Str.split.
  rewrite (split_chars_no_separator _ _ E). cbn.
  unfold Str.of_chars, Str.chars. rewrite string_of_list_ascii_of_string.
  split; reflexivity.
Qed.

End RiskFacts.

Section ValidateClaim.
Context `{Runtime}.
Import JS RiskManager Spec.

(** C3 (amended): on an order and a portfolio of the expected types,
    [validateOrder] returns [{valid: false, reason}] exactly when
    [Spec.rejects] says so: a falsy pair, side or quantity; a quantity
    that is <= 0; a LIMIT order without a positive price; a BUY whose
    quantity x (price, or 1 without one) exceeds the balance of the quote
    currency; a SELL whose quantity exceeds the balance of the base
    currency; or an order value over [maxPositionSize] times the total
    value, which is the plain sum of all balance amounts, replaced by 1
    when that sum is 0.  Otherwise it returns [valid: true].  The
    balance of a currency is the entry of the table under its name, and
    0 when there is none; but under a name that every object inherits
    ([constructor], [toString], ...) a table without such an entry gives
    no amount, and the balance check passes whatever the quantity.  A
    pair without [/] does not crash it: the whole pair is the base
    currency and the quote currency is the key ["undefined"], and the
    order is validated with these. *)
Theorem validateOrder_rejects_exactly :
  (forall config order portfolio,
      well_typed_order order portfolio = true ->
      exists v,
        validateOrder config order portfolio = Ok v
        /\ valid v = negb (rejects config order portfolio)
        /\ (valid v = false -> exists why, reason v = Some why))
  /\ (forall s,
        existsb (Ascii.eqb "/"%char) (Str.chars s) = false ->
        base_currency s = s /\ quote_currency s = "undefined").
Proof.
  split.
  - intros config. exact (validateOrder_plain config).
  - exact no_separator.
Qed.

End ValidateClaim.

(** C3, on the design's two cases: a BUY of 2 at 100 against 150 USD is
    rejected, against 5000 USD it is accepted.  And a SELL of 1
    [constructor/USD] against 100 USD alone is accepted. *)
Lemma validateOrder_rejects_exactly_witness :
  (exists v,
      RiskManager.validateOrder Examples.default_config Examples.order_buy
        Examples.portfolio_short = Ok v
      /\ RiskManager.valid v = false)
  /\ (exists v,
        RiskManager.validateOrder Examples.default_config Examples.order_buy
          Examples.portfolio_ample = Ok v
        /\ RiskManager.valid v = true)
  /\ (exists v,
        RiskManager.validateOrder Examples.default_config
          Examples.order_inherited_sell Examples.portfolio_usd_100 = Ok v
        /\ RiskManager.valid v = true).
Proof.
  pose proof (proj1 (validateOrder_rejects_exactly (H := host))
                Examples.default_config) as V.
  split; [|split].
  - destruct (V Examples.order_buy Examples.portfolio_short eq_refl)
      as (v & E & Vv & _).
    exists v. split; [exact E|]. rewrite Vv. reflexivity.
  - destruct (V Examples.order_buy Examples.portfolio_ample eq_refl)
      as (v & E & Vv & _).
    exists v. split; [exact E|]. rewrite Vv. reflexivity.
  - destruct (V Examples.order_inherited_sell Examples.portfolio_usd_100
                eq_refl) as (v & E & Vv & _).
    exists v. split; [exact E|]. rewrite Vv. reflexivity.
Defined.

(** C3 as stated fails twice.  A pair without [/] can pass validation: a
    SELL of BTCUSD is checked against the balance under the key BTCUSD.
    And the total value has no floor of 1: with 0.5 USD in all, a BUY of
    0.1 is 20 % of the portfolio and rejected, though 0.1 / max(1, 0.5)
    does not exceed the limit of 0.1. *)
Lemma validateOrder_no_separator_no_floor :
  RiskManager.validateOrder Examples.default_config
    Examples.order_no_separator Examples.portfolio_no_separator
  = Ok {| RiskManager.valid := true;
          RiskManager.reason := Some "Order validated successfully" |}
  /\ RiskManager.validateOrder Examples.default_config
       Examples.order_small_buy Examples.portfolio_small
     = Ok {| RiskManager.valid := false;
             RiskManager.reason :=
               Some "Position size 0.2000 exceeds maximum 0.1" |}
  /\ Num.gt (0.1 * 1 / Num.Math_max 1 0.5)%float 0.1 = false.
Proof. repeat split. Qed.


(* ================================================================== *)
(** * [calculatePositionSize] *)
(* ================================================================== *)

Section SizeFacts.
Context `{Runtime}.
Variable config : trading_config.
Import JS RiskManager Spec JSFacts.

Lemma toNumber_primitive v : primitive v = true -> toNumber v = Ok (numeric v).
Proof.
  unfold numeric. destruct v as [| |[]| | | |]; try discriminate; reflexivity.
Qed.

Lemma default_numeric d v :
  primitive v = true ->
  toNumber (RAGAgent.default_to (VNum d) v)
  = Ok (match v with VUndefined => d | _ => numeric v end).
Proof.
  intros P. destruct v; try discriminate P; cbn [RAGAgent.default_to];
    try reflexivity; now apply toNumber_primitive.
Qed.

Lemma calculatePositionSize_plain signal balance riskParams :
  well_typed_signal signal balance riskParams = true ->
  exists r,
    calculatePositionSize config signal balance riskParams = Ok r
    /\ (if truthy (field signal "price") then
          let adjusted :=
            (parameter riskParams "riskPerTrade" (riskPerTrade config)
             * confidence_of signal)%float in
          let totalBalance := naive_sum balance in
          let risk := (totalBalance * adjusted)%float in
          let price := number (field signal "price") in
          let limit :=
            (totalBalance
             * parameter riskParams "maxPositionSize" (maxPositionSize config)
             / price)%float in
          adjustedRisk r = Some adjusted
          /\ riskAmount r = Some risk
          /\ maxQuantity r = Some limit
          /\ quantity r = Num.Math_max 0 (Num.Math_min (risk / price) limit)
          /\ size_reason r = None
        else
          quantity r = 0%float
          /\ size_reason r = Some "Price not available").
Proof.
  unfold well_typed_signal. rewrite !andb_true_iff.
  intros [[[[NS PC] PP] PB] PR]. apply negb_true_iff in NS.
  destruct balance as [| | | | | |bprops]; try discriminate PB.
  assert (R : exists rp,
             RAGAgent.default_to (VObj []) riskParams = VObj rp
             /\ primitive (field (VObj rp) "riskPerTrade") = true
             /\ primitive (field (VObj rp) "maxPositionSize") = true
             /\ (forall name d,
                    parameter riskParams name d
                    = match field (VObj rp) name with
                      | VUndefined => d
                      | v => numeric v
                      end)).
  { destruct riskParams as [| | | | | |rp]; try discriminate PR.
    - exists []. repeat split.
    - apply andb_true_iff in PR as [P1 P2]. exists rp. repeat split; assumption. }
  destruct R as (rp & RP & P1 & P2 & PAR).
  unfold calculatePositionSize. rewrite RP. cbv zeta.
  rewrite !(get_field (VObj rp)) by reflexivity. cbn [bind].
  rewrite !(get_field signal) by exact NS. cbn [bind].
  destruct (truthy (field signal "price")) eqn:T; cbn [negb].
  2:{ eexists. split; [reflexivity|]. split; reflexivity. }
  rewrite (default_numeric _ _ P1). cbn [bind].
  rewrite (default_numeric _ _ PC). cbn [bind].
  cbn [Object_values spread bind].
  rewrite sum_amounts_primitive by (rewrite forallb_map_snd; exact PB).
  cbn [bind].
  rewrite (parseFloat_primitive _ PP). cbn [bind].
  rewrite (default_numeric _ _ P2). cbn [bind].
  eexists. split; [reflexivity|].
  cbn [quantity adjustedRisk riskAmount maxQuantity size_reason]. cbv zeta.
  rewrite !PAR. unfold confidence_of, naive_sum. cbn [spread].
  destruct (field (VObj rp) "riskPerTrade"), (field (VObj rp) "maxPositionSize"),
    (field signal "confidence"); repeat split.
Qed.

(** The two destructurings at the head of the function throw on
    [null]; a parameter default stands in for [undefined] only. *)
Lemma calculatePositionSize_null signal balance riskParams :
  is_nullish signal = true \/ riskParams = VNull ->
  exists msg,
    calculatePositionSize config signal balance riskParams
    = Throw (TypeError msg).
Proof.
  intros N. unfold calculatePositionSize. cbv zeta.
  destruct (is_nullish (RAGAgent.default_to (VObj []) riskParams)) eqn:R.
  - destruct riskParams; try discriminate R; cbn; eauto.
  - rewrite !(get_field _ _ R). cbn [bind].
    destruct N as [N| ->]; [|discriminate R].
    destruct signal; try discriminate N; cbn; eauto.
Qed.

End SizeFacts.

Section SizeClaim.
Context `{Runtime}.
Import JS RiskManager Spec.

(** C6 (amended): on a signal, a balance table and risk parameters of
    the expected types, [calculatePositionSize] returns, without
    throwing.  With a price: [adjustedRisk = riskPerTrade x confidence],
    [riskAmount = totalBalance x adjustedRisk] and
    [quantity = max(0, min(riskAmount / price,
    totalBalance x maxPositionSize / price))], the total balance being the
    sum of the balance amounts.  Without a price: quantity 0 and the
    reason "Price not available".  On the design's example the risk
    amount is 20 and the quantity min(0.2, 1.0) = 0.2.  But it does throw,
    a [TypeError], on a signal that is [null] or [undefined] and on risk
    parameters that are [null], with or without a price. *)
Theorem calculatePositionSize_formula :
  (forall config signal balance riskParams,
      well_typed_signal signal balance riskParams = true ->
      exists r,
        calculatePositionSize config signal balance riskParams = Ok r
        /\ (if truthy (field signal "price") then
              let adjusted :=
                (parameter riskParams "riskPerTrade" (riskPerTrade config)
                 * confidence_of signal)%float in
              let totalBalance := naive_sum balance in
              let risk := (totalBalance * adjusted)%float in
              let price := number (field signal "price") in
              let limit :=
                (totalBalance
                 * parameter riskParams "maxPositionSize"
                     (maxPositionSize config)
                 / price)%float in
              adjustedRisk r = Some adjusted
              /\ riskAmount r = Some risk
              /\ maxQuantity r = Some limit
              /\ quantity r = Num.Math_max 0 (Num.Math_min (risk / price) limit)
              /\ size_reason r = None
            else
              quantity r = 0%float
              /\ size_reason r = Some "Price not available"))
  /\ (forall config,
        calculatePositionSize config Examples.signal_full
          Examples.balances_1000 Examples.risk_params
        = Ok {| quantity := 0.2; size_reason := None;
                riskAmount := Some 20%float;
                adjustedRisk := Some 0.02%float;
                maxQuantity := Some 1%float |})
  /\ Num.Math_min 0.2 1 = 0.2%float
  /\ (forall config signal balance riskParams,
        is_nullish signal = true \/ riskParams = VNull ->
        exists msg,
          calculatePositionSize config signal balance riskParams
          = Throw (TypeError msg)).
Proof.
  split; [|split; [|split]].
  - intros config. exact (calculatePositionSize_plain config).
  - reflexivity.
  - reflexivity.
  - intros config. exact (calculatePositionSize_null config).
Qed.

End SizeClaim.

(** C6, on the design's example and on the same signal without its
    price: the hypothesis holds, and the results are the ones claimed. *)
Lemma calculatePositionSize_formula_witness :
  (exists r,
      RiskManager.calculatePositionSize Examples.default_config
        Examples.signal_full Examples.balances_1000 Examples.risk_params = Ok r
      /\ RiskManager.riskAmount r = Some 20%float
      /\ RiskManager.quantity r = 0.2%float)
  /\ (exists r,
        RiskManager.calculatePositionSize Examples.default_config
          Examples.signal_no_price Examples.balances_1000 VUndefined = Ok r
        /\ RiskManager.quantity r = 0%float
        /\ RiskManager.size_reason r = Some "Price not available").
Proof.
  pose proof (proj1 (calculatePositionSize_formula (H := host))
                Examples.default_config) as F.
  split.
  - destruct (F Examples.signal_full Examples.balances_1000 Examples.risk_params
                eq_refl) as (r & E & A).
    cbn [JS.truthy JS.field JS.get JS.lookup String.eqb Ascii.eqb Bool.eqb] in A.
    exists r. split; [exact E|].
    change (JS.truthy (VNum 100)) with true in A. cbv zeta in A.
    destruct A as (_ & RA & _ & Q & _). rewrite RA, Q. split; reflexivity.
  - destruct (F Examples.signal_no_price Examples.balances_1000 VUndefined
                eq_refl) as (r & E & A).
    exists r. split; [exact E|]. exact A.
Defined.

(** C6 as stated fails: the function throws.  A signal that is [null]
    cannot be destructured, and neither can risk parameters that are
    [null], though the signal has no price and the claim promises
    quantity 0 then. *)
Lemma calculatePositionSize_throws_on_null :
  (exists msg,
      RiskManager.calculatePositionSize Examples.default_config VNull
        Examples.balances_1000 Examples.risk_params
      = Throw (TypeError msg))
  /\ (exists msg,
        RiskManager.calculatePositionSize Examples.default_config
          Examples.signal_no_price Examples.balances_1000 VNull
        = Throw (TypeError msg)).
Proof. split; eexists; reflexivity. Qed.

(* ================================================================== *)
(** * [searchSimilar] *)
(* ================================================================== *)

Module SearchFacts.
Import VectorStore FloatFacts FloatOrder Spec.

Lemma insert_perm x l : Permutation (insert x l) (x :: l).
Proof.
  induction l as [|y tl IH]; cbn [insert]; [reflexivity|].
  destruct (PrimFloat.ltb (comparator y x) 0); [|reflexivity].
  rewrite IH. apply perm_swap.
Qed.

Lemma sort_perm l : Permutation (sort l) l.
Proof.
  induction l as [|x tl IH]; cbn; [reflexivity|].
  rewrite insert_perm. now apply perm_skip.
Qed.







Lemma slice0_length {A} (topK : Z) (l : list A) :
  0 <= topK -> Z.of_nat (List.length (slice0 topK l)) <= topK.
Proof.
  intros K. unfold slice0.
  destruct (topK <? 0) eqn:N; [apply Z.ltb_lt in N; lia|].
  rewrite length_firstn. lia.
Qed.

Lemma slice0_prefix {A} (topK : Z) (l : list A) :
  exists n, slice0 topK l = firstn n l.
Proof. unfold slice0. eauto. Qed.









End SearchFacts.

Section SearchClaim.
Import VectorStore Spec SearchFacts.


End SearchClaim.


(* ================================================================== *)
(** * [generateEmbedding] *)
(* ================================================================== *)

Module EmbeddingFacts.
Import VectorStore Spec.















Lemma chars_of_chars l : Str.chars (Str.of_chars l) = l.
Proof. apply list_ascii_of_string_of_list_ascii. Qed.


End EmbeddingFacts.

Section EmbeddingClaim.
Import VectorStore Spec EmbeddingFacts.


End EmbeddingClaim.


(* ================================================================== *)
(** * [addStrategy] *)
(* ================================================================== *)

Section AddClaim.
Import VectorStore Spec.

Lemma searchSimilar_strategies s1 s2 query topK :
  strategies s1 = strategies s2 ->
  searchSimilar s1 query topK = searchSimilar s2 query topK.
Proof. unfold searchSimilar. now intros ->. Qed.

(** C7 (amended): [addStrategy(text, metadata)] appends a record with the
    freshly computed fingerprint of the text, with the metadata (the
    empty object when none is given) and with the decimal string of the
    clock reading as its id, and returns that id; it rewrites the whole
    persisted log at once.  When the write fails it does not fail: the
    failure is logged (the logger being taken to return) and the call
    returns the id all the same.  The file is then as it was when it
    could not be opened, and otherwise holds what was written of the new
    log before the failure.  The in-memory state is updated in every
    case, so later searches do not depend on the write: they see the new
    record among their candidates whenever its similarity to the query
    is above the threshold. *)
Theorem addStrategy_appends_and_logs_write_failure :
  forall w text metadata s,
    let added :=
      {| id := Str.of_Z (date_now w); strategy := text;
         embedding := generateEmbedding text;
         metadata := match metadata with
                     | VUndefined => VObj []
                     | _ => metadata
                     end;
         timestamp := new_date w |} in
    exists s',
      addStrategy w (VStr text) metadata s = (Ok (id added), s')
      /\ strategies s' = (strategies s ++ [added])%list
      /\ (write w = Written ->
          disk s' = Whole (strategies s') /\ log s' = log s)
      /\ (write w <> Written ->
          log s'
          = (log s ++ [(ERROR, "Failed to save strategies to vector store")])%list)
      /\ (write w = NotOpened -> disk s' = disk s)
      /\ (write w = Interrupted -> disk s' = Torn (strategies s'))
      /\ (forall other query topK,
            strategies other = strategies s' ->
            searchSimilar other query topK = searchSimilar s' query topK)
      /\ (forall query,
            Num.gt (cosineSimilarity (generateEmbedding query)
                      (generateEmbedding text)) 0.1 = true ->
            In (score (generateEmbedding query) added) (candidates s' query)).
Proof.
  intros w text metadata s added.
  unfold addStrategy, bindM, push, saveStrategies, ret, metadata_or_empty.
  fold added.
  assert (Found : forall disk0 log0 query,
             Num.gt (cosineSimilarity (generateEmbedding query)
                       (generateEmbedding text)) 0.1 = true ->
             In (score (generateEmbedding query) added)
                (candidates {| strategies := (strategies s ++ [added])%list;
                               disk := disk0; log := log0 |} query)).
  { intros disk0 log0 query G. unfold candidates. cbn [strategies].
    apply filter_In. split; [|exact G].
    apply in_map, in_or_app. right. now left. }
  destruct (write w) eqn:W; eexists; (split; [reflexivity|]);
    cbn [strategies disk log];
    (split; [reflexivity|]);
    (split; [try discriminate; auto|]);
    (split; [try (intros N; now contradiction N); auto|]);
    (split; [try discriminate; auto|]);
    (split; [try discriminate; auto|]);
    (split; [intros; now apply searchSimilar_strategies|]);
    apply Found.
Qed.

End AddClaim.

(** C7, with a disk that is full: the file is cut short, and the record is
    found by the next search. *)
Lemma addStrategy_appends_and_logs_write_failure_witness :
  exists s',
    VectorStore.addStrategy Examples.io_disk_full (VStr "buy bitcoin dips")
      VUndefined Examples.empty_store = (Ok "1700000000000", s')
    /\ map VectorStore.metadata (VectorStore.strategies s') = [VObj []]
    /\ VectorStore.disk s' = VectorStore.Torn (VectorStore.strategies s')
    /\ map (fun r => VectorStore.id (VectorStore.scored_entry r))
         (VectorStore.searchSimilar s' "buy bitcoin" 5) = ["1700000000000"].
Proof.
  destruct (addStrategy_appends_and_logs_write_failure Examples.io_disk_full
              "buy bitcoin dips" VUndefined Examples.empty_store)
    as (s' & A & S & _ & _ & _ & F & Same & _).
  exists s'. split; [exact A|]. split; [rewrite S; reflexivity|].
  split; [exact (F eq_refl)|].
  rewrite <- (Same {| VectorStore.strategies := VectorStore.strategies s';
                      VectorStore.disk := VectorStore.Whole [];
                      VectorStore.log := [] |}
                "buy bitcoin" 5 eq_refl).
  unfold VectorStore.searchSimilar. cbn [VectorStore.strategies]. rewrite S.
  vm_compute. reflexivity.
Defined.

(** C7 as stated fails twice.  When the write fails, [addStrategy] does
    not fail: it returns the id, and the failure is only logged.  And the
    id is the clock reading, so two records added within one millisecond
    share it. *)
Lemma addStrategy_no_error_no_unique_id :
  fst (VectorStore.addStrategy Examples.io_disk_full (VStr "buy bitcoin dips")
         (VObj []) Examples.empty_store)
  = Ok "1700000000000"
  /\ VectorStore.log
       (snd (VectorStore.addStrategy Examples.io_disk_full
               (VStr "buy bitcoin dips") (VObj []) Examples.empty_store))
     = [(ERROR, "Failed to save strategies to vector store")]
  /\ map VectorStore.id
       (VectorStore.strategies
          (snd (VectorStore.addStrategy Examples.io_ok (VStr "sell ethereum rallies")
                  (VObj [])
                  (snd (VectorStore.addStrategy Examples.io_ok
                          (VStr "buy bitcoin dips") (VObj [])
                          Examples.empty_store)))))
     = ["1700000000000"; "1700000000000"].
Proof. repeat split. Qed.

(* ================================================================== *)
(** * [start] and [stop] *)
(* ================================================================== *)

Module LifecycleFacts.
Import TradingEngine Lifecycle.

Lemma same_lifecycle_refl w : same_lifecycle w w.
Proof. repeat split. Qed.

Lemma runTradingCycle_begin_same w : same_lifecycle w (runTradingCycle_begin w).
Proof. repeat split. Qed.


Section WithConfig.
Context `{Runtime}.
Variable config : trading_config.

Lemma resume_same k a outcome w w' :
  resume config k a outcome w = Some w' -> same_lifecycle w w'.
Proof.
  unfold resume. intros R.
  destruct a, outcome; try discriminate;
    repeat match type of R with
           | Some _ = Some _ => injection R as <-; repeat split
           | context [match ?x with _ => _ end] => destruct x
           end.
Qed.





End WithConfig.
End LifecycleFacts.

Section LifecycleClaim.
Import TradingEngine Lifecycle LifecycleFacts.
Context `{Runtime}.
Variable config : trading_config.


End LifecycleClaim.


(* ================================================================== *)
(** * Overlapping trading cycles *)
(* ================================================================== *)

Module OverlapFacts.
Import TradingEngine.

Lemma find_cycle_app_l k l n a a' :
  find_cycle k l = Some a' ->
  find_cycle k (l ++ [(n, a)]) = Some a'.
Proof.
  induction l as [|[k' b] tl IH]; cbn; [discriminate|].
  destruct (k =? k')%nat; [auto|exact IH].
Qed.

End OverlapFacts.

Section OverlapClaim.
Import TradingEngine OverlapFacts.
Context `{Runtime}.
Variable config : trading_config.

(** C9 (amended): the engine has no guard against overlapping cycles.
    The callback of the interval timer looks at [isRunning] only: on a
    running engine every tick begins a new cycle at once, whatever
    number of cycles is still waiting for asynchronous work, and the
    cycles that were waiting keep waiting where they were; on a stopped
    engine the tick does nothing.  A cycle that waits for its portfolio
    goes on as soon as the portfolio arrives, whichever other cycles are
    outstanding, and stores it in the shared [this.portfolio]. *)
Theorem tick_begins_cycle_unless_stopped :
  (forall w t,
     In t (timers w) ->
     isRunning (eng w) = true ->
     exists w',
       step config w (Tick t) = Some (w', None)
       /\ cycleCount (eng w') = S (cycleCount (eng w))
       /\ cycles w'
          = (cycles w ++ [(S (cycleCount (eng w)), AwaitPortfolio)])%list
       /\ in_flight w' = S (in_flight w)
       /\ (forall k a, find_cycle k (cycles w) = Some a ->
                       find_cycle k (cycles w') = Some a))
  /\ (forall w t,
        In t (timers w) ->
        isRunning (eng w) = false ->
        step config w (Tick t) = Some (w, None))
  /\ (forall w k p,
        find_cycle k (cycles w) = Some AwaitPortfolio ->
        exists w',
          step config w (Resume k (Ok p)) = Some (w', None)
          /\ portfolio (eng w') = p
          /\ in_flight w' = in_flight w).
Proof.
  assert (armed : forall w t, In t (timers w) ->
                              existsb (Nat.eqb t) (timers w) = true).
  { intros w t I. apply existsb_exists. exists t. split; [exact I|].
    apply Nat.eqb_refl. }
  split; [|split].
  - intros w t I R. eexists. cbn. rewrite (armed w t I). unfold tick.
    rewrite R. split; [reflexivity|]. cbn.
    split; [reflexivity|]. split; [reflexivity|].
    split.
    + unfold in_flight. cbn. rewrite length_app. cbn. lia.
    + intros k a F. now apply find_cycle_app_l.
  - intros w t I R. cbn. rewrite (armed w t I). unfold tick. now rewrite R.
  - intros w k p F. eexists. cbn. rewrite F. cbn.
    split; [reflexivity|]. split; [reflexivity|].
    unfold in_flight. cbn. clear F.
    induction (cycles w) as [|[k' a'] tl IH]; cbn; [reflexivity|].
    destruct (k =? k')%nat; cbn; [reflexivity|now rewrite IH].
Qed.

End OverlapClaim.

(** C9, on the engine just started: the first tick finds the initial
    cycle still waiting and begins the second cycle next to it. *)
Lemma tick_begins_cycle_unless_stopped_witness :
  exists w,
    TradingEngine.run Examples.default_config TradingEngine.initial
      [TradingEngine.CallStart;
       TradingEngine.InitDone (Ok Examples.portfolio_rich)] = Some w
    /\ TradingEngine.in_flight w = 1%nat
    /\ exists w',
         TradingEngine.step Examples.default_config w (TradingEngine.Tick 1)
         = Some (w', None)
         /\ TradingEngine.in_flight w' = 2%nat.
Proof.
  destruct (tick_begins_cycle_unless_stopped (H := host) Examples.default_config)
    as (Begin & _).
  eexists. split; [vm_compute; reflexivity|]. split; [reflexivity|].
  match goal with
  | |- exists w', TradingEngine.step _ ?W _ = _ /\ _ =>
      destruct (Begin W 1%nat) as (w' & St & _ & _ & F & _);
        [cbn; auto|reflexivity|]
  end.
  exists w'. split; [exact St|exact F].
Defined.

(** C9 as stated fails: a tick that fires while the first cycle is
    still waiting for its portfolio is neither skipped nor queued.  The
    second cycle begins at once, and when its portfolio arrives first it
    goes on and writes the shared portfolio while the first cycle is
    still where it was. *)
Lemma tick_overlaps_outstanding_cycle :
  option_map TradingEngine.cycles
    (TradingEngine.run Examples.default_config TradingEngine.initial
       [TradingEngine.CallStart;
        TradingEngine.InitDone (Ok Examples.portfolio_rich);
        TradingEngine.Tick 1])
  = Some [(1%nat, TradingEngine.AwaitPortfolio);
          (2%nat, TradingEngine.AwaitPortfolio)]
  /\ option_map
       (fun w => (TradingEngine.cycles w,
                  TradingEngine.portfolio (TradingEngine.eng w)))
       (TradingEngine.run Examples.default_config TradingEngine.initial
          [TradingEngine.CallStart;
           TradingEngine.InitDone (Ok Examples.portfolio_rich);
           TradingEngine.Tick 1;
           TradingEngine.Resume 2 (Ok Examples.portfolio_small)])
     = Some ([(1%nat, TradingEngine.AwaitPortfolio);
              (2%nat, TradingEngine.AwaitMarketData)],
             Examples.portfolio_small).
Proof. split; reflexivity. Qed.
(* ================================================================== *)
(** * Orders along the executions of the engine *)
(* ================================================================== *)

Module SafetyFacts.
Import JS RAGAgent TradingEngine Safety JSFacts FloatFacts FloatOrder.

Section WithConfig.
Context `{Runtime}.
Variable config : trading_config.

Lemma truthy_positive q :
  Num.truthy q = true -> Num.le q 0 = false -> PrimFloat.ltb 0 q = true.
Proof.
  unfold Num.truthy, Num.le. intros T L.
  apply negb_true_iff in T. apply orb_false_iff in T as [N _].
  float_order.
Qed.

Lemma executeDecision_begin_vetted decision portfolio order :
  executeDecision_begin config decision portfolio = Ok (Submitted order) ->
  exists v q,
    RiskManager.validateOrder config order portfolio = Ok v
    /\ RiskManager.valid v = true
    /\ field order "quantity" = VNum q
    /\ PrimFloat.ltb 0 q = true.
Proof.
  unfold executeDecision_begin. intros E.
  step E as Ga. step E as Gs. step E as Gq. step E as Gp. step E as Go.
  cbv zeta in E. step E as Hold. step E as Missing.
  unfold catch in E.
  match type of E with (match ?b with _ => _ end) = _ => destruct b as [ex|] eqn:B end;
    [|discriminate E].
  injection E as ->.
  step B as P. rename a4 into o. step B as V. step B as Valid.
  injection B as <-. apply negb_false_iff in Valid.
  unfold prepare_order in P.
  step P as Q. step P as PP. injection P as <-.
  exists a4, a5. split; [exact V|]. split; [exact Valid|].
  split; [reflexivity|].
  assert (T : Num.truthy a5 = true).
  { unfold RiskManager.validateOrder in V.
    cbn [get lookup app String.eqb Ascii.eqb Bool.eqb bind] in V.
    destruct (Num.truthy a5) eqn:T; [reflexivity|].
    cbn [truthy] in V. rewrite T, !orb_true_r in V.
    injection V as <-. discriminate Valid. }
  apply truthy_positive; [exact T|].
  unfold RiskManager.validateOrder in V.
  cbn [get lookup app String.eqb Ascii.eqb Bool.eqb bind] in V.
  match type of V with
  | (if ?c then _ else _) = _ => destruct c; [injection V as <-; discriminate Valid|]
  end.
  assert (Z : PrimFloat.is_zero a5 = false).
  { unfold Num.truthy in T. apply negb_true_iff in T.
    now apply orb_false_iff in T as [_ Z]. }
  cbn [parseFloat bind] in V. rewrite Z in V.
  destruct (Num.le a5 0); [injection V as <-; discriminate Valid|reflexivity].
Qed.

(** What one turn of a cycle does to the cycles and the orders. *)
Lemma resume_effect k a outcome w w' :
  resume config k a outcome w = Some w' ->
  exists next,
    cycles w' = update_cycle k next (cycles w)
    /\ cycleCount (eng w') = cycleCount (eng w)
    /\ ((orders w' = orders w /\ (und next = true -> undecided a = true))
        \/ (exists order d,
              orders w' = (orders w ++ [order])%list
              /\ executeDecision_begin config d (portfolio (eng w))
                 = Ok (Submitted order)
              /\ a = AwaitWorkflow
              /\ (exists ragResult,
                    outcome = Ok ragResult
                    /\ get ragResult "decision" = Ok d)
              /\ undecided a = true
              /\ und next = false)).
Proof.
  unfold resume. intros R.
  destruct a, outcome; try discriminate;
    repeat match type of R with
           | context [match ?x with _ => _ end] => destruct x eqn:?
           end;
    injection R as <-; eexists; (split; [reflexivity|]);
    (split; [reflexivity|]);
    first [ left; split; [reflexivity|cbn; auto; discriminate]
          | right; eexists _, _; split; [reflexivity|];
            split; [eassumption|]; split; [reflexivity|];
            split; [eexists; split; [reflexivity|eassumption]|];
            split; reflexivity ].
Qed.

Lemma count_update k next : forall l a,
  find_cycle k l = Some a ->
  (count_undecided (update_cycle k next l) + Nat.b2n (undecided a)
   = count_undecided l + Nat.b2n (und next))%nat.
Proof.
  unfold count_undecided.
  induction l as [|[k' a'] tl IH]; intros a F; cbn in F |- *; [discriminate|].
  destruct (k =? k')%nat.
  - injection F as ->. destruct next as [a''|]; cbn;
      destruct (undecided a); try destruct (undecided a''); cbn; lia.
  - specialize (IH a F). cbn. destruct (undecided a'); cbn; lia.
Qed.

Lemma count_begin l n :
  count_undecided (l ++ [(n, AwaitPortfolio)])%list = S (count_undecided l).
Proof.
  unfold count_undecided. rewrite filter_app, length_app. cbn. lia.
Qed.

Lemma step_effect w ev w' r :
  step config w ev = Some (w', r) ->
  accounted w ->
  accounted w'
  /\ (orders w' = orders w
      \/ exists order d,
           orders w' = (orders w ++ [order])%list
           /\ executeDecision_begin config d (portfolio (eng w))
              = Ok (Submitted order)
           /\ exists k ragResult,
                ev = Resume k (Ok ragResult)
                /\ find_cycle k (cycles w) = Some AwaitWorkflow
                /\ get ragResult "decision" = Ok d).
Proof.
  unfold accounted. intros St A.
  destruct ev as [|outcome| |t|k outcome]; cbn in St.
  - unfold start_begin in St.
    destruct (isRunning (eng w)); injection St as <- <-; cbn -[count_undecided]; auto.
  - destruct (starting w); [discriminate|].
    destruct outcome; cbn in St; injection St as <- <-; cbn -[count_undecided]; auto.
    rewrite count_begin. split; [lia|auto].
  - injection St as <- <-. unfold stop.
    destruct (isRunning (eng w)); cbn -[count_undecided]; auto.
    destruct (tradingInterval (eng w)); cbn -[count_undecided]; auto.
  - destruct (existsb (Nat.eqb t) (timers w)); [|discriminate].
    injection St as <- <-. unfold tick.
    destruct (isRunning (eng w)); cbn -[count_undecided]; auto.
    rewrite count_begin. split; [lia|auto].
  - destruct (find_cycle k (cycles w)) as [a|] eqn:F; [|discriminate].
    destruct (resume config k a outcome w) as [w1|] eqn:R; [|discriminate].
    injection St as <- <-.
    destruct (resume_effect _ _ _ _ _ R) as (next & C & N & E).
    pose proof (count_update k next _ _ F) as Cnt.
    rewrite C, N.
    destruct E as [[O U]|(order & d & O & E & -> & (rag & -> & G) & U & U')];
      rewrite O.
    + split; [|auto].
      destruct (und next); [rewrite (U eq_refl) in Cnt|];
        destruct (undecided a); cbn in Cnt; lia.
    + split.
      * rewrite length_app. cbn. rewrite U' in Cnt. cbn in Cnt. lia.
      * right. exists order, d. split; [reflexivity|]. split; [exact E|].
        exists k, rag. repeat split; assumption.
Qed.

Lemma run_accounted evs : forall w w',
  run config w evs = Some w' -> accounted w -> accounted w'.
Proof.
  induction evs as [|ev tl IH]; intros w w' R A; cbn in R.
  - now injection R as <-.
  - destruct (step config w ev) as [[w1 r]|] eqn:St; [|discriminate].
    apply (IH w1 w' R). exact (proj1 (step_effect _ _ _ _ St A)).
Qed.

(** Every order of an execution that was not there at its start was
    appended by one of its turns, which vetted it against the portfolio
    of that moment. *)
Lemma run_submissions evs : forall w0 w',
  run config w0 evs = Some w' -> accounted w0 ->
  forall i order,
    nth_error (orders w') i = Some order ->
    nth_error (orders w0) i = Some order
    \/ exists before ev after w w1 r,
         evs = (before ++ ev :: after)%list
         /\ run config w0 before = Some w
         /\ step config w ev = Some (w1, r)
         /\ orders w1 = (orders w ++ [order])%list
         /\ List.length (orders w) = i
         /\ vetted config (portfolio (eng w)) order.
Proof.
  induction evs as [|ev tl IH]; intros w0 w' R A i order N; cbn in R.
  - injection R as <-. now left.
  - destruct (step config w0 ev) as [[w1 r]|] eqn:St; [|discriminate].
    destruct (step_effect _ _ _ _ St A) as (A1 & O).
    destruct (IH w1 w' R A1 i order N)
      as [N1|(before & ev' & after & w & w2 & r' & -> & Rb & St' & O' & L & V)].
    + destruct O as [O|(order' & d & O & E & _)].
      * left. now rewrite <- O.
      * rewrite O in N1.
        destruct (Nat.lt_ge_cases i (List.length (orders w0))) as [Lt|Ge].
        -- left. now rewrite nth_error_app1 in N1.
        -- right. rewrite nth_error_app2 in N1 by exact Ge.
           assert (Ei : i = List.length (orders w0)).
           { destruct (i - List.length (orders w0))%nat as [|n] eqn:D;
               [lia|]. destruct n; discriminate N1. }
           subst i. rewrite Nat.sub_diag in N1. injection N1 as <-.
           exists [], ev, tl, w0, w1, r.
           split; [reflexivity|]. split; [reflexivity|].
           split; [exact St|]. split; [exact O|]. split; [reflexivity|].
           exact (executeDecision_begin_vetted _ _ _ E).
    + right. exists (ev :: before), ev', after, w, w2, r'.
      split; [reflexivity|]. split; [cbn; now rewrite St|].
      repeat split; assumption.
Qed.

Lemma same_work_resume k a outcome w u w' :
  same_work w u ->
  resume config k a outcome w = Some w' ->
  exists u', resume config k a outcome u = Some u' /\ same_work w' u'.
Proof.
  intros (C & O & P & L & N) R. unfold resume in *.
  destruct a, outcome; try discriminate;
    repeat match type of R with
           | context [match ?x with _ => _ end] => destruct x eqn:?
           end;
    injection R as <-; cbn [with_eng eng portfolio set_lastDecision] in *;
    rewrite ?P;
    repeat match goal with
           | E : ?x = _ |- context [match ?x with _ => _ end] => rewrite E
           end;
    eexists; (split; [reflexivity|]);
    unfold same_work; cbn; rewrite ?C, ?O, ?P, ?L, ?N; auto 6.
Qed.

Lemma same_work_stop w : same_work w (stop w).
Proof.
  unfold stop, same_work.
  destruct (isRunning (eng w)); cbn; auto 6.
  destruct (tradingInterval (eng w)); cbn; auto 6.
Qed.

End WithConfig.
End SafetyFacts.

Section SafetyClaims.
Import JS RAGAgent TradingEngine Safety SafetyFacts JSFacts.
Context `{Runtime}.
Variable config : trading_config.

(** X1: Along every execution of the engine from its construction, each
    order handed to [roostooClient.placeOrder] was handed over by a turn of
    a trading cycle that had received the result of its workflow, and it is
    an order that [validateOrder] accepts against [this.portfolio] as the
    engine held it at that turn; its quantity is a number greater than 0.
    No other turn of the event loop hands over an order. *)
Theorem submitted_orders_were_validated :
  (forall evs w' i order,
      run config initial evs = Some w' ->
      nth_error (orders w') i = Some order ->
      exists w ev w1,
        submitted_at config evs i order w ev w1
        /\ vetted config (portfolio (eng w)) order)
  /\ (forall w ev w' r,
        step config w ev = Some (w', r) ->
        orders w' = orders w
        \/ exists order d k ragResult,
             orders w' = (orders w ++ [order])%list
             /\ ev = Resume k (Ok ragResult)
             /\ find_cycle k (cycles w) = Some AwaitWorkflow
             /\ get ragResult "decision" = Ok d
             /\ executeDecision_begin config d (portfolio (eng w))
                = Ok (Submitted order)
             /\ vetted config (portfolio (eng w)) order).
Proof.
  split.
  - intros evs w' i order R N.
    assert (A : accounted initial) by (unfold accounted; cbn; lia).
    destruct (run_submissions config evs initial w' R A i order N)
      as [N0|(before & ev & after & w & w1 & r & E & Rb & St & O & L & V)].
    + destruct i; discriminate N0.
    + exists w, ev, w1. split; [|exact V].
      exists before, after, r. repeat split; assumption.
  - intros w ev w' r St.
    destruct ev as [|outcome| |t|k outcome]; cbn in St.
    + unfold start_begin in St.
      destruct (isRunning (eng w)); injection St as <- <-; now left.
    + destruct (starting w); [discriminate|].
      destruct outcome; cbn in St; injection St as <- <-; now left.
    + injection St as <- <-. unfold stop.
      destruct (isRunning (eng w)); cbn; [|now left].
      destruct (tradingInterval (eng w)); now left.
    + destruct (existsb (Nat.eqb t) (timers w)); [|discriminate].
      injection St as <- <-. unfold tick.
      destruct (isRunning (eng w)); now left.
    + destruct (find_cycle k (cycles w)) as [a|] eqn:F; [|discriminate].
      destruct (resume config k a outcome w) as [w1|] eqn:R; [|discriminate].
      injection St as <- <-.
      destruct (resume_effect config _ _ _ _ _ R) as (next & _ & _ & E).
      destruct E as [[O _]|(order & d & O & E & -> & (rag & -> & G) & _)];
        [now left|].
      right. exists order, d, k, rag. repeat split; try assumption.
      all: exact (executeDecision_begin_vetted config _ _ _ E).
Qed.

(** X2: Along every execution of the engine, a trading cycle submits at most
    one order: the orders submitted and the cycles that have not decided yet
    are together no more than the cycles begun. *)
Theorem one_order_per_cycle :
  forall evs w',
    run config initial evs = Some w' ->
    (List.length (orders w') + count_undecided (cycles w')
     <= cycleCount (eng w'))%nat.
Proof.
  intros evs w' R.
  apply (run_accounted config evs initial w' R).
  unfold accounted. cbn. lia.
Qed.

(** X3: [stop()] does not cancel the cycles in flight: it leaves them where
    they are, and whatever a cycle would have done next on the outcome of
    its [await] (submit an order included) it still does after [stop()]. *)
Theorem stop_leaves_cycles_in_flight :
  forall w k outcome w1,
    step config w (Resume k outcome) = Some (w1, None) ->
    cycles (stop w) = cycles w
    /\ exists w2,
         step config (stop w) (Resume k outcome) = Some (w2, None)
         /\ same_work w1 w2.
Proof.
  intros w k outcome w1 St.
  destruct (same_work_stop w) as (C & Rest).
  split; [exact C|].
  cbn in St |- *. rewrite C.
  destruct (find_cycle k (cycles w)) as [a|]; [|discriminate].
  destruct (resume config k a outcome w) as [w'|] eqn:R; [|discriminate].
  injection St as <-.
  destruct (same_work_resume config k a outcome w (stop w) w'
              (same_work_stop w) R) as (u' & -> & S).
  exists u'. split; [reflexivity|exact S].
Qed.

(** X4: [executeDecision] never rejects on a decision that is neither [null]
    nor [undefined]: every failure while the order is prepared and validated
    becomes [{executed: false, reason}]. A HOLD decision, and a decision
    without symbol or quantity, is not executed. *)
Theorem executeDecision_never_rejects :
  forall decision portfolio,
    is_nullish decision = false ->
    exists e,
      executeDecision_begin config decision portfolio = Ok e
      /\ (is_string (field decision "action") "HOLD" = true ->
          e = NotExecuted "HOLD decision")
      /\ (is_string (field decision "action") "HOLD" = false ->
          truthy (field decision "symbol") = false
          \/ truthy (field decision "quantity") = false ->
          e = NotExecuted "Invalid decision parameters").
Proof.
  intros decision portfolio NN. unfold executeDecision_begin.
  rewrite !(get_field decision) by exact NN. cbn [bind]. cbv zeta.
  destruct (is_string (field decision "action") "HOLD").
  - eexists. split; [reflexivity|]. split; [reflexivity|discriminate].
  - destruct (negb (truthy (field decision "symbol"))
              || negb (truthy (field decision "quantity"))) eqn:M.
    + eexists. split; [reflexivity|]. split; [discriminate|reflexivity].
    + apply orb_false_iff in M as [M1 M2]. apply negb_false_iff in M1, M2.
      unfold catch.
      match goal with
      | |- exists e, match ?b with _ => _ end = _ /\ _ =>
          destruct b as [e|err]
      end; eexists; (split; [reflexivity|]);
        (split; [discriminate|]); intros _ [N|N]; congruence.
Qed.

End SafetyClaims.

(** X1, for instance: on the execution that sells 2 ETH at a limit: the
    one order was handed over by a turn of the execution, and it is valid
    against the portfolio that the engine held then. *)
Lemma submitted_orders_were_validated_witness :
  exists w' w ev w1,
    TradingEngine.run Examples.default_config TradingEngine.initial
      Examples.trace_limit_sell = Some w'
    /\ TradingEngine.orders w' = [Examples.order_limit_sell]
    /\ Safety.submitted_at Examples.default_config Examples.trace_limit_sell
         0 Examples.order_limit_sell w ev w1
    /\ Safety.vetted Examples.default_config
         (TradingEngine.portfolio (TradingEngine.eng w))
         Examples.order_limit_sell.
Proof.
  assert (R : exists w',
             TradingEngine.run (H := host) Examples.default_config
               TradingEngine.initial Examples.trace_limit_sell = Some w'
             /\ TradingEngine.orders w' = [Examples.order_limit_sell])
    by (eexists; split; vm_compute; reflexivity).
  destruct R as (w' & R & O).
  destruct (proj1 (submitted_orders_were_validated (H := host)
                     Examples.default_config)
              Examples.trace_limit_sell w' 0%nat Examples.order_limit_sell R)
    as (w & ev & w1 & S & V); [now rewrite O|].
  exists w', w, ev, w1. repeat split; assumption.
Defined.

(** X2, for instance: on the same execution: one cycle begun, one order. *)
Lemma one_order_per_cycle_witness :
  exists w',
    TradingEngine.run Examples.default_config TradingEngine.initial
      Examples.trace_limit_sell = Some w'
    /\ (List.length (TradingEngine.orders w')
        + Safety.count_undecided (TradingEngine.cycles w')
        <= TradingEngine.cycleCount (TradingEngine.eng w'))%nat.
Proof.
  eexists. split; [vm_compute; reflexivity|].
  apply (one_order_per_cycle (H := host) Examples.default_config
           Examples.trace_limit_sell).
  vm_compute. reflexivity.
Defined.

(** X3, for instance: a cycle that waits for the workflow when [stop()] is
    called still submits its order afterwards. *)
Lemma stop_leaves_cycles_in_flight_witness :
  exists w,
    TradingEngine.run Examples.default_config TradingEngine.initial
      [TradingEngine.CallStart;
       TradingEngine.InitDone (Ok Examples.portfolio_rich);
       TradingEngine.Resume 1 (Ok Examples.portfolio_rich);
       TradingEngine.Resume 1 (Ok (VObj [("tickers", VArr [])]))] = Some w
    /\ TradingEngine.isRunning (TradingEngine.eng (TradingEngine.stop w)) = false
    /\ exists w2,
         TradingEngine.step Examples.default_config (TradingEngine.stop w)
           (TradingEngine.Resume 1
              (Ok (VObj [("decision", Examples.decision_limit_sell)])))
         = Some (w2, None)
         /\ TradingEngine.orders w2 = [Examples.order_limit_sell].
Proof.
  eexists. split; [vm_compute; reflexivity|]. split; [reflexivity|].
  match goal with
  | |- exists w2, TradingEngine.step ?c (TradingEngine.stop ?W) ?ev = _ /\ _ =>
      destruct (stop_leaves_cycles_in_flight (H := host) c W 1%nat
                  (Ok (VObj [("decision", Examples.decision_limit_sell)]))
                  (TradingEngine.suspend 1
                     (TradingEngine.AwaitPlaceOrder Examples.order_limit_sell)
                     (TradingEngine.submitted Examples.order_limit_sell
                        (TradingEngine.with_eng
                           (TradingEngine.set_lastDecision
                              Examples.decision_limit_sell
                              (TradingEngine.eng W)) W))))
        as (_ & w2 & St & _ & O & _); [vm_compute; reflexivity|]
  end.
  exists w2. split; [exact St|]. rewrite O. reflexivity.
Defined.

(** X4, for instance: the fallback decision of [makeDecision] is not
    executed. *)
Lemma executeDecision_never_rejects_witness :
  TradingEngine.executeDecision_begin Examples.default_config
    RAGAgent.hold_fallback Examples.portfolio_rich
  = Ok (TradingEngine.NotExecuted "HOLD decision").
Proof.
  destruct (executeDecision_never_rejects (H := host) Examples.default_config
              RAGAgent.hold_fallback Examples.portfolio_rich eq_refl)
    as (e & -> & Hold & _).
  now rewrite (Hold eq_refl).
Defined.


Section RobustnessClaims.
Import JS RAGAgent TradingEngine Lifecycle LifecycleFacts.
Context `{Runtime}.
Variable config : trading_config.

(** X5: A trading cycle never stops the engine: whatever the [await]s of a
    cycle resolve or reject to, the engine is running afterwards if it was
    before, with the same timers armed. A cycle whose portfolio or workflow
    request fails ends there, with the error "Trading cycle failed" in the
    log. *)
Theorem cycles_never_stop_the_engine :
  forall w k outcome w',
    step config w (Resume k outcome) = Some (w', None) ->
    same_lifecycle w w'
    /\ (forall e,
          outcome = Throw e ->
          find_cycle k (cycles w) = Some AwaitPortfolio
          \/ find_cycle k (cycles w) = Some AwaitWorkflow ->
          log w' = (log w ++ [(ERROR, "Trading cycle failed")])%list
          /\ S (in_flight w') = in_flight w).
Proof.
  intros w k outcome w' St. cbn in St.
  destruct (find_cycle k (cycles w)) as [a|] eqn:F; [|discriminate].
  destruct (resume config k a outcome w) as [w1|] eqn:R; [|discriminate].
  injection St as <-. split; [exact (resume_same config _ _ _ _ _ R)|].
  assert (L : S (List.length (update_cycle k None (cycles w)))
              = List.length (cycles w)).
  { clear -F. induction (cycles w) as [|[k' a'] tl IH]; cbn in *;
      [discriminate|].
    destruct (k =? k')%nat; [reflexivity|]. cbn. now rewrite (IH F). }
  intros e -> [A|A]; injection A as ->; cbn in R; injection R as <-;
    (split; [reflexivity|exact L]).
Qed.

End RobustnessClaims.

(** X5, for instance: the initial cycle fails to fetch its portfolio: the
    engine is still running with its timer, and the failure is in the log. *)
Lemma cycles_never_stop_the_engine_witness :
  exists w w',
    TradingEngine.run Examples.default_config TradingEngine.initial
      [TradingEngine.CallStart;
       TradingEngine.InitDone (Ok Examples.portfolio_rich)] = Some w
    /\ TradingEngine.step Examples.default_config w
         (TradingEngine.Resume 1 (Throw Examples.network_error))
       = Some (w', None)
    /\ TradingEngine.isRunning (TradingEngine.eng w') = true
    /\ TradingEngine.timers w' = [1%nat]
    /\ TradingEngine.log w' = [(ERROR, "Trading cycle failed")].
Proof.
  eexists. eexists. split; [vm_compute; reflexivity|].
  match goal with
  | |- TradingEngine.step ?c ?W ?ev = _ /\ _ =>
      let r := eval vm_compute in (TradingEngine.step c W ev) in
      match r with
      | Some (?wf, _) =>
          assert (St : TradingEngine.step c W ev = Some (wf, None))
            by (vm_compute; reflexivity)
      end
  end.
  destruct (cycles_never_stop_the_engine (H := host) _ _ _ _ _ St)
    as ((R & _ & T & _) & Failed).
  split; [exact St|].
  split; [rewrite R; reflexivity|]. split; [rewrite T; reflexivity|].
  destruct (Failed _ eq_refl (or_introl eq_refl)) as (L & _).
  rewrite L. reflexivity.
Defined.

(* ================================================================== *)
(** * More about the vector store *)
(* ================================================================== *)

Module StoreFacts.
Import VectorStore StoreUse.

Lemma to_int32_range z : - 2 ^ 31 <= to_int32 z < 2 ^ 31.
Proof.
  unfold to_int32.
  pose proof (Z.mod_pos_bound (z + 2 ^ 31) (2 ^ 32) eq_refl). lia.
Qed.

Lemma to_int32_congr a b :
  a mod 2 ^ 32 = b mod 2 ^ 32 -> to_int32 a = to_int32 b.
Proof.
  intros E. unfold to_int32. f_equal.
  rewrite (Z.add_mod a), (Z.add_mod b), E by discriminate. reflexivity.
Qed.

Lemma to_int32_mod z : to_int32 z mod 2 ^ 32 = z mod 2 ^ 32.
Proof.
  unfold to_int32.
  rewrite <- Zminus_mod_idemp_l, Z.mod_mod by discriminate.
  rewrite Zminus_mod_idemp_l. f_equal. lia.
Qed.

Lemma hash_step_polynomial z c :
  hash_step (to_int32 z) c = to_int32 (31 * z + Str.code c).
Proof.
  unfold hash_step. apply to_int32_congr.
  rewrite Z.shiftl_mul_pow2 by lia.
  rewrite <- Zplus_mod_idemp_l, <- Zminus_mod_idemp_l, to_int32_mod.
  rewrite Zminus_mod_idemp_l.
  rewrite <- Zminus_mod_idemp_l, <- Zmult_mod_idemp_l, to_int32_mod.
  rewrite Zmult_mod_idemp_l.
  rewrite <- Zminus_mod_idemp_r, to_int32_mod, Zminus_mod_idemp_r.
  rewrite Zminus_mod_idemp_l, Zplus_mod_idemp_l.
  f_equal. lia.
Qed.

Lemma fold_hash_step l : forall z,
  fold_left hash_step l (to_int32 z) = to_int32 (polynomial l z).
Proof.
  induction l as [|c tl IH]; intros z; cbn; [reflexivity|].
  rewrite hash_step_polynomial. apply IH.
Qed.

Lemma lower_upper c : Str.lower_char (Str.upper_char c) = Str.lower_char c.
Proof. destruct c as [[] [] [] [] [] [] [] []]; reflexivity. Qed.

Lemma lower_lower c : Str.lower_char (Str.lower_char c) = Str.lower_char c.
Proof. destruct c as [[] [] [] [] [] [] [] []]; reflexivity. Qed.

Lemma clean_map f text :
  (forall c, Str.lower_char (f c) = Str.lower_char c) ->
  clean (Str.of_chars (map f (Str.chars text))) = clean text.
Proof.
  intros F. unfold clean. rewrite EmbeddingFacts.chars_of_chars, map_map.
  f_equal. apply map_ext. intros c. unfold clean_char. now rewrite F.
Qed.

Lemma sort_length l : List.length (sort l) = List.length l.
Proof. apply Permutation_length, SearchFacts.sort_perm. Qed.

Lemma mul_comm x y : (x * y = y * x)%float.
Proof.
  apply FloatAxioms.Prim2SF_inj. rewrite !FloatAxioms.mul_spec.
  destruct (Prim2SF x) as [sx|sx| |sx mx ex], (Prim2SF y) as [sy|sy| |sy my ey];
    cbn; rewrite ?(xorb_comm sx sy); try reflexivity.
  now rewrite (Pos.mul_comm mx my), (Z.add_comm ex ey).
Qed.

Lemma accumulate_swap v1 : forall v2 dot m1 m2,
  accumulate v2 v1 (dot, m2, m1)
  = let '(d, a, b) := accumulate v1 v2 (dot, m1, m2) in (d, b, a).
Proof.
  induction v1 as [|x t1 IH]; intros [|y t2] dot m1 m2; cbn; try reflexivity.
  rewrite (mul_comm y x). apply IH.
Qed.

Lemma add_all_app adds1 : forall adds2 s,
  add_all (adds1 ++ adds2) s = add_all adds2 (add_all adds1 s).
Proof.
  induction adds1 as [|a tl IH]; intros adds2 s; cbn; [reflexivity|apply IH].
Qed.

Lemma add_one a s :
  let s' := snd (addStrategy (add_io a) (VStr (add_text a)) (add_metadata a) s) in
  strategies s' = (strategies s ++ [added a])%list
  /\ disk s' = match write (add_io a) with
               | Written => Whole (strategies s')
               | NotOpened => disk s
               | Interrupted => Torn (strategies s')
               end.
Proof.
  unfold addStrategy, bindM, push, saveStrategies, ret, metadata_or_empty, added.
  destruct (write (add_io a)); cbn [snd strategies disk];
    destruct (add_metadata a); split; reflexivity.
Qed.

Lemma add_all_strategies adds : forall s,
  strategies (add_all adds s) = (strategies s ++ map added adds)%list.
Proof.
  induction adds as [|a tl IH]; intros s; cbn [add_all map].
  - now rewrite app_nil_r.
  - rewrite IH, (proj1 (add_one a s)). now rewrite <- app_assoc.
Qed.

Lemma add_all_covered adds : forall s,
  covered (disk s) (strategies s) ->
  covered (disk (add_all adds s)) (strategies (add_all adds s)).
Proof.
  induction adds as [|a tl IH]; intros s P; cbn [add_all]; [exact P|].
  apply IH. destruct (add_one a s) as [S D]. rewrite D.
  destruct (write (add_io a)); cbn [covered].
  - exists []. now rewrite app_nil_r.
  - rewrite S. unfold covered in *.
    destruct (disk s); destruct P as (rest & E); rewrite E;
      exists (rest ++ [added a])%list; now rewrite <- app_assoc.
  - exists []. now rewrite app_nil_r.
Qed.

End StoreFacts.

Section StoreClaims.
Import VectorStore StoreUse StoreFacts.

(** X6: [simpleHash] is the polynomial hash with base 31 over the character
    codes, wrapped to a signed 32-bit integer, in absolute value. It lies
    between 0 and 2^31 inclusive, so that [hash % 128] is an index of the
    128 buckets. *)
Theorem simpleHash_polynomial :
  forall str,
    simpleHash str = Z.abs (to_int32 (polynomial (Str.chars str) 0))
    /\ 0 <= simpleHash str <= 2 ^ 31
    /\ (bucket str < 128)%nat.
Proof.
  intros str.
  assert (E : simpleHash str = Z.abs (to_int32 (polynomial (Str.chars str) 0))).
  { unfold simpleHash. change 0 with (to_int32 0) at 1.
    now rewrite fold_hash_step. }
  assert (R : 0 <= simpleHash str <= 2 ^ 31).
  { rewrite E. pose proof (to_int32_range (polynomial (Str.chars str) 0)). lia. }
  split; [exact E|]. split; [exact R|].
  unfold bucket.
  pose proof (Z.mod_pos_bound (simpleHash str) 128 eq_refl). lia.
Qed.

(** X7: The fingerprint ignores the case of the letters of an ASCII text:
    the text in upper case and the text in lower case have the fingerprint
    of the text. *)
Theorem generateEmbedding_ignores_case :
  forall text,
    Str.ascii_only text = true ->
    generateEmbedding (Str.toUpperCase text) = generateEmbedding text
    /\ generateEmbedding (Str.toLowerCase text) = generateEmbedding text.
Proof.
  intros text _.
  unfold generateEmbedding, words, Str.toUpperCase, Str.toLowerCase.
  rewrite (clean_map Str.upper_char text lower_upper).
  rewrite (clean_map Str.lower_char text lower_lower).
  split; reflexivity.
Qed.

(** X8: The number of results of [searchSimilar]: with [n] records above the
    threshold, [min(topK, n)] for a [topK] that is not negative, and [max(n
    + topK, 0)] for a negative one, which [slice] counts from the end. An
    empty store gives no result. *)
Theorem searchSimilar_count :
  forall s query topK,
    let n := Z.of_nat (List.length (Spec.candidates s query)) in
    Z.of_nat (List.length (searchSimilar s query topK))
    = (if topK <? 0 then Z.max (n + topK) 0 else Z.min topK n)
    /\ (strategies s = [] -> searchSimilar s query topK = []).
Proof.
  intros s query topK n. split.
  - unfold searchSimilar, slice0. rewrite length_firstn, sort_length.
    fold (Spec.candidates s query). fold n.
    destruct (topK <? 0) eqn:K; [apply Z.ltb_lt in K|apply Z.ltb_ge in K]; lia.
  - intros E. unfold searchSimilar. rewrite E. cbn. unfold slice0. cbn.
    now rewrite firstn_nil.
Qed.

(** X9: [cosineSimilarity] is symmetric, bit for bit. *)
Theorem cosineSimilarity_symmetric :
  forall vec1 vec2,
    cosineSimilarity vec1 vec2 = cosineSimilarity vec2 vec1.
Proof.
  intros vec1 vec2. unfold cosineSimilarity.
  rewrite (Nat.eqb_sym (List.length vec2)).
  destruct (List.length vec1 =? List.length vec2)%nat; [|reflexivity].
  cbn [negb]. rewrite (accumulate_swap vec1 vec2 0%float 0%float 0%float).
  destruct (accumulate vec1 vec2 (0, 0, 0)%float) as [[d a] b].
  rewrite (orb_comm (PrimFloat.eqb (Num.Math_sqrt b) 0)).
  now rewrite (mul_comm (Num.Math_sqrt b)).
Qed.

(** X10: After any sequence of [addStrategy] calls the store holds the old
    records followed by one new record per call, in the order of the calls.
    The file holds the text of a first part of the records in memory, whole
    or cut short by a write that failed.  The last call decides: when its
    write succeeds the file is up to date, whatever writes failed before;
    when its write fails before the file is opened the file stays as the
    calls before had left it; when it fails later the file is cut short. *)
Theorem addStrategy_calls_in_sequence :
  forall adds s,
    strategies (add_all adds s) = (strategies s ++ map added adds)%list
    /\ (covered (disk s) (strategies s) ->
        covered (disk (add_all adds s)) (strategies (add_all adds s)))
    /\ (forall before a,
          adds = (before ++ [a])%list ->
          disk (add_all adds s)
          = match write (add_io a) with
            | Written => Whole (strategies (add_all adds s))
            | NotOpened => disk (add_all before s)
            | Interrupted => Torn (strategies (add_all adds s))
            end).
Proof.
  intros adds s. split; [apply add_all_strategies|].
  split; [apply add_all_covered|].
  intros before a ->. rewrite add_all_app. cbn [add_all].
  exact (proj2 (add_one a (add_all before s))).
Qed.

End StoreClaims.

(** X6, for instance: the hash of "abc" is 97 * 31^2 + 98 * 31 + 99. *)
Lemma simpleHash_polynomial_witness :
  VectorStore.simpleHash "abc" = 96354
  /\ VectorStore.bucket "abc" = 98%nat.
Proof.
  destruct (simpleHash_polynomial "abc") as (E & _).
  split; [rewrite E|]; reflexivity.
Defined.

(** X10, for instance: a write that fails and the next one that succeeds:
    both records are in the file. *)
Lemma addStrategy_calls_in_sequence_witness :
  VectorStore.disk
    (StoreUse.add_all
       [ {| StoreUse.add_io := Examples.io_disk_full;
            StoreUse.add_text := "buy bitcoin dips";
            StoreUse.add_metadata := VUndefined |};
         {| StoreUse.add_io := Examples.io_ok;
            StoreUse.add_text := "sell ethereum rallies";
            StoreUse.add_metadata := VObj [] |} ]
       Examples.empty_store)
  = VectorStore.Whole
      (VectorStore.strategies
         (StoreUse.add_all
            [ {| StoreUse.add_io := Examples.io_disk_full;
                 StoreUse.add_text := "buy bitcoin dips";
                 StoreUse.add_metadata := VUndefined |};
              {| StoreUse.add_io := Examples.io_ok;
                 StoreUse.add_text := "sell ethereum rallies";
                 StoreUse.add_metadata := VObj [] |} ]
            Examples.empty_store))
  /\ StoreUse.covered
       (VectorStore.disk
          (StoreUse.add_all
             [ {| StoreUse.add_io := Examples.io_disk_full;
                  StoreUse.add_text := "buy bitcoin dips";
                  StoreUse.add_metadata := VUndefined |} ]
             Examples.empty_store))
       (VectorStore.strategies
          (StoreUse.add_all
             [ {| StoreUse.add_io := Examples.io_disk_full;
                  StoreUse.add_text := "buy bitcoin dips";
                  StoreUse.add_metadata := VUndefined |} ]
             Examples.empty_store)).
Proof.
  split.
  - rewrite (proj2 (proj2 (addStrategy_calls_in_sequence _ _))
               [ {| StoreUse.add_io := Examples.io_disk_full;
                    StoreUse.add_text := "buy bitcoin dips";
                    StoreUse.add_metadata := VUndefined |} ]
               {| StoreUse.add_io := Examples.io_ok;
                  StoreUse.add_text := "sell ethereum rallies";
                  StoreUse.add_metadata := VObj [] |} eq_refl).
    reflexivity.
  - apply (proj1 (proj2 (addStrategy_calls_in_sequence _ _))).
    exists []. reflexivity.
Defined.


(** X7, for instance: two spellings of one text. *)
Lemma generateEmbedding_ignores_case_witness :
  VectorStore.generateEmbedding "BUY BITCOIN DIPS"
  = VectorStore.generateEmbedding "Buy Bitcoin dips".
Proof.
  rewrite <- (proj1 (generateEmbedding_ignores_case "Buy Bitcoin dips"
                       eq_refl)).
  reflexivity.
Defined.

(** X8, for instance: three records of [Examples.store_three] are above the
    threshold for "buy bitcoin"; [topK = -1] leaves the last one out. *)
Lemma searchSimilar_count_witness :
  List.length (VectorStore.searchSimilar Examples.store_three "buy bitcoin" (-1))
  = 2%nat
  /\ List.length (VectorStore.searchSimilar Examples.store_three "buy bitcoin" 2)
     = 2%nat
  /\ List.length (VectorStore.searchSimilar Examples.store_three "buy bitcoin" 9)
     = 3%nat.
Proof.
  pose proof (fun k => proj1 (searchSimilar_count Examples.store_three
                                "buy bitcoin" k)) as C.
  cbv zeta in C.
  assert (N : List.length (Spec.candidates Examples.store_three "buy bitcoin")
              = 3%nat) by (vm_compute; reflexivity).
  rewrite N in C.
  split; [|split]; apply Nat2Z.inj; rewrite C; reflexivity.
Defined.

(** X9, for instance: two fingerprints. *)
Lemma cosineSimilarity_symmetric_witness :
  VectorStore.cosineSimilarity
    (VectorStore.generateEmbedding "buy bitcoin dips")
    (VectorStore.generateEmbedding "buy bitcoin")
  = VectorStore.cosineSimilarity
      (VectorStore.generateEmbedding "buy bitcoin")
      (VectorStore.generateEmbedding "buy bitcoin dips").
Proof. apply cosineSimilarity_symmetric. Defined.
(* ================================================================== *)
(** * The agent as the engine uses it *)
(* ================================================================== *)

Section AgentFacts.
Context `{Runtime}.
Import JS RAGAgent TradingEngine Decision JSFacts.

Lemma contract_well_formed candidate normalized :
  Spec.decision_contract candidate normalized -> well_formed normalized.
Proof.
  intros (props & action & confidence & E & A & I & _ & C & C0 & C1 & _ & _
          & BS & _).
  exists props, action, confidence.
  split; [exact E|]. split; [exact A|]. split; [exact I|].
  split; [exact C|]. split; [exact C0|]. split; [exact C1|].
  intros B. destruct (BS B) as (symbol & quantity & s & _ & _ & N & S & _ & F & P & Q).
  exists symbol, quantity. auto.
Qed.

Lemma hold_fallback_well_formed : well_formed hold_fallback.
Proof.
  exists [("action", VStr "HOLD");
          ("reasoning", VStr "Error in decision making, defaulting to HOLD");
          ("confidence", VNum 0)], "HOLD", 0%float.
  split; [reflexivity|]. split; [reflexivity|].
  split; [cbn; auto|]. split; [reflexivity|].
  split; [reflexivity|]. split; [reflexivity|].
  intros [B|B]; discriminate B.
Qed.

Lemma makeDecision_cases c synthesized portfolio :
  exists d,
    makeDecision c synthesized portfolio = Ok d
    /\ (d = hold_fallback \/ exists parsed, normalizeDecision parsed = Ok d).
Proof.
  unfold makeDecision, catch.
  destruct (analyzeScenario_decision c) as [reply|]; cbn [bind];
    [|eexists; split; [reflexivity|now left]].
  destruct (parse_decision reply) as [parsed|]; cbn [bind];
    [|eexists; split; [reflexivity|now left]].
  destruct (normalizeDecision parsed) as [d|] eqn:N;
    eexists; (split; [reflexivity|]); [right; eauto|now left].
Qed.

Lemma makeDecision_shape c synthesized portfolio :
  exists d, makeDecision c synthesized portfolio = Ok d /\ well_formed d.
Proof.
  destruct (makeDecision_cases c synthesized portfolio) as (d & E & [->|(p & N)]).
  - exists hold_fallback. split; [exact E|apply hold_fallback_well_formed].
  - exists d. split; [exact E|].
    destruct (normalizeDecision_inv _ _ N) as (inner & _ & C).
    now apply contract_well_formed in C.
Qed.

Lemma positive_not_zero q :
  PrimFloat.ltb 0 q = true -> PrimFloat.is_zero q = false.
Proof.
  unfold PrimFloat.is_zero. intros P.
  destruct (PrimFloat.eqb q PrimFloat.zero) eqn:E; [|reflexivity].
  change PrimFloat.zero with 0%float in E. FloatFacts.float_order.
Qed.

Lemma executeDecision_begin_quantity config decision portfolio order :
  executeDecision_begin config decision portfolio = Ok (Submitted order) ->
  exists q,
    parseFloat (field decision "quantity") = Ok q
    /\ field order "quantity" = VNum q.
Proof.
  unfold executeDecision_begin. intros E.
  step E as Ga. step E as Gs. step E as Gq. apply get_Ok_field in Gq. subst.
  step E as Gp. step E as Go.
  cbv zeta in E. step E as Hold. step E as Missing.
  unfold catch in E.
  match type of E with (match ?b with _ => _ end) = _ => destruct b as [ex|] eqn:B end;
    [|discriminate E].
  injection E as ->.
  step B as P. step B as V. step B as Valid.
  injection B as <-.
  unfold prepare_order in P.
  step P as Q. step P as PP. injection P as <-.
  eexists. split; reflexivity.
Qed.

Lemma well_formed_tradable config decision portfolio order :
  well_formed decision ->
  executeDecision_begin config decision portfolio = Ok (Submitted order) ->
  tradable order
  /\ field order "side" = field decision "action"
  /\ field order "pair" = field decision "symbol"
  /\ field order "quantity" = field decision "quantity".
Proof.
  intros (props & action & confidence & -> & A & I & _ & _ & _ & BS) E.
  destruct (executeDecision_begin_order config _ _ _ E)
    as (oprops & -> & Pair & Side & _).
  destruct (executeDecision_begin_quantity config _ _ _ E) as (q & PQ & Q).
  assert (NH : action <> "HOLD").
  { intros ->. unfold executeDecision_begin in E.
    cbn [get bind] in E. rewrite A in E. cbn in E. discriminate E. }
  assert (B : action = "BUY" \/ action = "SELL").
  { cbn in I. destruct I as [<-|[<-|[<-|[]]]]; auto. congruence. }
  destruct (BS B) as (symbol & quantity & S & NE & QQ & F & P).
  assert (FA : field (VObj props) "action" = VStr action)
    by (rewrite lookup_field, A; reflexivity).
  assert (FS : field (VObj props) "symbol" = VStr symbol)
    by (rewrite lookup_field, S; reflexivity).
  assert (FQ : field (VObj props) "quantity" = VNum quantity)
    by (rewrite lookup_field, QQ; reflexivity).
  assert (OS : field (VObj oprops) "side" = VStr action)
    by (rewrite lookup_field, Side, FA; reflexivity).
  assert (OP : field (VObj oprops) "pair" = VStr symbol)
    by (rewrite lookup_field, Pair, FS; reflexivity).
  rewrite FQ in PQ. cbn [parseFloat] in PQ.
  rewrite (positive_not_zero _ P) in PQ. injection PQ as <-.
  rewrite FA, FS, FQ, OS, OP, Q.
  split; [|auto].
  split; [destruct B as [->| ->]; auto|].
  split; [exists symbol; auto|].
  exists quantity. auto.
Qed.

End AgentFacts.

Section AgentClaims.
Context `{Runtime}.
Import JS RAGAgent TradingEngine Decision JSFacts.

(** X11: Whatever the model replies, [makeDecision] returns a decision the
    engine can act on: BUY, SELL or HOLD, with a confidence between 0 and 1,
    and for BUY and SELL with a symbol that is not empty and a finite
    quantity greater than 0. *)
Theorem makeDecision_well_formed :
  forall c synthesized portfolio,
    exists d,
      makeDecision c synthesized portfolio = Ok d /\ well_formed d.
Proof.
  intros c synthesized portfolio.
  destruct (makeDecision_shape c synthesized portfolio) as (d & E & W).
  exists d. split; [exact E|exact W].
Qed.

(** X12: Whatever the model replies, an order that [executeDecision] submits
    for the decision of [makeDecision] is a BUY or a SELL of a pair that is
    not empty, for a finite quantity greater than 0: the action, the symbol
    and the quantity of the decision. *)
Theorem decisions_become_tradable_orders :
  forall config c synthesized portfolio held d order,
    makeDecision c synthesized portfolio = Ok d ->
    executeDecision_begin config d held = Ok (Submitted order) ->
    tradable order
    /\ field order "side" = field d "action"
    /\ field order "pair" = field d "symbol"
    /\ field order "quantity" = field d "quantity".
Proof.
  intros config c synthesized portfolio held d order M E.
  apply (well_formed_tradable config d held order); [|exact E].
  destruct (makeDecision_shape c synthesized portfolio) as (d' & M' & W).
  rewrite M in M'. now injection M' as <-.
Qed.

End AgentClaims.
Section AgentFacts2.
Context `{Runtime}.
Import JS RAGAgent TradingEngine Decision JSFacts VectorStore.

Lemma upper_lower c : Str.upper_char (Str.lower_char c) = Str.upper_char c.
Proof. destruct c as [[] [] [] [] [] [] [] []]; reflexivity. Qed.

Lemma upper_upper c : Str.upper_char (Str.upper_char c) = Str.upper_char c.
Proof. destruct c as [[] [] [] [] [] [] [] []]; reflexivity. Qed.

Lemma toUpperCase_map f text :
  (forall c, Str.upper_char (f c) = Str.upper_char c) ->
  Str.toUpperCase (Str.of_chars (map f (Str.chars text))) = Str.toUpperCase text.
Proof.
  intros F. unfold Str.toUpperCase.
  rewrite EmbeddingFacts.chars_of_chars, map_map. f_equal.
  apply map_ext, F.
Qed.

Lemma similar_at_most_5 s query :
  (List.length (strategy_texts (searchSimilar s query 5)) <= 5)%nat.
Proof.
  unfold strategy_texts. rewrite length_map.
  pose proof (SearchFacts.slice0_length 5 
                (sort (filter (fun e => Num.gt (similarity e) 0.1)
                         (map (score (generateEmbedding query)) (strategies s))))
                ltac:(lia)) as L.
  unfold searchSimilar. lia.
Qed.

End AgentFacts2.

Section AgentClaims2.
Context `{Runtime}.
Import JS RAGAgent TradingEngine Decision JSFacts VectorStore.

(** X13: [extractAction] answers BUY, SELL or HOLD for every text: BUY when
    the word occurs in the text in upper case, SELL when that one occurs
    and BUY does not, and HOLD otherwise. For an ASCII text the case of the
    text does not matter. *)
Theorem extractAction_supported :
  forall text,
    exists a,
      extractAction (VStr text) = Ok a
      /\ In a actions
      /\ (Str.includes (Str.toUpperCase text) "BUY" = true -> a = "BUY")
      /\ (a = "HOLD" <->
          Str.includes (Str.toUpperCase text) "BUY" = false
          /\ Str.includes (Str.toUpperCase text) "SELL" = false)
      /\ (Str.ascii_only text = true ->
          extractAction (VStr (Str.toLowerCase text)) = Ok a
          /\ extractAction (VStr (Str.toUpperCase text)) = Ok a).
Proof.
  intros text.
  assert (L : Str.toUpperCase (Str.toLowerCase text) = Str.toUpperCase text)
    by apply (toUpperCase_map Str.lower_char text upper_lower).
  assert (U : Str.toUpperCase (Str.toUpperCase text) = Str.toUpperCase text)
    by apply (toUpperCase_map Str.upper_char text upper_upper).
  unfold extractAction. cbv zeta. rewrite L, U.
  destruct (Str.includes (Str.toUpperCase text) "BUY");
    [|destruct (Str.includes (Str.toUpperCase text) "SELL")];
    eexists; (split; [reflexivity|]); (split; [cbn; auto|]);
    (split; [auto; discriminate|]);
    (split; [|intros _; split; reflexivity]);
    split; try discriminate; try (intros [? ?]; discriminate); auto.
Qed.

(** X14: [retrieveStrategies] never rejects on a context that is neither
    [null] nor [undefined]. It returns at most five similar strategies. It
    adds at most one record to the store, and only the strategies of
    DeepSeek when they are a string that is not empty; when DeepSeek fails
    the store is as before and the new strategies are the empty string. *)
Theorem retrieveStrategies_never_rejects :
  forall c context s,
    is_nullish context = false ->
    exists r s',
      retrieveStrategies c context s = (Ok r, s')
      /\ (List.length (similarStrategies r) <= 5)%nat
      /\ (s' = s
          \/ exists reply text e,
               getTradingStrategies c = Ok reply
               /\ field reply "strategies" = VStr text
               /\ text <> ""
               /\ newStrategies r = VStr text
               /\ strategy e = text
               /\ strategies s' = (strategies s ++ [e])%list)
      /\ (forall err,
            getTradingStrategies c = Throw err ->
            s' = s /\ newStrategies r = VStr ""
            /\ allStrategies r = map VStr (similarStrategies r)).
Proof.
  intros c context s NN. unfold retrieveStrategies.
  rewrite !(get_field context) by exact NN.
  unfold bindM at 1 2 3. cbn [lift]. unfold catchM, bindM, lift, read, ret.
  destruct (toString (default_to (VStr "") (field context "marketConditions")))
    as [conditions|];
    [|eexists _, _; split; [reflexivity|]; split; [apply similar_at_most_5|];
      split; [now left|]; intros; auto].
  destruct (getTradingStrategies c) as [reply|err0] eqn:G;
    [|eexists _, _; split; [reflexivity|]; split; [apply similar_at_most_5|];
      split; [now left|]; intros; auto].
  destruct (get reply "strategies") as [strategies0|] eqn:GS;
    [|eexists _, _; split; [reflexivity|]; split; [apply similar_at_most_5|];
      split; [now left|]; intros; discriminate].
  apply get_Ok_field in GS. subst strategies0.
  destruct (truthy (field reply "strategies")) eqn:T;
    [|eexists _, _; split; [reflexivity|]; split; [apply similar_at_most_5|];
      split; [now left|]; intros; discriminate].
  destruct (field reply "strategies") as [| | | |text| |] eqn:F;
    try (eexists _, _; split; [reflexivity|]; split; [apply similar_at_most_5|];
         split; [now left|]; intros; discriminate).
  unfold addStrategy, bindM, push, saveStrategies, ret.
  destruct (write (store_io c));
    (eexists _, _; split; [reflexivity|]; split; [apply similar_at_most_5|];
     split; [|intros; discriminate];
     right; eexists reply, text, _;
     split; [reflexivity|]; split; [first [exact F|reflexivity]|];
     split; [apply is_empty_false; cbn in T; now apply negb_true_iff in T|];
     split; [reflexivity|]; (split; [|reflexivity]); reflexivity).
Qed.

(** X15: [collectMarketData] never rejects, and it is all or nothing: when
    one of the three requests fails, the news, the stock data and the
    sentiment are all the empty string, also those that arrived. *)
Theorem collectMarketData_all_or_nothing :
  forall c symbols,
    exists news stock sentiment,
      collectMarketData c symbols
      = Ok (VObj [("news", news); ("stockData", stock);
                  ("sentiment", sentiment)])
      /\ ((exists e, getFinancialNews c = Throw e
                     \/ getStockData c = Throw e
                     \/ getMarketSentiment c = Throw e) ->
          news = VStr "" /\ stock = VStr "" /\ sentiment = VStr "")
      /\ (forall n d t,
            getFinancialNews c = Ok n -> getStockData c = Ok d ->
            getMarketSentiment c = Ok t ->
            is_nullish n = false -> is_nullish d = false ->
            news = or_else (field n "news") n
            /\ stock = or_else (field d "data") d
            /\ sentiment = t).
Proof.
  intros c symbols. unfold collectMarketData, catch.
  destruct (getFinancialNews c) as [n|e1] eqn:N; cbn [bind].
  2:{ eexists _, _, _. split; [reflexivity|]. split; [auto|]. intros; discriminate. }
  destruct (getStockData c) as [d|e2] eqn:D; cbn [bind].
  2:{ eexists _, _, _. split; [reflexivity|]. split; [auto|]. intros; discriminate. }
  destruct (getMarketSentiment c) as [t|e3] eqn:S; cbn [bind].
  2:{ eexists _, _, _. split; [reflexivity|]. split; [auto|]. intros; discriminate. }
  destruct (get n "news") as [nn|] eqn:GN; cbn [bind].
  2:{ eexists _, _, _. split; [reflexivity|]. split; [auto|].
      intros n' d' t' E1 E2 E3 NN ND. injection E1 as <-.
      rewrite (get_field n) in GN by exact NN. discriminate. }
  destruct (get d "data") as [dd|] eqn:GD; cbn [bind].
  2:{ eexists _, _, _. split; [reflexivity|]. split; [auto|].
      intros n' d' t' E1 E2 E3 NN ND. injection E2 as <-.
      rewrite (get_field d) in GD by exact ND. discriminate. }
  eexists _, _, _. split; [reflexivity|]. split.
  - intros (e & [E|[E|E]]); discriminate E.
  - intros n' d' t' E1 E2 E3 NN ND.
    injection E1 as <-. injection E2 as <-. injection E3 as <-.
    apply get_Ok_field in GN, GD. subst. auto.
Qed.

End AgentClaims2.
Section CycleClaims.
Context `{Runtime}.
Import JS RAGAgent TradingEngine Decision JSFacts.

(** X16: In a trading cycle the workflow never rejects, whatever the
    collaborators do: with the portfolio that [fetchPortfolio] resolved to
    and the market data of [fetchMarketData], [runTradingCycle] builds its
    context without failure, [executeWorkflow] returns on it, and its
    decision is one the engine can act on. (Calls of the logger are taken to
    succeed.) *)
Theorem cycle_workflow_never_rejects :
  forall c all queried now getMarketTicker now' portfolio store,
    fetchPortfolio all queried now = Ok portfolio ->
    exists context wf store',
      ragContext portfolio (fetchMarketData getMarketTicker default_symbols now')
      = Ok context
      /\ field (field context "marketData") "description"
         = VStr "Market data for BTC/USD, ETH/USD"
      /\ executeWorkflow c context store = (Ok wf, store')
      /\ well_formed (decision wf).
Proof.
  intros c all queried now getMarketTicker now' portfolio store F.
  unfold fetchPortfolio in F.
  step F as A. destruct a as [[balance pendingOrders] exchangeInfo].
  step F as Q. step F as B. step F as N. step F as M.
  injection F as <-.
  match goal with
  | |- exists context wf store', ragContext ?P ?MD = _ /\ _ =>
      assert (C : exists context,
                 ragContext P MD = Ok context
                 /\ is_nullish context = false
                 /\ is_null (field context "marketData") = false
                 /\ field (field context "marketData") "description"
                    = VStr "Market data for BTC/USD, ETH/USD")
  end.
  { eexists. split; [|split; [|split]].
    - cbn [ragContext fetchMarketData get lookup String.eqb Ascii.eqb
           Bool.eqb bind default_symbols map join toString append].
      reflexivity.
    - reflexivity.
    - reflexivity.
    - reflexivity. }
  destruct C as (context & C & NN & NM & Desc).
  destruct (executeWorkflow_Ok c context store NN NM) as (wf & store' & E & D).
  exists context, wf, store'. split; [exact C|]. split; [exact Desc|].
  split; [exact E|].
  match type of D with
  | makeDecision ?c ?s ?p = _ =>
      destruct (makeDecision_shape c s p) as (d & D' & W)
  end.
  rewrite D in D'. now injection D' as <-.
Qed.

End CycleClaims.

(** X12, for instance: the reply of [Examples.collaborators_up], a BUY of
    0.5 BTC/USD, becomes a market order to buy. *)
Lemma decisions_become_tradable_orders_witness :
  RAGAgent.makeDecision Examples.collaborators_up (VStr "accumulate")
    Examples.portfolio_rich = Ok Examples.decision_buy
  /\ TradingEngine.executeDecision_begin Examples.default_config
       Examples.decision_buy Examples.portfolio_rich
     = Ok (TradingEngine.Submitted Examples.order_market_buy)
  /\ Decision.tradable Examples.order_market_buy.
Proof.
  assert (M : RAGAgent.makeDecision Examples.collaborators_up (VStr "accumulate")
                Examples.portfolio_rich = Ok Examples.decision_buy)
    by (vm_compute; reflexivity).
  assert (E : TradingEngine.executeDecision_begin Examples.default_config
                Examples.decision_buy Examples.portfolio_rich
              = Ok (TradingEngine.Submitted Examples.order_market_buy))
    by (vm_compute; reflexivity).
  split; [exact M|]. split; [exact E|].
  exact (proj1 (decisions_become_tradable_orders (H := host)
                  Examples.default_config Examples.collaborators_up
                  (VStr "accumulate") Examples.portfolio_rich
                  Examples.portfolio_rich Examples.decision_buy
                  Examples.order_market_buy M E)).
Defined.

(** X14, for instance: with DeepSeek down the store stays as it is. *)
Lemma retrieveStrategies_never_rejects_witness :
  exists r,
    RAGAgent.retrieveStrategies Examples.analysis_down Examples.context_cycle
      Examples.store_three = (Ok r, Examples.store_three)
    /\ RAGAgent.newStrategies r = VStr "".
Proof.
  destruct (retrieveStrategies_never_rejects (H := host) Examples.analysis_down
              Examples.context_cycle Examples.store_three eq_refl)
    as (r & s' & E & _ & _ & Down).
  destruct (Down Examples.network_error eq_refl) as (-> & N & _).
  exists r. split; [exact E|exact N].
Defined.

(** X16, for instance: with every collaborator down and no ticker, the cycle
    still gets a decision: the fallback. *)
Lemma cycle_workflow_never_rejects_witness :
  exists context wf store',
    TradingEngine.ragContext
      (VObj [("balance", VObj [("USD", VNum 100000)]);
             ("pendingOrderCount", VNum 0);
             ("pendingOrders", VArr []);
             ("exchangeInfo", VObj []);
             ("timestamp", VNum 1700000000000)])
      (TradingEngine.fetchMarketData (fun _ => Throw Examples.network_error)
         TradingEngine.default_symbols 1700000000000)
    = Ok context
    /\ RAGAgent.executeWorkflow Examples.analysis_down context
         Examples.empty_store = (Ok wf, store')
    /\ Decision.well_formed (RAGAgent.decision wf).
Proof.
  destruct (cycle_workflow_never_rejects (H := host) Examples.analysis_down
              (Ok (VObj [("Balance", VObj [("USD", VNum 100000)])],
                   VObj [], VNull))
              (Ok (VObj [])) 1700000000000
              (fun _ => Throw Examples.network_error) 1700000000000
              _ Examples.empty_store eq_refl)
    as (context & wf & store' & C & _ & E & W).
  exists context, wf, store'. split; [exact C|]. split; [exact E|exact W].
Defined.


(** X11, for instance: with DeepSeek down the decision is the fallback,
    which is well formed. *)
Lemma makeDecision_well_formed_witness :
  exists d,
    RAGAgent.makeDecision Examples.analysis_down (VStr "accumulate")
      Examples.portfolio_rich = Ok d
    /\ d = RAGAgent.hold_fallback
    /\ Decision.well_formed d.
Proof.
  destruct (makeDecision_well_formed (H := host) Examples.analysis_down
              (VStr "accumulate") Examples.portfolio_rich) as (d & M & W).
  exists d. split; [exact M|]. split; [|exact W].
  vm_compute in M. now injection M as <-.
Defined.

(** X13, for instance: a text that speaks of selling. *)
Lemma extractAction_supported_witness :
  RAGAgent.extractAction (VStr "I would sell now") = Ok "SELL"
  /\ RAGAgent.extractAction (VStr "i would sell now") = Ok "SELL"
  /\ RAGAgent.extractAction (VStr "Sell, then buy back") = Ok "BUY".
Proof.
  destruct (extractAction_supported "I would sell now")
    as (a & E & _ & _ & _ & C).
  assert (A : a = "SELL") by (vm_compute in E; now injection E as <-).
  subst a. split; [exact E|]. split; [exact (proj1 (C eq_refl))|].
  destruct (extractAction_supported "Sell, then buy back")
    as (a & E' & _ & B & _).
  rewrite E', (B eq_refl). reflexivity.
Defined.

(** X15, for instance: the stock data fail, and the news that arrived are
    dropped with them. *)
Lemma collectMarketData_all_or_nothing_witness :
  RAGAgent.collectMarketData Examples.stock_data_down
    (VArr [VStr "BTC/USD"; VStr "ETH/USD"])
  = Ok (VObj [("news", VStr ""); ("stockData", VStr "");
              ("sentiment", VStr "")]).
Proof.
  destruct (collectMarketData_all_or_nothing Examples.stock_data_down
              (VArr [VStr "BTC/USD"; VStr "ETH/USD"]))
    as (news & stock & sentiment & E & Fail & _).
  rewrite E.
  destruct Fail as (-> & -> & ->);
    [exists Examples.network_error; right; left; reflexivity|reflexivity].
Defined.
(* ================================================================== *)
(** * [normalizeDecision] on its own result *)
(* ================================================================== *)

Module TrimFacts.
Import Decision.

Lemma drop_headless l : headless (Str.drop_spaces l).
Proof.
  induction l as [|c tl IH]; cbn; [exact I|].
  destruct (Str.is_space c) eqn:E; [exact IH|exact E].
Qed.

Lemma drop_id l : headless l -> Str.drop_spaces l = l.
Proof. destruct l as [|c tl]; cbn; [reflexivity|]. now intros ->. Qed.

Lemma drop_split l : exists sp, l = (sp ++ Str.drop_spaces l)%list.
Proof.
  induction l as [|c tl (sp & IH)]; cbn; [now exists []|].
  destruct (Str.is_space c).
  - exists (c :: sp). cbn. now f_equal.
  - now exists [].
Qed.

Lemma headless_app l1 l2 : headless (l1 ++ l2) -> headless l1.
Proof. destruct l1; cbn; auto. Qed.

Lemma trim_chars l :
  let t := rev (Str.drop_spaces (rev (Str.drop_spaces l))) in
  rev (Str.drop_spaces (rev (Str.drop_spaces t))) = t.
Proof.
  cbv zeta.
  set (l1 := Str.drop_spaces l).
  set (d := Str.drop_spaces (rev l1)).
  assert (H1 : headless l1) by apply drop_headless.
  assert (Hd : headless d) by apply drop_headless.
  destruct (drop_split (rev l1)) as (sp & E). fold d in E.
  assert (E' : l1 = (rev d ++ rev sp)%list).
  { rewrite <- (rev_involutive l1), E, rev_app_distr. reflexivity. }
  assert (H2 : headless (rev d)).
  { rewrite E' in H1. now apply headless_app in H1. }
  rewrite (drop_id _ H2), rev_involutive, (drop_id _ Hd). reflexivity.
Qed.

Lemma trim_idem s : Str.trim (Str.trim s) = Str.trim s.
Proof.
  unfold Str.trim. unfold Str.chars, Str.of_chars.
  rewrite list_ascii_of_string_of_list_ascii.
  f_equal. apply trim_chars.
Qed.

End TrimFacts.

Section RenormalizeFacts.
Context `{Runtime}.
Import JS RAGAgent Spec JSFacts ClampFacts FloatFacts FloatOrder TrimFacts.

Lemma set_same k v : forall props,
  lookup k props = Some v -> set k v props = props.
Proof.
  induction props as [|[k' v'] tl IH]; cbn; [discriminate|].
  destruct (String.eqb k k') eqn:E.
  - apply String.eqb_eq in E. subst. now intros [= ->].
  - intros L. now rewrite (IH L).
Qed.

Lemma nullish_twice a b z :
  nullish (nullish a (nullish b (VStr ""))) z = nullish a (nullish b (VStr "")).
Proof. destruct a, b; reflexivity. Qed.

Lemma nullish_null a : nullish (nullish a VNull) VNull = nullish a VNull.
Proof. destruct a; reflexivity. Qed.

(** The clamped number is [0], [1] or the number itself, and clamping
    it again changes nothing. *)
Lemma clamp01_cases x :
  clamp01 x = 0%float \/ clamp01 x = 1%float
  \/ (clamp01 x = x /\ PrimFloat.ltb 0 x = true).
Proof.
  unfold clamp01.
  destruct (Num.isFinite x) eqn:F; [|now left].
  pose proof (finite_not_nan x F) as N.
  unfold Num.Math_max, Num.Math_min. rewrite N.
  change (is_nan 1) with false. change (is_nan 0) with false.
  change (get_sign 1) with false. change (get_sign 0) with false. cbn [orb].
  destruct (PrimFloat.ltb 1 x) eqn:A; [right; now left|].
  assert (M : (if PrimFloat.ltb x 1 then x else x) = x)
    by (destruct (PrimFloat.ltb x 1); reflexivity).
  rewrite M, N.
  destruct (PrimFloat.ltb 0 x) eqn:B; [right; right; now split|].
  left. destruct (PrimFloat.ltb x 0); reflexivity.
Qed.

Lemma clamp01_again x :
  clamp01 (if PrimFloat.is_zero (clamp01 x) then PrimFloat.zero else clamp01 x)
  = clamp01 x.
Proof.
  destruct (clamp01_cases x) as [E|[E|[E P]]]; rewrite E.
  - reflexivity.
  - reflexivity.
  - assert (Z : PrimFloat.is_zero x = false).
    { unfold PrimFloat.is_zero.
      destruct (PrimFloat.eqb x PrimFloat.zero) eqn:Q; [|reflexivity].
      change PrimFloat.zero with 0%float in Q. float_order. }
    rewrite Z. exact E.
Qed.

Lemma normalizeDecision_confidence decision props :
  normalizeDecision decision = Ok (VObj props) ->
  exists x, lookup "confidence" props = Some (VNum (clamp01 x)).
Proof.
  unfold normalizeDecision. intros N.
  destruct (negb (truthy decision) || negb (typeof_object decision)) eqn:G;
    [discriminate|].
  step N as GI. cbv zeta in N.
  step N as Ga. step N as Ea. step N as Eempty. step N as Einc.
  step N as Gr. step N as Ge. step N as Gc. step N as Ex.
  step N as Ebs.
  - step N as Gs. step N as Gt. step N as Es. step N as Esym.
    step N as Gq. step N as Gz. step N as Gm.
    match type of N with
    | (match ?q with _ => _ end) = _ => destruct q; try discriminate N
    end.
    step N as Eq. injection N as <-. eexists. lookup_set.
  - step N as Gs. injection N as <-. eexists. lookup_set.
Qed.

End RenormalizeFacts.
Section RenormalizeClaims.
Context `{Runtime}.
Import JS RAGAgent Spec JSFacts ClampFacts FloatFacts FloatOrder TrimFacts.

(** X17: [normalizeDecision] is idempotent: what it returns it accepts, and
    returns unchanged, unless the result carries an object under the key
    [decision] (which the normalizer would unwrap). *)
Theorem normalizeDecision_idempotent :
  forall decision normalized,
    normalizeDecision decision = Ok normalized ->
    typeof_object (field normalized "decision")
    && negb (is_null (field normalized "decision")) = false ->
    normalizeDecision normalized = Ok normalized.
Proof.
  intros decision normalized N HD.
  destruct (normalizeDecision_inv _ _ N)
    as (inner & _ & (props & action & confidence & -> & A & I & _ & C & _ & _
                     & _ & R & BS & HO)).
  destruct (normalizeDecision_confidence _ _ N) as (x & CX).
  rewrite CX in C. injection C as <-.
  unfold normalizeDecision.
  cbn [truthy typeof_object negb orb get bind].
  unfold field in HD. cbn [get] in HD.
  cbv zeta. unfold unwrap. rewrite HD.
  cbn [get bind spread]. rewrite A, R, CX.
  cbn [or_else truthy].
  set (Rv := nullish (field (unwrap decision inner) "reasoning")
               (nullish (field (unwrap decision inner) "explanation") (VStr "")))
    in *.
  assert (RR : forall z, nullish Rv z = Rv) by (intros z; apply nullish_twice).
  rewrite RR.
  assert (CC : parseFloat (nullish (VNum (clamp01 x)) (VNum 0))
               = Ok (if PrimFloat.is_zero (clamp01 x) then PrimFloat.zero
                     else clamp01 x)) by reflexivity.
  rewrite CC. cbn [bind]. rewrite clamp01_again.
  assert (Fix : set "confidence" (VNum (clamp01 x))
                  (set "reasoning" Rv (set "action" (VStr action) props))
                = props).
  { now rewrite (set_same _ _ _ A), (set_same _ _ _ R), (set_same _ _ _ CX). }
  cbn in I. destruct I as [<-|[<-|[<-|[]]]].
  - destruct (BS (or_introl eq_refl))
      as (symbol & quantity & s & _ & -> & NE & S & _ & F & P & Q).
    cbn [or_else truthy Str.is_empty negb toString_method toString bind].
    change (Str.toUpperCase (Str.trim "BUY")) with "BUY".
    cbn [Str.is_empty includes actions existsb String.eqb Ascii.eqb Bool.eqb
         orb negb andb].
    rewrite S, Q.
    assert (E : Str.is_empty (Str.trim s) = false)
      by (destruct (Str.trim s); [contradiction|reflexivity]).
    assert (OE : forall z, or_else (VStr (Str.trim s)) z = VStr (Str.trim s))
      by (intros z; unfold or_else; cbn [truthy]; now rewrite E).
    rewrite OE. cbn [toString_method toString bind].
    rewrite trim_idem, E. cbn [nullish].
    assert (L : Num.le quantity 0 = false)
      by (unfold Num.le; apply finite_not_nan in F; float_order).
    rewrite F, L. cbn [negb orb]. rewrite Fix.
    now rewrite (set_same _ _ _ S), (set_same _ _ _ Q).
  - destruct (BS (or_intror eq_refl))
      as (symbol & quantity & s & _ & -> & NE & S & _ & F & P & Q).
    cbn [or_else truthy Str.is_empty negb toString_method toString bind].
    change (Str.toUpperCase (Str.trim "SELL")) with "SELL".
    cbn [Str.is_empty includes actions existsb String.eqb Ascii.eqb Bool.eqb
         orb negb andb].
    rewrite S, Q.
    assert (E : Str.is_empty (Str.trim s) = false)
      by (destruct (Str.trim s); [contradiction|reflexivity]).
    assert (OE : forall z, or_else (VStr (Str.trim s)) z = VStr (Str.trim s))
      by (intros z; unfold or_else; cbn [truthy]; now rewrite E).
    rewrite OE. cbn [toString_method toString bind].
    rewrite trim_idem, E. cbn [nullish].
    assert (L : Num.le quantity 0 = false)
      by (unfold Num.le; apply finite_not_nan in F; float_order).
    rewrite F, L. cbn [negb orb]. rewrite Fix.
    now rewrite (set_same _ _ _ S), (set_same _ _ _ Q).
  - destruct (HO eq_refl) as (Q & S).
    cbn [or_else truthy Str.is_empty negb toString_method toString bind].
    change (Str.toUpperCase (Str.trim "HOLD")) with "HOLD".
    cbn [Str.is_empty includes actions existsb String.eqb Ascii.eqb Bool.eqb
         orb negb andb].
    rewrite S, nullish_null, Fix.
    now rewrite (set_same _ _ _ S), (set_same _ _ _ Q).
Qed.

End RenormalizeClaims.

(** X17, for instance: the decision made from [Examples.proposal_limit_sell]
    is normalized to itself. *)
Lemma normalizeDecision_idempotent_witness :
  RAGAgent.normalizeDecision Examples.proposal_limit_sell
  = Ok Examples.decision_limit_sell
  /\ RAGAgent.normalizeDecision Examples.decision_limit_sell
     = Ok Examples.decision_limit_sell.
Proof.
  assert (N : RAGAgent.normalizeDecision (H := host) Examples.proposal_limit_sell
              = Ok Examples.decision_limit_sell) by (vm_compute; reflexivity).
  split; [exact N|].
  exact (normalizeDecision_idempotent (H := host) _ _ N eq_refl).
Defined.

(* ================================================================== *)
(** * More about the risk manager *)
(* ================================================================== *)

Module NanFacts.
Import FloatFacts FloatOrder.

Lemma is_nan_SF x : PrimFloat.is_nan x = true -> Prim2SF x = S754_nan.
Proof.
  rewrite is_nan_key. unfold fkey.
  destruct (Prim2SF x) as [[]|[]| |[] m e]; cbn; try discriminate; reflexivity.
Qed.

Lemma SF_is_nan x : Prim2SF x = S754_nan -> PrimFloat.is_nan x = true.
Proof. rewrite is_nan_key. unfold fkey. now intros ->. Qed.

Lemma mul_nan_l x y :
  PrimFloat.is_nan x = true -> PrimFloat.is_nan (x * y) = true.
Proof.
  intros N. apply SF_is_nan. rewrite FloatAxioms.mul_spec, (is_nan_SF x N).
  reflexivity.
Qed.

Lemma div_nan_l x y :
  PrimFloat.is_nan x = true -> PrimFloat.is_nan (x / y) = true.
Proof.
  intros N. apply SF_is_nan. rewrite FloatAxioms.div_spec, (is_nan_SF x N).
  reflexivity.
Qed.

Lemma gt_nan_l x y : PrimFloat.is_nan x = true -> Num.gt x y = false.
Proof. unfold Num.gt. intros N. float_order. Qed.

Lemma le_nan_l x y : PrimFloat.is_nan x = true -> Num.le x y = false.
Proof. unfold Num.le. intros N. float_order. Qed.

Lemma max_zero_not_negative q : PrimFloat.ltb (Num.Math_max 0 q) 0 = false.
Proof.
  unfold Num.Math_max. change (PrimFloat.is_nan 0) with false.
  change (PrimFloat.get_sign 0) with false. cbn [orb].
  destruct (PrimFloat.is_nan q) eqn:N; [reflexivity|].
  destruct (PrimFloat.ltb 0 q) eqn:A; [float_order|].
  destruct (PrimFloat.ltb q 0) eqn:B; [reflexivity|reflexivity].
Qed.

End NanFacts.

Section RiskClaims.
Context `{Runtime}.
Import JS RiskManager Spec NanFacts.

(** X18: [validateOrder] does not reject a quantity that is not a number: an
    order whose quantity is a string that [parseFloat] cannot read (and that
    is not a LIMIT order without a positive price) is accepted against every
    portfolio, whatever its balances, because every comparison with NaN is
    false. *)
Theorem validateOrder_accepts_unparsable_quantity :
  forall config order portfolio,
    well_typed_order order portfolio = true ->
    truthy (field order "pair") = true ->
    truthy (field order "side") = true ->
    truthy (field order "quantity") = true ->
    PrimFloat.is_nan (number (field order "quantity")) = true ->
    is_string (field order "order_type") "LIMIT"
    && (absent (field order "price")
        || Num.le (number (field order "price")) 0) = false ->
    exists v,
      validateOrder config order portfolio = Ok v /\ valid v = true.
Proof.
  intros config order portfolio W P S Q N L.
  destruct (validateOrder_plain config order portfolio W) as (v & E & V & _).
  exists v. split; [exact E|]. rewrite V. apply negb_true_iff.
  unfold rejects, order_value. unfold absent in L |- *.
  rewrite P, S, Q, L. cbn [negb orb].
  rewrite (le_nan_l _ _ N).
  rewrite (gt_nan_l _ _ (mul_nan_l _ _ N)).
  rewrite (gt_nan_l _ _ N).
  rewrite (gt_nan_l _ _ (div_nan_l _ _ (mul_nan_l _ _ N))).
  now rewrite !andb_false_r.
Qed.

(** X19: The quantity that [calculatePositionSize] returns is never below 0,
    whatever the balances, the confidence and the risk parameters. *)
Theorem calculatePositionSize_never_negative :
  forall config signal balance riskParams,
    well_typed_signal signal balance riskParams = true ->
    exists r,
      calculatePositionSize config signal balance riskParams = Ok r
      /\ PrimFloat.ltb (quantity r) 0 = false.
Proof.
  intros config signal balance riskParams W.
  destruct (calculatePositionSize_plain config signal balance riskParams W)
    as (r & E & F).
  exists r. split; [exact E|].
  destruct (truthy (field signal "price")).
  - destruct F as (_ & _ & _ & -> & _). apply max_zero_not_negative.
  - destruct F as (-> & _). reflexivity.
Qed.

End RiskClaims.

(** X18, for instance: a market BUY of "lots" BTC/USD against an empty
    portfolio is accepted. *)
Lemma validateOrder_accepts_unparsable_quantity_witness :
  RiskManager.validateOrder Examples.default_config
    (VObj [("pair", VStr "BTC/USD"); ("side", VStr "BUY");
           ("quantity", VStr "lots")])
    (VObj [("balance", VObj [])])
  = Ok {| RiskManager.valid := true;
          RiskManager.reason := Some "Order validated successfully" |}.
Proof.
  destruct (validateOrder_accepts_unparsable_quantity (H := host)
              Examples.default_config
              (VObj [("pair", VStr "BTC/USD"); ("side", VStr "BUY");
                     ("quantity", VStr "lots")])
              (VObj [("balance", VObj [])])
              eq_refl eq_refl eq_refl eq_refl eq_refl eq_refl)
    as (v & E & V).
  rewrite E. vm_compute in E. injection E as <-. reflexivity.
Defined.

(** X19, for instance: a debt of 1000 USD gives the quantity 0, not a
    negative one. *)
Lemma calculatePositionSize_never_negative_witness :
  exists r,
    RiskManager.calculatePositionSize Examples.default_config
      Examples.signal_full (VObj [("USD", VNum (-1000))]) Examples.risk_params
    = Ok r
    /\ PrimFloat.ltb (RiskManager.quantity r) 0 = false
    /\ RiskManager.quantity r = 0%float.
Proof.
  destruct (calculatePositionSize_never_negative (H := host)
              Examples.default_config Examples.signal_full
              (VObj [("USD", VNum (-1000))]) Examples.risk_params eq_refl)
    as (r & E & Q).
  exists r. split; [exact E|]. split; [exact Q|].
  vm_compute in E. injection E as <-. reflexivity.
Defined.

(* ================================================================== *)
(** * The requests to the exchange *)
(* ================================================================== *)

Module KeyOrder.

Lemma ascii_compare_N a b :
  Ascii.compare a b = N.compare (N_of_ascii a) (N_of_ascii b).
Proof. reflexivity. Qed.

Lemma ascii_compare_trans a b c r :
  Ascii.compare a b = r -> Ascii.compare b c = r -> Ascii.compare a c = r.
Proof.
  rewrite !ascii_compare_N. intros <-.
  destruct (N.compare_spec (N_of_ascii a) (N_of_ascii b)) as [E|L|L];
    intros Hbc.
  - now rewrite E.
  - apply N.compare_lt_iff in Hbc. apply N.compare_lt_iff.
    now apply (N.lt_trans _ (N_of_ascii b)).
  - apply N.compare_gt_iff in Hbc. apply N.compare_gt_iff.
    now apply (N.lt_trans _ (N_of_ascii b)).
Qed.

Lemma compare_refl s : String.compare s s = Eq.
Proof.
  induction s as [|a s IH]; cbn; [reflexivity|].
  now rewrite ascii_compare_N, N.compare_refl.
Qed.

Lemma compare_lt_trans s1 : forall s2 s3,
  String.compare s1 s2 = Lt -> String.compare s2 s3 = Lt ->
  String.compare s1 s3 = Lt.
Proof.
  induction s1 as [|a s1 IH]; intros [|b s2] [|c s3]; cbn; try discriminate;
    try reflexivity.
  destruct (Ascii.compare a b) eqn:AB; try discriminate;
    destruct (Ascii.compare b c) eqn:BC; try discriminate; intros H1 H2.
  - apply Ascii.compare_eq_iff in AB, BC. subst.
    rewrite ascii_compare_N, N.compare_refl. now apply (IH s2).
  - apply Ascii.compare_eq_iff in AB. subst. now rewrite BC.
  - apply Ascii.compare_eq_iff in BC. subst. now rewrite AB.
  - now rewrite (ascii_compare_trans a b c Lt AB BC).
Qed.

Lemma string_leb_trans s1 s2 s3 :
  String.leb s1 s2 = true -> String.leb s2 s3 = true ->
  String.leb s1 s3 = true.
Proof.
  unfold String.leb.
  destruct (String.compare s1 s2) eqn:A; try discriminate;
    destruct (String.compare s2 s3) eqn:B; try discriminate; intros _ _.
  - apply String.compare_eq_iff in A, B. subst. now rewrite compare_refl.
  - apply String.compare_eq_iff in A. subst. now rewrite B.
  - apply String.compare_eq_iff in B. subst. now rewrite A.
  - now rewrite (compare_lt_trans _ _ _ A B).
Qed.

Lemma string_leb_false s1 s2 : String.leb s1 s2 = false -> String.leb s2 s1 = true.
Proof.
  intros F. destruct (String.leb_total s1 s2) as [T|T]; congruence.
Qed.

End KeyOrder.
Module RequestFacts.
Import JS RoostooClient KeyOrder JSFacts.

Lemma insert_key_comm a b : forall l,
  insert_key a (insert_key b l) = insert_key b (insert_key a l).
Proof.
  induction l as [|x tl IH]; cbn.
  - destruct (String.leb a b) eqn:AB, (String.leb b a) eqn:BA; try reflexivity.
    + now rewrite (String.leb_antisym _ _ AB BA).
    + apply string_leb_false in AB. congruence.
  - destruct (String.leb a x) eqn:AX, (String.leb b x) eqn:BX; cbn;
      rewrite ?AX, ?BX.
    + destruct (String.leb a b) eqn:AB, (String.leb b a) eqn:BA; try reflexivity.
      * now rewrite (String.leb_antisym _ _ AB BA).
      * apply string_leb_false in AB. congruence.
    + destruct (String.leb b a) eqn:BA; [|reflexivity].
      rewrite (string_leb_trans _ _ _ BA AX) in BX. discriminate.
    + destruct (String.leb a b) eqn:AB; [|reflexivity].
      rewrite (string_leb_trans _ _ _ AB BX) in AX. discriminate.
    + now rewrite IH.
Qed.

Lemma sort_keys_perm l1 l2 :
  Permutation l1 l2 -> sort_keys l1 = sort_keys l2.
Proof.
  unfold sort_keys.
  induction 1 as [|x l1 l2 P IH|x y l|l1 l2 l3 P1 IH1 P2 IH2]; cbn [fold_right].
  - reflexivity.
  - now rewrite IH.
  - apply insert_key_comm.
  - congruence.
Qed.

Lemma lookup_In k props : lookup k props <> None <-> In k (map fst props).
Proof.
  induction props as [|[k' v] tl IH]; cbn; [tauto|].
  destruct (String.eqb k k') eqn:E.
  - apply String.eqb_eq in E. subst. split; [auto|discriminate].
  - apply String.eqb_neq in E. rewrite IH. split; [auto|].
    intros [->|I]; [contradiction|exact I].
Qed.

Lemma keys_set k v : forall props,
  map fst (set k v props)
  = if has_own k props then map fst props else (map fst props ++ [k])%list.
Proof.
  unfold has_own. induction props as [|[k' v'] tl IH]; cbn; [reflexivity|].
  destruct (String.eqb k k') eqn:E; cbn.
  - apply String.eqb_eq in E. now subst.
  - rewrite IH. now destruct (lookup k tl).
Qed.

Lemma NoDup_set k v props :
  NoDup (map fst props) -> NoDup (map fst (set k v props)).
Proof.
  intros N. rewrite keys_set. unfold has_own.
  destruct (lookup k props) eqn:L; [exact N|].
  apply NoDup_app; [exact N|repeat constructor; auto|].
  intros x I [<-|[]]. apply lookup_In in I. congruence.
Qed.

Lemma same_keys p1 p2 :
  NoDup (map fst p1) -> NoDup (map fst p2) ->
  (forall k, lookup k p1 = lookup k p2) ->
  Permutation (map fst p1) (map fst p2).
Proof.
  intros N1 N2 L. apply NoDup_Permutation; [exact N1|exact N2|].
  intros k. rewrite <- !lookup_In, L. tauto.
Qed.

Section WithRuntime.
Context `{Runtime}.

Lemma query_parts_ext p1 p2 keys :
  (forall k, lookup k p1 = lookup k p2) ->
  query_parts p1 keys = query_parts p2 keys.
Proof.
  intros L. induction keys as [|k tl IH]; cbn; [reflexivity|].
  now rewrite L, IH.
Qed.

End WithRuntime.
End RequestFacts.

Section RequestClaims.
Context `{Runtime}.
Variable apiKey : string.
Variable generateSignature : string -> string.
Import JS RoostooClient RequestFacts JSFacts.

(** X20: The signed query string does not depend on the order in which the
    payload lists its properties: two payloads with the same properties get
    the same query string and the same signature. The time stamp of the
    request replaces a [timestamp] of the payload. *)
Theorem getSignedHeaders_canonical :
  forall now p1 p2 r1,
    NoDup (map fst p1) -> NoDup (map fst p2) ->
    (forall k, lookup k p1 = lookup k p2) ->
    getSignedHeaders apiKey generateSignature now (VObj p1) = Ok r1 ->
    exists r2,
      getSignedHeaders apiKey generateSignature now (VObj p2) = Ok r2
      /\ queryString r2 = queryString r1
      /\ headers r2 = headers r1
      /\ lookup "timestamp" (payload r1) = Some (VStr (Str.of_Z now)).
Proof.
  intros now p1 p2 r1 N1 N2 L G. unfold getSignedHeaders in *.
  cbn [RAGAgent.default_to spread] in *.
  set (ts := VStr (getTimestamp now)) in *.
  assert (L' : forall k, lookup k (set "timestamp" ts p1)
                         = lookup k (set "timestamp" ts p2)).
  { intros k. destruct (String.eqb "timestamp" k) eqn:E.
    - apply String.eqb_eq in E. subst. now rewrite !lookup_set_eq.
    - apply String.eqb_neq in E. now rewrite !lookup_set_ne. }
  assert (P : sort_keys (map fst (set "timestamp" ts p2))
              = sort_keys (map fst (set "timestamp" ts p1))).
  { apply sort_keys_perm, same_keys; auto using NoDup_set. }
  rewrite P, <- (query_parts_ext _ _ _ L').
  step G as Q. injection G as <-.
  eexists. split; [reflexivity|]. cbn.
  split; [reflexivity|]. split; [reflexivity|]. apply lookup_set_eq.
Qed.

End RequestClaims.
Section SubmissionFacts.
Context `{Runtime}.
Variable apiKey : string.
Variable generateSignature : string -> string.
Import JS RAGAgent TradingEngine RoostooClient Decision JSFacts Requests.

(** The order that [executeDecision] submits, property by property. *)
Lemma executeDecision_begin_shape config decision held order :
  executeDecision_begin config decision held = Ok (Submitted order) ->
  exists q price_part v,
    order = VObj ([("pair", field decision "symbol");
                   ("side", field decision "action");
                   ("order_type",
                    default_to (VStr "MARKET") (field decision "order_type"));
                   ("quantity", VNum q)] ++ price_part)%list
    /\ parseFloat (field decision "quantity") = Ok q
    /\ (price_part = [] \/ exists p, price_part = [("price", VNum p)])
    /\ RiskManager.validateOrder config order held = Ok v
    /\ RiskManager.valid v = true.
Proof.
  unfold executeDecision_begin. intros E.
  step E as Ga. apply get_Ok_field in Ga. subst a.
  step E as Gs. apply get_Ok_field in Gs. subst a.
  step E as Gq. apply get_Ok_field in Gq. subst a.
  step E as Gp. apply get_Ok_field in Gp. subst a.
  step E as Go. apply get_Ok_field in Go. subst a.
  cbv zeta in E. step E as Hold. step E as Missing.
  unfold catch in E.
  match type of E with (match ?b with _ => _ end) = _ => destruct b as [ex|] eqn:B end;
    [|discriminate E].
  injection E as ->.
  step B as P. rename a into o. step B as V. rename a into v.
  step B as Valid. injection B as <-. apply negb_false_iff in Valid.
  unfold prepare_order in P.
  step P as Q. rename a into q. step P as PP. rename a into price_part.
  injection P as <-.
  exists q, price_part, v. split; [reflexivity|]. split; [reflexivity|].
  split; [|split; [exact V|exact Valid]].
  destruct (truthy (field decision "price")).
  - step PP as PF. injection PP as <-. right. eauto.
  - injection PP as <-. now left.
Qed.

(** A LIMIT order that [validateOrder] accepts has a price. *)
Lemma validated_limit_has_price config order held v :
  is_nullish order = false ->
  RiskManager.validateOrder config order held = Ok v ->
  RiskManager.valid v = true ->
  is_string (field order "order_type") "LIMIT" = true ->
  truthy (field order "price") = true.
Proof.
  intros NN V Valid L. unfold RiskManager.validateOrder in V.
  rewrite !(get_field order) in V by exact NN. cbn [bind] in V.
  match type of V with
  | (if ?c then _ else _) = _ =>
      destruct c; [injection V as <-; discriminate Valid|]
  end.
  step V as Q.
  match type of V with
  | (if ?c then _ else _) = _ =>
      destruct c; [injection V as <-; discriminate Valid|]
  end.
  rewrite L in V.
  destruct (truthy (field order "price")); [reflexivity|].
  cbn [negb bind] in V. injection V as <-. discriminate Valid.
Qed.

Lemma all_strings_set k s props :
  all_strings props -> all_strings (set k (VStr s) props).
Proof.
  intros A k' v. destruct (String.eqb k k') eqn:E.
  - apply String.eqb_eq in E. subst. rewrite lookup_set_eq.
    intros [= <-]. eauto.
  - apply String.eqb_neq in E. rewrite lookup_set_ne by exact E. apply A.
Qed.

Lemma all_strings_nil : all_strings [].
Proof. intros k v L. discriminate L. Qed.

Lemma all_strings_cons k s props :
  all_strings props -> all_strings ((k, VStr s) :: props).
Proof.
  intros A k' v. cbn. destruct (String.eqb k' k); [|apply A].
  intros [= <-]. eauto.
Qed.

Lemma query_parts_Ok props keys :
  all_strings props -> exists parts, query_parts props keys = Ok parts.
Proof.
  intros A. induction keys as [|k tl (parts & IH)]; cbn; [eauto|].
  destruct (lookup k props) as [v|] eqn:L.
  - destruct (A k v L) as (s & ->). cbn. rewrite IH. cbn. eauto.
  - cbn. rewrite IH. cbn. eauto.
Qed.

Lemma getSignedHeaders_strings now props :
  all_strings props ->
  exists r,
    getSignedHeaders apiKey generateSignature now (VObj props) = Ok r
    /\ payload r = set "timestamp" (VStr (getTimestamp now)) props.
Proof.
  intros A. unfold getSignedHeaders. cbn [default_to spread].
  destruct (query_parts_Ok
              (set "timestamp" (VStr (getTimestamp now)) props)
              (sort_keys (map fst (set "timestamp" (VStr (getTimestamp now)) props)))
              (all_strings_set _ _ _ A)) as (parts & ->).
  cbn [bind]. eexists. split; reflexivity.
Qed.

Lemma positive_truthy q : PrimFloat.ltb 0 q = true -> Num.truthy q = true.
Proof.
  intros P. unfold Num.truthy. rewrite (positive_not_zero q P).
  rewrite (FloatFacts.ltb_not_nan_r _ _ P). reflexivity.
Qed.

End SubmissionFacts.

Section SubmissionClaims.
Context `{Runtime}.
Variable apiKey : string.
Variable generateSignature : string -> string.
Import JS RAGAgent TradingEngine RoostooClient Decision JSFacts Requests.

(** X21: An order that [executeDecision] submits for the decision of
    [makeDecision] passes the parameter checks of [placeOrder], provided the
    decision leaves [order_type] out or gives it as a string that is not
    empty: the request is built, with the quantity as a string, the pair,
    the side and the order type of the order, and the stop type GTC. *)
Theorem placeOrder_accepts_submitted_orders :
  forall config c synthesized portfolio held d order now,
    makeDecision c synthesized portfolio = Ok d ->
    executeDecision_begin config d held = Ok (Submitted order) ->
    (field d "order_type" = VUndefined
     \/ exists t, field d "order_type" = VStr t /\ t <> "") ->
    exists r q,
      placeOrder apiKey generateSignature now order = Ok r
      /\ field order "quantity" = VNum q
      /\ lookup "quantity" (payload r) = Some (VStr (number_to_string q))
      /\ lookup "pair" (payload r) = Some (field order "pair")
      /\ lookup "side" (payload r) = Some (field order "side")
      /\ lookup "type" (payload r) = Some (field order "order_type")
      /\ lookup "stop_type" (payload r) = Some (VStr "GTC").
Proof.
  intros config c synthesized portfolio held d order now M E OT.
  destruct (makeDecision_shape c synthesized portfolio) as (d' & M' & W).
  rewrite M in M'. injection M' as <-.
  destruct (well_formed_tradable config d held order W E)
    as ((Side & (pair & Pair & NE) & (q & Q & F & P)) & ES & EP & EQ).
  destruct (executeDecision_begin_shape config d held order E)
    as (q' & price_part & v & Shape & PQ & PP & V & Valid).
  subst order.
  change (field d "symbol" = VStr pair) in Pair.
  change (VNum q' = VNum q) in Q. injection Q as ->.
  change (field d "action" = VStr "BUY" \/ field d "action" = VStr "SELL")
    in Side.
  clear ES EP EQ.
  match type of V with
  | RiskManager.validateOrder _ ?o _ = _ =>
      pose proof (validated_limit_has_price config o held v eq_refl V Valid)
        as LP
  end.
  change (is_string (default_to (VStr "MARKET") (field d "order_type")) "LIMIT"
          = true ->
          truthy (match lookup "price" price_part with
                  | Some x => x
                  | None => VUndefined
                  end) = true) in LP.
  assert (T : exists c0 t0,
             default_to (VStr "MARKET") (field d "order_type")
             = VStr (String c0 t0)).
  { destruct OT as [->|(t & -> & NT)]; [cbn; eauto|].
    destruct t; [contradiction|cbn; eauto]. }
  destruct T as (c0 & t0 & T). rewrite T in *.
  destruct pair as [|c1 p1]; [contradiction|]. rewrite Pair.
  pose proof (positive_truthy q P) as TQ.
  assert (S : exists side, field d "action" = VStr side /\ truthy (VStr side) = true).
  { destruct Side as [-> | ->]; eexists; split; reflexivity. }
  destruct S as (side & -> & TS).
  unfold placeOrder.
  cbn [get lookup app String.eqb Ascii.eqb Bool.eqb bind].
  cbn [truthy] in TS |- *. rewrite TS, TQ. cbn [negb orb Str.is_empty].
  cbn [toString_method toString bind].
  assert (Fin : forall props,
             all_strings props ->
             lookup "quantity" props = Some (VStr (number_to_string q)) ->
             lookup "pair" props = Some (VStr (String c1 p1)) ->
             lookup "side" props = Some (VStr side) ->
             lookup "type" props = Some (VStr (String c0 t0)) ->
             lookup "stop_type" props = Some (VStr "GTC") ->
             exists r q0,
               getSignedHeaders apiKey generateSignature now (VObj props) = Ok r
               /\ VNum q = VNum q0
               /\ lookup "quantity" (payload r)
                  = Some (VStr (number_to_string q0))
               /\ lookup "pair" (payload r) = Some (VStr (String c1 p1))
               /\ lookup "side" (payload r) = Some (VStr side)
               /\ lookup "type" (payload r) = Some (VStr (String c0 t0))
               /\ lookup "stop_type" (payload r) = Some (VStr "GTC")).
  { intros props A L1 L2 L3 L4 L5.
    destruct (getSignedHeaders_strings apiKey generateSignature now props A)
      as (r & G & Pl).
    exists r, q. split; [exact G|]. split; [reflexivity|].
    rewrite Pl, !lookup_set_ne by discriminate. auto. }
  destruct PP as [->|(p & ->)]; cbn [lookup String.eqb Ascii.eqb Bool.eqb] in *.
  - destruct (is_string (VStr (String c0 t0)) "LIMIT") eqn:L;
      [discriminate (LP eq_refl)|].
    cbn [andb default_to bind].
    apply Fin; try reflexivity.
    repeat apply all_strings_cons. apply all_strings_nil.
  - cbn [default_to].
    destruct (is_string (VStr (String c0 t0)) "LIMIT") eqn:L.
    + cbn [truthy] in LP |- *. rewrite (LP eq_refl). cbn [negb andb].
      cbn [toString_method toString bind].
      apply Fin; try reflexivity.
      apply all_strings_set.
      repeat apply all_strings_cons. apply all_strings_nil.
    + cbn [andb bind].
      apply Fin; try reflexivity.
      repeat apply all_strings_cons. apply all_strings_nil.
Qed.

End SubmissionClaims.
Section QueryFacts.
Context `{Runtime}.
Variable apiKey : string.
Variable generateSignature : string -> string.
Import JS RAGAgent RoostooClient JSFacts.

Lemma getSignedHeaders_payload now props r :
  getSignedHeaders apiKey generateSignature now (VObj props) = Ok r ->
  payload r = set "timestamp" (VStr (getTimestamp now)) props.
Proof.
  unfold getSignedHeaders. cbn [default_to spread]. intros G.
  step G as Q. now injection G as <-.
Qed.

(** The payload of [queryOrder] before the time stamp is added. *)
Lemma queryOrder_payload now params r :
  queryOrder apiKey generateSignature now params = Ok r ->
  exists base,
    (forall k, k <> "offset" -> k <> "limit" -> k <> "timestamp" ->
               lookup k (payload r) = lookup k base)
    /\ lookup "timestamp" (payload r) = Some (VStr (Str.of_Z now))
    /\ let params := default_to (VObj []) params in
       if truthy (field params "order_id") then
         exists id, base = [("order_id", VStr id)]
       else if truthy (field params "pair") then
         match field params "pending_only" with
         | VUndefined => base = [("pair", field params "pair")]
         | p => base = [("pair", field params "pair");
                        ("pending_only",
                         VStr (if truthy p then "TRUE" else "FALSE"))]
         end
       else base = [].
Proof.
  unfold queryOrder. intros Q. cbv zeta in Q.
  set (ps := default_to (VObj []) params) in *.
  step Q as G1. apply get_Ok_field in G1. subst a.
  step Q as G2. apply get_Ok_field in G2. subst a.
  step Q as G3. apply get_Ok_field in G3. subst a.
  step Q as G4. step Q as G5.
  step Q as B. rename a1 into base.
  step Q as O. rename a1 into with_offset.
  step Q as L. rename a1 into with_limit.
  apply getSignedHeaders_payload in Q.
  exists base. split; [|split].
  - intros k K1 K2 K3. rewrite Q, lookup_set_ne by congruence.
    assert (E2 : lookup k with_limit = lookup k with_offset).
    { destruct (truthy a0); [|now injection L as <-].
      step L as T. injection L as <-. now rewrite lookup_set_ne by congruence. }
    assert (E1 : lookup k with_offset = lookup k base).
    { destruct (truthy a); [|now injection O as <-].
      step O as T. injection O as <-. now rewrite lookup_set_ne by congruence. }
    congruence.
  - rewrite Q. apply lookup_set_eq.
  - cbv zeta. fold ps.
    destruct (truthy (field ps "order_id")).
    + step B as T. injection B as <-. eauto.
    + destruct (truthy (field ps "pair")); [|now injection B as <-].
      injection B as <-. destruct (field ps "pending_only"); reflexivity.
Qed.

End QueryFacts.

Section QueryClaims.
Context `{Runtime}.
Variable apiKey : string.
Variable generateSignature : string -> string.
Import JS RAGAgent RoostooClient JSFacts.

(** X22: [queryOrder] sends [pending_only] only together with a pair and
    without an order id: with an order id the request carries neither a pair
    nor [pending_only], and without pair and order id it carries none of the
    three, whatever [pending_only] says. The time stamp is always there. *)
Theorem queryOrder_sends_pending_only_with_pair :
  forall now params r,
    queryOrder apiKey generateSignature now params = Ok r ->
    let given := default_to (VObj []) params in
    lookup "timestamp" (payload r) = Some (VStr (Str.of_Z now))
    /\ (truthy (field given "order_id") = true ->
        lookup "pair" (payload r) = None
        /\ lookup "pending_only" (payload r) = None)
    /\ (truthy (field given "pair") = false ->
        lookup "pair" (payload r) = None
        /\ lookup "pending_only" (payload r) = None)
    /\ (lookup "pending_only" (payload r) <> None ->
        truthy (field given "order_id") = false
        /\ truthy (field given "pair") = true
        /\ field given "pending_only" <> VUndefined).
Proof.
  intros now params r Q given.
  destruct (queryOrder_payload apiKey generateSignature now params r Q) as (base & Same & TS & B).
  cbv zeta in B. fold given in B.
  rewrite !(Same "pair"), !(Same "pending_only") by discriminate.
  split; [exact TS|].
  destruct (truthy (field given "order_id")).
  - destruct B as (id & ->). cbn.
    repeat split; try reflexivity; try discriminate; congruence.
  - destruct (truthy (field given "pair")).
    + destruct (field given "pending_only"); subst base; cbn;
        repeat split; try reflexivity; try discriminate; congruence.
    + subst base. cbn. repeat split; try reflexivity; try discriminate; congruence.
Qed.

End QueryClaims.

(** X20, for instance: the two payloads [{b: 2, a: "x y"}] and [{a: "x y",
    b: 2}] sign the same query string, with the keys in order and the blank
    encoded. *)
Lemma getSignedHeaders_canonical_witness :
  exists r1 r2,
    RoostooClient.getSignedHeaders "key" (fun q => q) 1700000000000
      (VObj [("b", VNum 2); ("a", VStr "x y")]) = Ok r1
    /\ RoostooClient.getSignedHeaders "key" (fun q => q) 1700000000000
         (VObj [("a", VStr "x y"); ("b", VNum 2)]) = Ok r2
    /\ RoostooClient.queryString r1 = "a=x%20y&b=2&timestamp=1700000000000"
    /\ RoostooClient.queryString r2 = RoostooClient.queryString r1.
Proof.
  assert (G : RoostooClient.getSignedHeaders (H := host) "key" (fun q => q)
                1700000000000 (VObj [("b", VNum 2); ("a", VStr "x y")])
              = Ok {| RoostooClient.headers :=
                        [("RST-API-KEY", "key");
                         ("MSG-SIGNATURE", "a=x%20y&b=2&timestamp=1700000000000");
                         ("Content-Type", "application/x-www-form-urlencoded")];
                      RoostooClient.payload :=
                        [("b", VNum 2); ("a", VStr "x y");
                         ("timestamp", VStr "1700000000000")];
                      RoostooClient.queryString :=
                        "a=x%20y&b=2&timestamp=1700000000000" |})
    by (vm_compute; reflexivity).
  assert (N1 : NoDup (map fst [("b", VNum 2); ("a", VStr "x y")]))
    by (repeat constructor; cbn; intuition discriminate).
  assert (N2 : NoDup (map fst [("a", VStr "x y"); ("b", VNum 2)]))
    by (repeat constructor; cbn; intuition discriminate).
  assert (L : forall k, JS.lookup k [("b", VNum 2); ("a", VStr "x y")]
                        = JS.lookup k [("a", VStr "x y"); ("b", VNum 2)]).
  { intros k. cbn. destruct (String.eqb k "b") eqn:B, (String.eqb k "a") eqn:A;
      try reflexivity.
    apply String.eqb_eq in A, B. congruence. }
  match type of G with
  | _ = Ok ?r1 =>
      destruct (getSignedHeaders_canonical (H := host) "key" (fun q => q)
                  1700000000000 _ _ r1 N1 N2 L G) as (r2 & G2 & Q2 & _);
      exists r1, r2
  end.
  split; [exact G|]. split; [exact G2|]. split; [reflexivity|exact Q2].
Defined.

(** X21, for instance: the order of [Examples.collaborators_up] as
    [placeOrder] sends it. *)
Lemma placeOrder_accepts_submitted_orders_witness :
  exists r,
    RoostooClient.placeOrder "key" (fun q => q) 1700000000000
      Examples.order_market_buy = Ok r
    /\ JS.lookup "quantity" (RoostooClient.payload r) = Some (VStr "0.5")
    /\ JS.lookup "stop_type" (RoostooClient.payload r) = Some (VStr "GTC").
Proof.
  assert (M : RAGAgent.makeDecision Examples.collaborators_up (VStr "accumulate")
                Examples.portfolio_rich = Ok Examples.decision_buy)
    by (vm_compute; reflexivity).
  assert (E : TradingEngine.executeDecision_begin Examples.default_config
                Examples.decision_buy Examples.portfolio_rich
              = Ok (TradingEngine.Submitted Examples.order_market_buy))
    by (vm_compute; reflexivity).
  destruct (placeOrder_accepts_submitted_orders (H := host) "key" (fun q => q)
              Examples.default_config Examples.collaborators_up
              (VStr "accumulate") Examples.portfolio_rich
              Examples.portfolio_rich Examples.decision_buy
              Examples.order_market_buy 1700000000000 M E (or_introl eq_refl))
    as (r & q & P & Q & LQ & _ & _ & _ & LS).
  exists r. split; [exact P|]. split; [|exact LS].
  rewrite LQ. injection Q as <-. vm_compute. reflexivity.
Defined.

(** X22, for instance: the call of [fetchPortfolio], [queryOrder({
    pending_only: true })], sends the time stamp alone. *)
Lemma queryOrder_sends_pending_only_with_pair_witness :
  exists r,
    RoostooClient.queryOrder "key" (fun q => q) 1700000000000
      (VObj [("pending_only", VBool true)]) = Ok r
    /\ RoostooClient.payload r = [("timestamp", VStr "1700000000000")]
    /\ JS.lookup "pending_only" (RoostooClient.payload r) = None.
Proof.
  assert (Q : exists r,
             RoostooClient.queryOrder (H := host) "key" (fun q => q)
               1700000000000 (VObj [("pending_only", VBool true)]) = Ok r
             /\ RoostooClient.payload r = [("timestamp", VStr "1700000000000")]).
  { eexists. split; vm_compute; reflexivity. }
  destruct Q as (r & Q & P).
  destruct (queryOrder_sends_pending_only_with_pair (H := host) "key"
              (fun q => q) 1700000000000 _ r Q) as (_ & _ & NoPair & _).
  exists r. split; [exact Q|]. split; [exact P|].
  exact (proj2 (NoPair eq_refl)).
Defined.

Section LimitFacts.
Context `{Runtime}.
Import JS RAGAgent TradingEngine RiskManager Spec JSFacts.

(** What an accepting [validateOrder] has read on its way. *)
Lemma validated_inputs config order held v :
  is_nullish order = false ->
  validateOrder config order held = Ok v ->
  valid v = true ->
  is_nullish held = false
  /\ exists pair, field order "pair" = VStr pair.
Proof.
  intros NN V Valid. unfold validateOrder in V.
  rewrite !(get_field order) in V by exact NN. cbn [bind] in V.
  match type of V with
  | (if ?c then _ else _) = _ =>
      destruct c; [injection V as <-; discriminate Valid|]
  end.
  step V as Q.
  match type of V with
  | (if ?c then _ else _) = _ =>
      destruct c; [injection V as <-; discriminate Valid|]
  end.
  step V as L.
  match type of V with
  | (if ?c then _ else _) = _ =>
      destruct c; [injection V as <-; discriminate Valid|]
  end.
  step V as B. step V as P.
  split.
  - destruct held; try reflexivity; discriminate B.
  - unfold split_pair in P. destruct (field order "pair"); try discriminate P.
    eauto.
Qed.

End LimitFacts.

Section LimitClaims.
Context `{Runtime}.
Import JS RAGAgent TradingEngine RiskManager Spec JSFacts.

(** X23: The risk limits hold for every order that [executeDecision]
    submits, when the balances of the portfolio are numbers or strings: the
    value of the order is not above [maxPositionSize] times the total of the
    portfolio, a BUY does not cost more than the balance of the quote
    currency, and a SELL does not sell more than the balance of the base
    currency.  The two balance limits hold for a currency that the table
    holds and for one whose name no object inherits; under a name such as
    [constructor] a table without that entry sets no limit. *)
Theorem submitted_orders_within_limits :
  forall config decision held order,
    executeDecision_begin config decision held = Ok (Submitted order) ->
    plain_balance (field held "balance") = true ->
    Num.gt (order_value order / total_value held)%float (maxPositionSize config)
    = false
    /\ (is_string (field order "side") "BUY" = true ->
        inherited (balance_of held) (quote_currency (pair_of order)) = false ->
        Num.gt (order_value order)
               (amount (balance_of held) (quote_currency (pair_of order)))
        = false)
    /\ (is_string (field order "side") "SELL" = true ->
        inherited (balance_of held) (base_currency (pair_of order)) = false ->
        Num.gt (number (field order "quantity"))
               (amount (balance_of held) (base_currency (pair_of order)))
        = false).
Proof.
  intros config decision held order E PB.
  destruct (executeDecision_begin_shape config decision held order E)
    as (q & price_part & v & -> & _ & PP & V & Valid).
  match type of V with
  | validateOrder _ ?o _ = _ =>
      destruct (validated_inputs config o held v eq_refl V Valid)
        as (NH & pair & Pair);
      assert (W : well_typed_order o held = true)
  end.
  { unfold well_typed_order. rewrite NH, Pair, PB. cbn [is_nullish negb andb].
    destruct PP as [->|(p & ->)]; reflexivity. }
  match type of V with
  | validateOrder _ ?o _ = _ =>
      destruct (validateOrder_plain config o held W) as (v' & V' & R & _)
  end.
  rewrite V in V'. injection V' as <-. rewrite Valid in R.
  symmetry in R. apply negb_true_iff in R. unfold rejects in R.
  repeat match type of R with
         | _ || _ = false => apply orb_false_iff in R; destruct R as [R ?]
         end.
  split; [assumption|].
  split; intros S I;
    match goal with
    | X : is_string _ _ && _ && _ = false |- _ =>
        rewrite S, I in X; cbn [andb negb] in X; exact X
    end.
Qed.

End LimitClaims.

(** X23, for instance: the BUY of 0.5 BTC/USD against 100000 USD stays
    within the limits. *)
Lemma submitted_orders_within_limits_witness :
  TradingEngine.executeDecision_begin Examples.default_config
    Examples.decision_buy Examples.portfolio_rich
  = Ok (TradingEngine.Submitted Examples.order_market_buy)
  /\ Num.gt (Spec.order_value Examples.order_market_buy
             / Spec.total_value Examples.portfolio_rich)%float 0.1 = false
  /\ Num.gt (Spec.order_value Examples.order_market_buy)
            (Spec.amount (Spec.balance_of Examples.portfolio_rich) "USD")
     = false.
Proof.
  assert (E : TradingEngine.executeDecision_begin (H := host)
                Examples.default_config Examples.decision_buy
                Examples.portfolio_rich
              = Ok (TradingEngine.Submitted Examples.order_market_buy))
    by (vm_compute; reflexivity).
  split; [exact E|].
  destruct (submitted_orders_within_limits (H := host) _ _ _ _ E eq_refl)
    as (P & B & _).
  split; [exact P|]. exact (B eq_refl eq_refl).
Defined.
